(** * of/ofreg.py: optical-flow registration of ultrasound sessions

    A shallow embedding of [src/of/ofreg.py] and the properties of its
    specification.  The script is glue around NumPy, SciPy, DIPY and the
    Python runtime; those libraries enter the development as interfaces
    (type classes), the script's own control flow, indexing, dictionary
    updates and error paths are written out.

    Conventions.
    - A Python call either returns or raises: [res A] with [Ok] and [Raise].
    - Python [int] is [Z]; a [float] is an element of the carrier of
      [Float64], whose operations stand for IEEE binary64 arithmetic.
    - A [dict] is a [gmap] from its string keys; a NumPy array is its shape
      together with its row-major buffer.
    - Logging and console output ([ofreg_logger], [print],
      [sys.stdout.write]) and plotting change no value the script computes
      and are left out; the indexing that the plotting call performs is
      kept. *)

From Stdlib Require Import ZArith QArith Qround Qcanon String Ascii List Sorted Lia Bool.
From Stdlib Require Floats Uint63 OrderedTypeEx.
From stdpp Require Import gmap strings list fin_maps.

(** ** Exceptions and results *)

Inductive index_error : Type :=
| list_index_out_of_range
| axis_out_of_bounds (index axis size : Z)
| too_many_indices.

Inductive value_error : Type :=
| unpack_mismatch (got : nat)
| invalid_literal (text : string)
| time_data_mismatch (text : string)
| cannot_reshape (size : Z) (shape : list Z)
| negative_samples (num : Z)
| not_a_number
| file_format_not_understood.

Inductive exn : Type :=
| FileNotFoundError (path : string)
| KeyError (key : string)
| IndexError (what : index_error)
| ValueError (what : value_error)
| TypeError (what : string)
| ZeroDivisionError
| OverflowError
| LibraryError (who : string).

Inductive res (A : Type) : Type :=
| Ok (a : A)
| Raise (e : exn).
Arguments Ok {A} a.
Arguments Raise {A} e.

#[global] Instance res_ret : MRet res := @Ok.
#[global] Instance res_bind : MBind res :=
  λ A B f m, match m with Ok a => f a | Raise e => Raise e end.

Definition of_option {A} (e : exn) (o : option A) : res A :=
  match o with Some a => Ok a | None => Raise e end.

(** [l[i]] on a Python list, for an index that is not negative. *)
Definition list_item {A} (l : list A) (i : nat) : res A :=
  of_option (IndexError list_index_out_of_range) (l !! i).

(** [d[key]] on a Python dict. *)
Definition dict_item {A} (d : gmap string A) (key : string) : res A :=
  of_option (KeyError key) (d !! key).

(** ** Binary64 arithmetic

    The carrier and the operations of CPython and NumPy floats.  [of_Q q] is
    the binary64 nearest to the rational [q]: it gives float literals, the
    conversion of an [int], and [a / b] on two [int]s, which CPython rounds
    once from the exact quotient. *)

Class Float64 : Type := {
  float : Type;
  of_Q : Q → float;
  fadd : float → float → float;
  fsub : float → float → float;
  fmul : float → float → float;
  fdiv : float → float → float;
  fis_zero : float → bool;
  fceil : float → res Z;
  ftrunc : float → res Z
}.

Definition of_int `{Float64} (z : Z) : float := of_Q (inject_Z z).

(** A number read from a metadata file: [int] or [float]. *)
Inductive num `{Float64} : Type :=
| PyInt (z : Z)
| PyFloat (f : float).

Section Numbers.
Context `{Float64}.

Definition to_float (a : num) : float :=
  match a with PyInt z => of_int z | PyFloat f => f end.

Definition num_is_zero (a : num) : bool :=
  match a with PyInt z => (z =? 0)%Z | PyFloat f => fis_zero f end.

(** [a * b] *)
Definition py_mul (a b : num) : num :=
  match a, b with
  | PyInt x, PyInt y => PyInt (x * y)
  | _, _ => PyFloat (fmul (to_float a) (to_float b))
  end.

(** [a / b]: true division, [ZeroDivisionError] on a zero divisor. *)
Definition py_truediv (a b : num) : res float :=
  if num_is_zero b then Raise ZeroDivisionError
  else match a, b with
       | PyInt x, PyInt y => Ok (of_Q (inject_Z x / inject_Z y))
       | _, _ => Ok (fdiv (to_float a) (to_float b))
       end.

(** An argument that NumPy needs as an integer (a dimension, a sample
    count): a [float] there is a [TypeError]. *)
Definition as_index (a : num) : res Z :=
  match a with
  | PyInt z => Ok z
  | PyFloat _ => Raise (TypeError "'float' object cannot be interpreted as an integer")
  end.
End Numbers.

(** ** Text files *)

(** The files as the script finds them: the map from the paths of the
    regular files to their contents.  A directory is there when a path of
    the map leads through it. *)
Abbreviation filesystem := (gmap string (list Byte.byte)).

Definition LF : ascii := "010"%char.
Definition CR : ascii := "013"%char.

(** Text mode translates ["\r\n"] and ["\r"] to ["\n"]. *)
Fixpoint universal_newlines (s : string) : string :=
  match s with
  | EmptyString => EmptyString
  | String c s' =>
      if Ascii.eqb c CR then
        match s' with
        | String c' s'' =>
            if Ascii.eqb c' LF then String LF (universal_newlines s'')
            else String LF (universal_newlines s')
        | EmptyString => String LF EmptyString
        end
      else String c (universal_newlines s')
  end.

(** [open(path, 'r')] followed by reading the whole file.  Where [path] is
    no regular file the call raises: [FileNotFoundError] here also for a
    directory, for which Python has [IsADirectoryError], another [OSError]
    that the script does not catch either. *)
Definition open_text (fs : filesystem) (path : string) : res string :=
  data ← of_option (FileNotFoundError path) (fs !! path);
  Ok (universal_newlines (string_of_list_byte data)).

(** [open(path, 'rb').read()] *)
Definition open_binary (fs : filesystem) (path : string) : res (list Byte.byte) :=
  of_option (FileNotFoundError path) (fs !! path).

(** Iterating over a text file: the lines, each with its newline. *)
Fixpoint readlines (s : string) : list string :=
  match s with
  | EmptyString => []
  | String c s' =>
      if Ascii.eqb c LF then String c EmptyString :: readlines s'
      else match readlines s' with
           | [] => [String c EmptyString]
           | l :: ls => String c l :: ls
           end
  end.

(** [str.splitlines()] on translated text (no carriage return is left):
    the boundaries are line feed, vertical tab, form feed and the file,
    group and record separators. *)
Definition is_line_boundary (c : ascii) : bool :=
  match N_of_ascii c with
  | 10%N | 11%N | 12%N | 28%N | 29%N | 30%N => true
  | _ => false
  end.

Fixpoint splitlines (s : string) : list string :=
  match s with
  | EmptyString => []
  | String c s' =>
      if is_line_boundary c then EmptyString :: splitlines s'
      else match splitlines s' with
           | [] => [String c EmptyString]
           | l :: ls => String c l :: ls
           end
  end.

(** [s.split(sep)] for a one-character separator. *)
Fixpoint split (sep : ascii) (s : string) : list string :=
  match s with
  | EmptyString => [EmptyString]
  | String c s' =>
      if Ascii.eqb c sep then EmptyString :: split sep s'
      else match split sep s' with
           | [] => [String c EmptyString]
           | w :: ws => String c w :: ws
           end
  end.

(** ** Metadata Reader *)

(** The builtins [int(text)] and [float(text)]; [None] is [ValueError]. *)
Class Builtins `{Float64} : Type := {
  py_int : string → option Z;
  py_float : string → option float
}.

Section MetadataReader.
Context `{Builtins}.

(** The body of the [try]: [int(value_str)], on [ValueError]
    [float(value_str)]. *)
Definition parse_value (value_str : string) : res num :=
  match py_int value_str with
  | Some z => Ok (PyInt z)
  | None =>
      match py_float value_str with
      | Some f => Ok (PyFloat f)
      | None => Raise (ValueError (invalid_literal value_str))
      end
  end.

(** [(key, value_str) = line.split("=")] *)
Definition unpack2 (parts : list string) : res (string * string) :=
  match parts with
  | [key; value_str] => Ok (key, value_str)
  | _ => Raise (ValueError (unpack_mismatch (length parts)))
  end.

(** The [for line in metafile] loop, [meta] being the dictionary so far. *)
Fixpoint parse_lines (lines : list string) (meta : gmap string num)
  : res (gmap string num) :=
  match lines with
  | [] => Ok meta
  | line :: rest =>
      '(key, value_str) ← unpack2 (split "=" line);
      value ← parse_value value_str;
      parse_lines rest (<[key := value]> meta)
  end.

Definition _parse_ult_meta (fs : filesystem) (filebase : string)
  : res (gmap string num) :=
  text ← open_text fs filebase;
  parse_lines (readlines text) ∅.

Definition read_ult_meta (fs : filesystem) (filebase : string)
  : res (num * num * num * num * num) :=
  meta ← _parse_ult_meta fs filebase;
  NumVectors ← dict_item meta "NumVectors";
  PixPerVector ← dict_item meta "PixPerVector";
  PixelsPerMm ← dict_item meta "PixelsPerMm";
  FramesPerSec ← dict_item meta "FramesPerSec";
  TimeInSecsOfFirstFrame ← dict_item meta "TimeInSecsOfFirstFrame";
  Ok (NumVectors, PixPerVector, PixelsPerMm, FramesPerSec, TimeInSecsOfFirstFrame).
End MetadataReader.

(** ** Session Discoverer *)

(** [datetime.strptime(text, '%d/%m/%Y %I:%M:%S %p')] ([None] is
    [ValueError]) and the order [<] of the values it returns. *)
Class Datetime : Type := {
  datetime : Type;
  strptime : string → option datetime;
  dt_lt : datetime → datetime → bool
}.

(** The values a session descriptor holds. *)
Inductive pyobj `{Datetime} : Type :=
| PStr (s : string)
| PBool (b : bool)
| PDate (d : datetime).

(** [sorted(l)]: stable, and comparing with [<] alone. *)
Fixpoint insort {A} (lt : A → A → bool) (x : A) (l : list A) : list A :=
  match l with
  | [] => [x]
  | y :: l' => if lt x y then x :: l else y :: insort lt x l'
  end.

Definition sorted {A} (lt : A → A → bool) (l : list A) : list A :=
  fold_left (λ acc x, insort lt x acc) l [].

Fixpoint strip_prefix (pre s : string) : option string :=
  match pre, s with
  | EmptyString, _ => Some s
  | String a pre', String b s' =>
      if Ascii.eqb a b then strip_prefix pre' s' else None
  | String _ _, EmptyString => None
  end.

Definition ends_with (suffix s : string) : bool :=
  bool_decide (list_ascii_of_string suffix `suffix_of` list_ascii_of_string s).

Definition contains (c : ascii) (s : string) : bool :=
  existsb (Ascii.eqb c) (list_ascii_of_string s).

(** [s.rfind(c)]: the last position of [c], or [-1]. *)
Fixpoint rfind_from (c : ascii) (s : string) (i : Z) (found : Z) : Z :=
  match s with
  | EmptyString => found
  | String a s' => rfind_from c s' (i + 1) (if Ascii.eqb a c then i else found)
  end.

Definition rfind (c : ascii) (s : string) : Z := rfind_from c s 0 (-1).

(** [os.path.splitext(p)] on a POSIX path. *)
Definition splitext (p : string) : string * string :=
  let sepIndex := rfind "/" p in
  let dotIndex := rfind "." p in
  if (sepIndex <? dotIndex)%Z then
    let filenameIndex := Z.to_nat (sepIndex + 1) in
    let dot := Z.to_nat dotIndex in
    if forallb (Ascii.eqb ".")
         (list_ascii_of_string (substring filenameIndex (dot - filenameIndex) p))
    then (p, EmptyString)
    else (substring 0 dot p, substring dot (String.length p - dot) p)
  else (p, EmptyString).

(** [os.path.split(p)]: the text up to the last slash, less its final
    slashes unless it consists of slashes, and the text after that
    slash. *)
Fixpoint lstrip_slashes (l : list ascii) : list ascii :=
  match l with
  | c :: l' => if Ascii.eqb c "/" then lstrip_slashes l' else l
  | [] => []
  end.

Definition rstrip_slashes (s : string) : string :=
  string_of_list_ascii (rev (lstrip_slashes (rev (list_ascii_of_string s)))).

Definition os_path_split (p : string) : string * string :=
  let i := Z.to_nat (rfind "/" p + 1) in
  let head := substring 0 i p in
  let tail := substring i (String.length p - i) p in
  (if forallb (Ascii.eqb "/") (list_ascii_of_string head) then head
   else rstrip_slashes head,
   tail).

Definition is_absolute (p : string) : bool :=
  match p with
  | String c _ => Ascii.eqb c "/"
  | EmptyString => false
  end.

(** [os.path.join(a, b)] *)
Definition os_path_join (a b : string) : string :=
  if is_absolute b then b
  else if String.eqb a "" || ends_with "/" a then a +:+ b
  else a +:+ "/" +:+ b.

(** [glob.has_magic(s)]: a wildcard character occurs in [s]. *)
Definition has_magic (s : string) : bool :=
  contains "*" s || contains "?" s || contains "[" s.

(** What [glob] does with a directory part that holds wildcard characters:
    it expands it to the directories that match (the recursive call
    [_iglob(dirname, ..., dironly=True)] of its source, which matches the
    components with [fnmatch]). *)
Class Glob : Type := {
  iglob_dirs : filesystem → string → list string
}.

Section SessionDiscoverer.
Context `{Datetime} `{Glob}.

(** [os.path.isfile(path)] *)
Definition isfile (fs : filesystem) (path : string) : bool :=
  bool_decide (is_Some (fs !! path)).

(** The name under which [path] shows in the listing of [directory]: the
    first component of what follows the directory in it, if [path] lies
    below the directory. *)
Definition entry_name (directory path : string) : option string :=
  rest ← strip_prefix (os_path_join directory "") path;
  match split "/" rest with
  | name :: _ => if String.eqb name "" then None else Some name
  | [] => None
  end.

(** The names of the entries of [directory], regular files and
    subdirectories alike, each once, in the order of the listing.  The
    file system is a map from the paths of its regular files: a directory
    is there when a path of the map leads through it, and two paths are
    the same file when they are the same text. *)
Definition listdir (fs : filesystem) (directory : string) : list string :=
  remove_dups (omap (entry_name directory) (elements (dom fs))).

Definition is_hidden (name : string) : bool :=
  match name with
  | String c _ => Ascii.eqb c "."
  | EmptyString => false
  end.

(** The directories in which [glob.glob(directory + '/*' + suffix)]
    lists: the directory part of the pattern, expanded when it holds
    wildcard characters. *)
Definition glob_dirs (fs : filesystem) (directory suffix : string) : list string :=
  let dirname := (os_path_split (directory +:+ "/*" +:+ suffix)).1 in
  if has_magic dirname then iglob_dirs fs dirname else [dirname].

(** [glob.glob(directory + '/*' + suffix)] for a suffix without slash and
    wildcard: in every directory of the pattern, the entries whose name
    ends with the suffix and has no leading dot, each joined to its
    directory. *)
Definition glob_star (fs : filesystem) (directory suffix : string) : list string :=
  flat_map
    (λ dirname,
       map (os_path_join dirname)
           (List.filter (λ name, negb (is_hidden name) && ends_with suffix name)
                        (listdir fs dirname)))
    (glob_dirs fs directory suffix).

Definition read_prompt (fs : filesystem) (filebase : string)
  : res (string * datetime * string) :=
  text ← open_text fs filebase;
  let lines := splitlines text in
  prompt ← list_item lines 0;
  line1 ← list_item lines 1;
  date ← of_option (ValueError (time_data_mismatch line1)) (strptime line1);
  line2 ← list_item lines 2;
  participant ← list_item (split "," line2) 0;
  Ok (prompt, date, participant).

(** The body of the loop over the file bases: what it stores in
    [meta[i]], which starts as [{'filebase': fb}]. *)
Definition describe (fs : filesystem) (fb ult_prompt_file : string)
  : res (gmap string pyobj) :=
  let item : gmap string pyobj := {[ "filebase" := PStr fb ]} in
  let item := <["ult_prompt_file" := PStr ult_prompt_file]> item in
  '(prompt, date, participant) ← read_prompt fs ult_prompt_file;
  let item := <["prompt" := PStr prompt]> item in
  let item := <["date" := PDate date]> item in
  let item := <["participant" := PStr participant]> item in
  let ult_meta_file := fb +:+ "US.txt" in
  let ult_wav_file := fb +:+ ".wav" in
  let ult_file := fb +:+ ".ult" in
  let item :=
    if isfile fs ult_meta_file then
      <["ult_meta_exists" := PBool true]> (<["ult_meta_file" := PStr ult_meta_file]> item)
    else
      <["excluded" := PBool true]> (<["ult_meta_exists" := PBool false]> item) in
  let item :=
    if isfile fs ult_wav_file then
      <["ult_wav_exists" := PBool true]> (<["ult_wav_file" := PStr ult_wav_file]> item)
    else
      <["excluded" := PBool true]> (<["ult_wav_exists" := PBool false]> item) in
  let item :=
    if isfile fs ult_file then
      <["ult_exists" := PBool true]> (<["ult_file" := PStr ult_file]> item)
    else
      <["excluded" := PBool true]> (<["ult_exists" := PBool false]> item) in
  Ok item.

Definition describe_all (fs : filesystem) (prompt_files : list string)
  : res (list (gmap string pyobj)) :=
  mapM (λ pf, describe fs (splitext pf).1 pf) prompt_files.

(** [item['date']], the sort key. *)
Definition date_of (item : gmap string pyobj) : res datetime :=
  v ← dict_item item "date";
  match v with
  | PDate d => Ok d
  | _ => Raise (TypeError "'<' not supported")
  end.

Definition with_keys (items : list (gmap string pyobj))
  : res (list (datetime * gmap string pyobj)) :=
  mapM (λ item, d ← date_of item; Ok (d, item)) items.

Definition get_data_from_dir (fs : filesystem) (directory : string)
  : res (list (gmap string pyobj)) :=
  let ult_meta_files := sorted String.ltb (glob_star fs directory "US.txt") in
  let ult_prompt_files :=
    List.filter (λ prompt_file, negb (bool_decide (prompt_file ∈ ult_meta_files)))
                (glob_star fs directory ".txt") in
  let ult_prompt_files := sorted String.ltb ult_prompt_files in
  meta ← describe_all fs ult_prompt_files;
  keyed ← with_keys meta;
  Ok (map snd (sorted (λ a b, dt_lt a.1 b.1) keyed)).
End SessionDiscoverer.

(** ** Arrays *)

(** A NumPy array: its shape and its elements in row-major order. *)
Record ndarray `{Float64} : Type := { shape : list Z; buf : list float }.

Section Arrays.
Context `{Float64}.

Definition product (dims : list Z) : Z := foldr Z.mul 1%Z dims.

(** [a.reshape(newshape)]: every dimension is an [int]; one of them may be
    [-1] and is then inferred; the sizes have to agree. *)
Definition reshape (a : ndarray) (newshape : list num) : res ndarray :=
  dims ← mapM as_index newshape;
  let size := Z.of_nat (length (buf a)) in
  let bad := Raise (ValueError (cannot_reshape size dims)) in
  if existsb (λ d, d <? -1)%Z dims then bad
  else
    match length (List.filter (Z.eqb (-1)) dims) with
    | O => if (product dims =? size)%Z then Ok {| shape := dims; buf := buf a |} else bad
    | S O =>
        let known := product (List.filter (λ d, negb (d =? -1)%Z) dims) in
        if (known =? 0)%Z || negb (size mod known =? 0)%Z then bad
        else Ok {| shape := map (λ d, if (d =? -1)%Z then (size / known)%Z else d) dims;
                   buf := buf a |}
    | _ => bad
    end.

(** [a[i, :, :]] on a three-dimensional array, [i] not negative. *)
Definition frame_at (a : ndarray) (i : Z) : res ndarray :=
  match shape a with
  | [n; v; p] =>
      if (i <? n)%Z then
        Ok {| shape := [v; p];
              buf := take (Z.to_nat (v * p)) (drop (Z.to_nat (i * (v * p))) (buf a)) |}
      else Raise (IndexError (axis_out_of_bounds i 0 n))
  | _ => Raise (IndexError too_many_indices)
  end.

(** [np.transpose(a)] on a two-dimensional array. *)
Definition transpose (a : ndarray) : ndarray :=
  match shape a with
  | [r; c] =>
      {| shape := [c; r];
         buf := flat_map (λ j, map (λ i, nth (i * Z.to_nat c + j) (buf a) (of_int 0))
                                   (seq 0 (Z.to_nat r)))
                         (seq 0 (Z.to_nat c)) |}
  | _ => a
  end.

Definition set_last {A} (l : list A) (x : A) : list A :=
  match l with
  | [] => []
  | _ => take (length l - 1) l ++ [x]
  end.

(** [np.linspace(start, stop, num, endpoint)], as NumPy computes it: the
    indices [0 .. num-1] scaled by the step and shifted by [start]. *)
Definition linspace (start stop : float) (num : Z) (endpoint : bool)
  : res (list float) :=
  if (num <? 0)%Z then Raise (ValueError (negative_samples num))
  else
    let div := if endpoint then (num - 1)%Z else num in
    let delta := fsub stop start in
    let y := map (λ k, of_int (Z.of_nat k)) (seq 0 (Z.to_nat num)) in
    let y :=
      if (0 <? div)%Z then
        let step := fdiv delta (of_int div) in
        if fis_zero step then map (λ v, fmul (fdiv v (of_int div)) delta) y
        else map (λ v, fmul v step) y
      else map (λ v, fmul v delta) y in
    let y := map (λ v, fadd v start) y in
    Ok (if endpoint && (1 <? num)%Z then set_last y stop else y).
End Arrays.

(** ** The registration solver and the other libraries *)

(** DIPY's similarity metrics, with the arguments their constructors are
    given positionally. *)
Inductive metric `{Float64} : Type :=
| SSDMetric (dim : Z)
| CCMetric (dim : Z) (sigma_diff : float) (radius : Z)
| EMMetric (dim : Z).

Record SymmetricDiffeomorphicRegistration `{Float64} : Type := {
  sdr_metric : metric;
  sdr_level_iters : list Z;
  sdr_inv_iter : Z
}.

(** What the script calls in SciPy and DIPY.
    - [wavfile_read data]: [scipy.io.wavfile.read], the sample rate and
      the audio frames.
    - [interp2d x y z]: [scipy.interpolate.interp2d(x, y, z,
      kind='linear')]; [interp_call f xnew ynew] is [f(xnew, ynew)].
    - [optimize sdr static moving]: [sdr.optimize(static, moving)], the
      mapping with its forward and backward fields. *)
Class SciLibs `{Float64} : Type := {
  wav_frame : Type;
  wavfile_read : list Byte.byte → res (Z * list wav_frame);
  interpolant : Type;
  interp2d : list float → list float → ndarray → res interpolant;
  interp_call : interpolant → list float → list float → ndarray;
  mapping : Type;
  optimize : SymmetricDiffeomorphicRegistration → ndarray → ndarray → res mapping
}.

(** The values stored in the output dictionary [data]. *)
Inductive value `{SciLibs} : Type :=
| VMappings (l : list mapping)
| VArray (a : ndarray)
| VVector (l : list float).

(** ** The pipeline: [compute] *)

Section Pipeline.
Context `{Builtins} `{!SciLibs} `{Datetime}.

(** [item[key]] where a path or a text is expected. *)
Definition item_str (item : gmap string pyobj) (key : string) : res string :=
  v ← dict_item item key;
  match v with
  | PStr s => Ok s
  | _ => Raise (TypeError "expected str")
  end.

Definition read_wav (fs : filesystem) (filebase : string)
  : res (list wav_frame * Z) :=
  data ← open_binary fs filebase;
  '(samplerate, frames) ← wavfile_read data;
  Ok (frames, samplerate).

(** *** Frame Decoder (lines 181-188) *)

Definition frame_decoder (ult_data : list Byte.byte)
    (ult_NumVectors ult_PixPerVector : num) : res (ndarray * Z) :=
  (* np.fromstring(ult_data, dtype=np.uint8).astype("float32") *)
  let ultra := {| shape := [Z.of_nat (length ult_data)];
                  buf := map (λ b, of_int (Z.of_N (Byte.to_N b))) ult_data |} in
  q ← py_truediv (PyInt (Z.of_nat (length (buf ultra))))
                 (py_mul ult_NumVectors ult_PixPerVector);
  ult_no_frames ← ftrunc q;
  ultra ← reshape ultra [PyInt ult_no_frames; ult_NumVectors; ult_PixPerVector];
  Ok (ultra, ult_no_frames).

(** The local variables of [compute] once the raw file is decoded
    (lines 175-188). *)
Record session : Type := {
  ult_wav_frames : list wav_frame;
  ult_wav_fs : Z;
  ult_NumVectors : num;
  ult_PixPerVector : num;
  ult_PixelsPerMm : num;
  ult_fps : num;
  ult_TimeInSecOfFirstFrame : num;
  ultra : ndarray;
  ult_no_frames : Z
}.

Definition load_session (fs : filesystem) (item : gmap string pyobj) : res session :=
  _ ← item_str item "filebase";
  _ ← item_str item "prompt";
  wav_file ← item_str item "ult_wav_file";
  '(wav_frames, wav_fs) ← read_wav fs wav_file;
  meta_file ← item_str item "ult_meta_file";
  '(NumVectors, PixPerVector, PixelsPerMm, fps, TimeInSecOfFirstFrame) ←
    read_ult_meta fs meta_file;
  ult_file ← item_str item "ult_file";
  ult_data ← open_binary fs ult_file;
  '(frames, no_frames) ← frame_decoder ult_data NumVectors PixPerVector;
  Ok {| ult_wav_frames := wav_frames; ult_wav_fs := wav_fs;
        ult_NumVectors := NumVectors; ult_PixPerVector := PixPerVector;
        ult_PixelsPerMm := PixelsPerMm; ult_fps := fps;
        ult_TimeInSecOfFirstFrame := TimeInSecOfFirstFrame;
        ultra := frames; ult_no_frames := no_frames |}.

(** *** Isometric Resampler (lines 199-219) *)

Definition probe_array_length_mm : Z := 40.

(** The grids [x], [y], [xnew], [ynew] (lines 199-207). *)
Definition isometric_grids (NumVectors PixPerVector PixelsPerMm : num)
  : res (list float * list float * list float * list float) :=
  probe_array_depth_mm ← py_truediv PixPerVector PixelsPerMm;
  length_depth_ratio ←
    py_truediv (PyFloat probe_array_depth_mm) (PyInt probe_array_length_mm);
  n ← as_index NumVectors;
  x ← linspace (of_int 1) (to_float NumVectors) n true;
  p ← as_index PixPerVector;
  y ← linspace (of_int 1) (to_float PixPerVector) p true;
  xnew ← linspace (of_int 1) (to_float NumVectors) (n * 2) true;
  rows ← fceil (to_float (py_mul NumVectors (PyFloat length_depth_ratio)));
  ynew ← linspace (of_int 1) (to_float PixPerVector) (rows * 2) true;
  Ok (x, y, xnew, ynew).

(** [interpolate.interp2d(x, y, np.transpose(ultra[fIdx, :, :]),
    kind='linear')] *)
Definition interpolate_frame (x y : list float) (frames : ndarray) (fIdx : Z)
  : res interpolant :=
  fr ← frame_at frames fIdx;
  interp2d x y (transpose fr).

(** The loop [for fIdx in range(0, ult_no_frames)] (lines 217-219). *)
Definition resample_frames (x y xnew ynew : list float) (frames : ndarray)
    (no_frames : Z) : res (list ndarray) :=
  mapM (λ fIdx, f ← interpolate_frame x y frames (Z.of_nat fIdx);
                Ok (interp_call f xnew ynew))
       (seq 0 (Z.to_nat no_frames)).

(** Lines 199-219: the grids, the interpolant of frame 1 that the
    disabled debug plot would show (line 208), and the loop. *)
Definition isometric_resampler (s : session) : res (list ndarray) :=
  '(x, y, xnew, ynew) ←
    isometric_grids (ult_NumVectors s) (ult_PixPerVector s) (ult_PixelsPerMm s);
  _ ← interpolate_frame x y (ultra s) 1;
  resample_frames x y xnew ynew (ultra s) (ult_no_frames s).

(** *** Registration Engine (lines 231-256) *)

Definition level_iters : list Z := [200; 100; 50; 25]%Z.
Definition sigma_diff : float := of_Q 3.
Definition radius : Z := 2.

Definition sdr : SymmetricDiffeomorphicRegistration :=
  {| sdr_metric := CCMetric 2 sigma_diff radius;
     sdr_level_iters := level_iters;
     sdr_inv_iter := 100 |}.

(** The loop over the frame pairs, [ofdisp] being the list so far; the
    list is given back also when an iteration raises. *)
Fixpoint register_pairs (ultra_interp : list ndarray) (pairs : list nat)
    (ofdisp : list mapping) : list mapping * res unit :=
  match pairs with
  | [] => (ofdisp, Ok tt)
  | fIdx :: rest =>
      match list_item ultra_interp fIdx with
      | Raise e => (ofdisp, Raise e)
      | Ok current_im =>
          match list_item ultra_interp (fIdx + 1) with
          | Raise e => (ofdisp, Raise e)
          | Ok next_im =>
              match optimize sdr next_im current_im with
              | Raise e => (ofdisp, Raise e)
              | Ok mapping => register_pairs ultra_interp rest (ofdisp ++ [mapping])
              end
          end
      end
  end.

(** Lines 243-256: [ofdisp = []], [ult_no_frames = 3], and the loop over
    [range(ult_no_frames - 1)]. *)
Definition registration_frames : Z := 3.

Definition registration_engine (ultra_interp : list ndarray)
  : list mapping * res unit :=
  register_pairs ultra_interp (seq 0 (Z.to_nat (registration_frames - 1))) [].

(** *** Time Alignment (lines 273-277) *)

Definition ultra_time_of (no_frames : Z) (fps TimeInSecOfFirstFrame : num)
  : res (list float) :=
  t ← linspace (of_int 0) (of_int no_frames) no_frames false;
  let ultra_time := map (λ v, fdiv v (to_float fps)) t in
  half_period ← py_truediv (PyFloat (of_Q (1 # 2))) fps;
  Ok (map (λ v, fadd (fadd v (to_float TimeInSecOfFirstFrame)) half_period)
          ultra_time).

Definition ult_wav_time_of (n : Z) (wav_fs : Z) : res (list float) :=
  t ← linspace (of_int 0) (of_int n) n false;
  Ok (map (λ v, fdiv v (of_int wav_fs)) t).

(** *** The function *)

(** Lines 243-283 for a session and its resampled frames: the
    registration, the index [ofdisp[1]] of the quiver plot, the time
    vectors, and the dictionary [data].  From line 246 on
    [ult_no_frames] is 3. *)
Definition register_and_align (s : session) (ultra_interp : list ndarray)
  : res (gmap string value) :=
  let '(ofdisp, looped) := registration_engine ultra_interp in
  _ ← looped;
  let no_frames := registration_frames in
  _ ← list_item ofdisp 1;
  ultra_time ← ultra_time_of no_frames (ult_fps s) (ult_TimeInSecOfFirstFrame s);
  let n := Z.of_nat (length (ult_wav_frames s)) in
  ult_wav_time ← ult_wav_time_of n (ult_wav_fs s);
  let data : gmap string value := ∅ in
  let data := <["of" := VMappings ofdisp]> data in
  let data := <["frames" := VArray (ultra s)]> data in
  let data := <["ult_time" := VVector ultra_time]> data in
  let data := <["wav_time" := VVector ult_wav_time]> data in
  Ok data.

(** The body of [compute] down to its last assignment: the dictionary
    [data] it has built. *)
Definition compute_data (fs : filesystem) (item : gmap string pyobj)
  : res (gmap string value) :=
  s ← load_session fs item;
  ultra_interp ← isometric_resampler s;
  register_and_align s ultra_interp.

(** [compute(item)]: after [data] is built the function prints a word and
    ends; it has no [return] statement, so its caller receives [None]. *)
Definition compute (fs : filesystem) (item : gmap string pyobj)
  : res (option (gmap string value)) :=
  _ ← compute_data fs item;
  Ok None.
End Pipeline.

(** ** Instances of the interfaces

    Two arithmetics: IEEE binary64 itself, on the kernel's primitive
    floats, with which the script is run on concrete sessions; and exact
    rational arithmetic, in which the equations that the theorems assume of
    the arithmetic are proved. *)

Definition b64_of_Z (z : Z) : PrimFloat.float :=
  if (z <? 0)%Z then PrimFloat.opp (PrimFloat.of_uint63 (Uint63.of_Z (- z)))
  else PrimFloat.of_uint63 (Uint63.of_Z z).

(** The quotient of two integers below [2^53] is rounded once. *)
Definition b64_of_Q (q : Q) : PrimFloat.float :=
  PrimFloat.div (b64_of_Z (Qnum q)) (b64_of_Z (Zpos (Qden q))).

(** [math.ceil] ([up]) and [int]. *)
Definition b64_to_Z (up : bool) (x : PrimFloat.float) : res Z :=
  match FloatOps.Prim2SF x with
  | SpecFloat.S754_zero _ => Ok 0%Z
  | SpecFloat.S754_infinity _ => Raise OverflowError
  | SpecFloat.S754_nan => Raise (ValueError not_a_number)
  | SpecFloat.S754_finite s m e =>
      let n := if s then Zneg m else Zpos m in
      if (0 <=? e)%Z then Ok (n * 2 ^ e)%Z
      else
        let d := (2 ^ (- e))%Z in
        Ok (if up then (- ((- n) / d))%Z else Z.quot n d)
  end.

Definition binary64 : Float64 :=
  {| float := PrimFloat.float;
     of_Q := b64_of_Q;
     fadd := PrimFloat.add;
     fsub := PrimFloat.sub;
     fmul := PrimFloat.mul;
     fdiv := PrimFloat.div;
     fis_zero := λ x, PrimFloat.eqb x PrimFloat.zero;
     fceil := b64_to_Z true;
     ftrunc := b64_to_Z false |}.

Definition rationals : Float64 :=
  {| float := Qc;
     of_Q := Q2Qc;
     fadd := Qcplus;
     fsub := Qcminus;
     fmul := Qcmult;
     fdiv := Qcdiv;
     fis_zero := λ x, bool_decide (x = Q2Qc 0);
     fceil := λ x, Ok (Qceiling x);
     ftrunc := λ x, Ok (if Qle_bool 0 x then Qfloor x else Qceiling x) |}.

(** Decimal numerals, for the builtins [int] and [float] on the texts that
    metadata files hold. *)
Definition digit (c : ascii) : option Z :=
  let n := Z.of_N (N_of_ascii c) in
  if (48 <=? n)%Z && (n <=? 57)%Z then Some (n - 48)%Z else None.

Fixpoint digits (s : string) (acc : Z) : option Z :=
  match s with
  | EmptyString => Some acc
  | String c s' => d ← digit c; digits s' (acc * 10 + d)%Z
  end.

Definition unsigned (s : string) : option Z :=
  match s with
  | EmptyString => None
  | _ => digits s 0%Z
  end.

Definition is_space (c : ascii) : bool :=
  match N_of_ascii c with
  | 9%N | 10%N | 11%N | 12%N | 13%N | 32%N => true
  | _ => false
  end.

Fixpoint lstrip (l : list ascii) : list ascii :=
  match l with
  | c :: l' => if is_space c then lstrip l' else l
  | [] => []
  end.

Definition strip (s : string) : string :=
  string_of_list_ascii (rev (lstrip (rev (lstrip (list_ascii_of_string s))))).

Definition signed {A} (parse : string → option A) (neg : A → A) (s : string)
  : option A :=
  match s with
  | String c s' =>
      if Ascii.eqb c "-" then neg <$> parse s'
      else if Ascii.eqb c "+" then parse s'
      else parse s
  | EmptyString => None
  end.

Definition decimal (s : string) : option Q :=
  match split "." s with
  | [i] => inject_Z <$> unsigned i
  | [i; f] =>
      match i, f with
      | EmptyString, EmptyString => None
      | _, _ =>
          n ← digits i 0%Z;
          m ← digits f 0%Z;
          Some (inject_Z n + Qmake m (Pos.pow 10 (Pos.of_nat (String.length f))))%Q
      end
  | _ => None
  end.

Definition decimal_builtins (fl : Float64) : @Builtins fl :=
  {| py_int := λ s, signed unsigned Z.opp (strip s);
     py_float := λ s, of_Q <$> signed decimal Qopp (strip s) |}.

(** Timestamps [DD/MM/YYYY hh:mm:ss AM], as the number
    [YYYYMMDDhhmmss] on the 24-hour clock. *)
Definition clock_strptime (s : string) : option Z :=
  match split " " s with
  | [date; time; half] =>
      match split "/" date, split ":" time with
      | [d; m; y], [hh; mm; ss] =>
          d ← unsigned d; m ← unsigned m; y ← unsigned y;
          hh ← unsigned hh; mm ← unsigned mm; ss ← unsigned ss;
          pm ← (if String.eqb half "AM" then Some 0%Z
                else if String.eqb half "PM" then Some 12%Z else None);
          if (1 <=? d)%Z && (d <=? 31)%Z && (1 <=? m)%Z && (m <=? 12)%Z
             && (1 <=? hh)%Z && (hh <=? 12)%Z && (mm <? 60)%Z && (ss <? 60)%Z
          then Some (((((y * 100 + m) * 100 + d) * 100 + (hh mod 12 + pm)) * 100 + mm)
                      * 100 + ss)%Z
          else None
      | _, _ => None
      end
  | _ => None
  end.

Definition clock : Datetime :=
  {| datetime := Z; strptime := clock_strptime; dt_lt := Z.ltb |}.

(** The recorded sessions are discovered in directories named without
    wildcard characters: [glob] expands no directory pattern for them and
    [iglob_dirs] is not called (see [get_data_from_dir_plain]). *)
Definition no_wildcards : Glob := {| iglob_dirs := λ _ _, [] |}.

(** Stand-ins for SciPy and DIPY that keep what the script can observe of
    them: an audio file is read when it is a canonical WAVE file of 8-bit
    mono PCM audio, the 44 bytes of its header followed by one byte per
    frame; the interpolant of a frame evaluates to an image of
    [len(ynew)] rows and [len(xnew)] columns that repeats the frame's
    first sample; the solver returns the pair (static, moving) it was
    given. *)
Fixpoint le_bytes (k : nat) (n : Z) : list Z :=
  match k with
  | O => []
  | S k' => (n mod 256)%Z :: le_bytes k' (n / 256)%Z
  end.

Fixpoint le_value (bs : list Z) : Z :=
  match bs with
  | [] => 0%Z
  | b :: bs' => (b + 256 * le_value bs')%Z
  end.

Definition ascii_codes (s : string) : list Z :=
  map (λ c, Z.of_N (N_of_ascii c)) (list_ascii_of_string s).

(** The RIFF chunk, the format chunk (PCM, one channel, [rate] frames per
    second, [rate] bytes per second, one byte per frame, 8 bits per
    sample) and the head of the data chunk. *)
Definition wav_header (rate frames : Z) : list Z :=
  ascii_codes "RIFF" ++ le_bytes 4 (36 + frames) ++ ascii_codes "WAVE"
  ++ ascii_codes "fmt " ++ le_bytes 4 16 ++ le_bytes 2 1 ++ le_bytes 2 1
  ++ le_bytes 4 rate ++ le_bytes 4 rate ++ le_bytes 2 1 ++ le_bytes 2 8
  ++ ascii_codes "data" ++ le_bytes 4 frames.

Definition toy_wavfile_read (data : list Byte.byte) : res (Z * list Z) :=
  let bytes := map (λ b, Z.of_N (Byte.to_N b)) data in
  let rate := le_value (take 4 (drop 24 bytes)) in
  let frames := drop 44 bytes in
  if bool_decide (take 44 bytes = wav_header rate (Z.of_nat (length frames)))
  then Ok (rate, frames)
  else Raise (ValueError file_format_not_understood).

Definition toy_interp_call (fl : Float64) (z : @ndarray fl) (xnew ynew : list (@float fl))
  : @ndarray fl :=
  let v := nth 0 (buf z) (of_int 0) in
  {| shape := if (length ynew =? 1)%nat then [Z.of_nat (length xnew)]
              else [Z.of_nat (length ynew); Z.of_nat (length xnew)];
     buf := repeat v (length ynew * length xnew) |}.

Definition toy_libs (fl : Float64) : @SciLibs fl :=
  {| wav_frame := Z;
     wavfile_read := toy_wavfile_read;
     interpolant := @ndarray fl;
     interp2d := λ x y z, Ok z;
     interp_call := toy_interp_call fl;
     mapping := (@ndarray fl * @ndarray fl)%type;
     optimize := λ _ static moving, Ok (static, moving) |}.

(** ** Recorded sessions

    A directory [rec] with one complete session [a] (prompt, metadata,
    four frames of audio at 8 kHz, raw frames of 2 vectors by 2 pixels) and a prompt [b] that has no
    companion file.  [studio k] holds [k] raw bytes [1 .. k] in [a.ult]. *)

Definition bytes_of (l : list Z) : list Byte.byte :=
  omap (λ z, Byte.of_N (Z.to_N z)) l.

(** A WAVE file of 8-bit mono PCM audio. *)
Definition wav_file (rate : Z) (frames : list Z) : list Byte.byte :=
  bytes_of (wav_header rate (Z.of_nat (length frames)) ++ frames).

Definition nl : string := String LF EmptyString.

Definition a_prompt : string :=
  "tongue twister" +:+ nl +:+ "01/02/2020 10:11:12 AM" +:+ nl +:+ "P1,session" +:+ nl.

Definition b_prompt : string :=
  "warm up" +:+ nl +:+ "01/02/2019 10:11:12 PM" +:+ nl +:+ "P2,session" +:+ nl.

Definition a_meta : string :=
  "NumVectors=2" +:+ nl +:+ "PixPerVector=2" +:+ nl +:+ "PixelsPerMm=0.1" +:+ nl
  +:+ "FramesPerSec=60" +:+ nl +:+ "TimeInSecsOfFirstFrame=0.1" +:+ nl.

Definition studio (k : nat) : filesystem :=
  <["rec/a.txt" := list_byte_of_string a_prompt]>
  (<["rec/aUS.txt" := list_byte_of_string a_meta]>
  (<["rec/a.wav" := wav_file 8000 [1; 2; 3; 4]%Z]>
  (<["rec/a.ult" := bytes_of (map Z.of_nat (seq 1 k))]>
  (<["rec/b.txt" := list_byte_of_string b_prompt]> ∅)))).

(** The descriptor of session [a] as discovery yields it. *)
Definition session_a (k : nat) : gmap string (@pyobj clock) :=
  match @get_data_from_dir clock no_wildcards (studio k) "rec" with
  | Ok [_; item] => item
  | _ => ∅
  end.

(** [compute] on session [a], in binary64. *)
Definition run_data (k : nat) : res (gmap string (@value binary64 (toy_libs binary64))) :=
  @compute_data binary64 (decimal_builtins binary64) (toy_libs binary64) clock
                (studio k) (session_a k).

Definition run (k : nat)
  : res (option (gmap string (@value binary64 (toy_libs binary64)))) :=
  @compute binary64 (decimal_builtins binary64) (toy_libs binary64) clock
           (studio k) (session_a k).

(** The session that [compute] loads from [studio (4 * frames)]. *)
Definition loaded (fl : Float64) (frames : nat) : @session fl (toy_libs fl) :=
  {| ult_wav_frames := [1; 2; 3; 4]%Z : list (@wav_frame fl (toy_libs fl));
     ult_wav_fs := 8000;
     ult_NumVectors := PyInt 2;
     ult_PixPerVector := PyInt 2;
     ult_PixelsPerMm := PyFloat (of_Q (1 # 10));
     ult_fps := PyInt 60;
     ult_TimeInSecOfFirstFrame := PyFloat (of_Q (1 # 10));
     ultra := {| shape := [Z.of_nat frames; 2; 2]%Z;
                 buf := map (λ b, of_int (Z.of_N (Byte.to_N b)))
                            (bytes_of (map Z.of_nat (seq 1 (4 * frames)))) |};
     ult_no_frames := Z.of_nat frames |}.

(** ** Vocabulary of the properties *)

(** A prompt file of a directory: an entry of it whose name does not start
    with a dot, ends in [.txt] and does not end in [US.txt] (those are the
    metadata files). *)
Definition is_prompt_name (name : string) : bool :=
  negb (is_hidden name) && ends_with ".txt" name && negb (ends_with "US.txt" name).

Definition prompt_files `{Glob} (fs : filesystem) (directory : string) : list string :=
  flat_map
    (λ dirname, map (os_path_join dirname) (List.filter is_prompt_name (listdir fs dirname)))
    (glob_dirs fs directory ".txt").

(** A directory named plainly: no wildcard character and no final slash,
    so that the paths in it are [directory/name]. *)
Definition plain_directory (directory : string) : bool :=
  negb (has_magic directory) && negb (ends_with "/" directory).

(** The companions of a prompt file [<base>.txt]: the metadata
    [<base>US.txt], the audio [<base>.wav], the raw frames [<base>.ult]. *)
Definition has_all_companions (fs : filesystem) (prompt_file : string) : bool :=
  let fb := (splitext prompt_file).1 in
  isfile fs (fb +:+ "US.txt") && isfile fs (fb +:+ ".wav") && isfile fs (fb +:+ ".ult").

Definition has_no_companion (fs : filesystem) (prompt_file : string) : bool :=
  let fb := (splitext prompt_file).1 in
  negb (isfile fs (fb +:+ "US.txt")) && negb (isfile fs (fb +:+ ".wav"))
  && negb (isfile fs (fb +:+ ".ult")).

(** A descriptor is marked excluded when its key [excluded] holds [True];
    the script never stores [False] under that key. *)
Definition marked_excluded `{Datetime} (item : gmap string pyobj) : bool :=
  match item !! "excluded" with
  | Some (PBool true) => true
  | _ => false
  end.

(** CPython rounds the quotient of two integers once; truncated, it is
    the floor quotient as long as the dividend is below [2^53]. *)
Definition trunc_quotient_law `{Float64} : Prop :=
  ∀ a b : Z, (0 ≤ a < 2 ^ 53)%Z → (0 < b)%Z →
    ftrunc (of_Q (inject_Z a / inject_Z b)) = Ok (a / b)%Z.

(** [astype("float32")] on the samples of a raw buffer. *)
Definition samples `{Float64} (ult_data : list Byte.byte) : list float :=
  map (λ b, of_int (Z.of_N (Byte.to_N b))) ult_data.

(** The pairs (current, next) of consecutive frames. *)
Definition consecutive_pairs {A} (l : list A) : list (A * A) := zip l (tail l).

(** What is asked of SciPy and DIPY is asked of the calls that [compute]
    makes, on the session at hand.

    [interp2d] returns an interpolant for each frame of the volume, on the
    axes [x] and [y] (the calls of lines 208 and 218). *)
Definition interp2d_returns `{SciLibs} (x y : list float) (frames : ndarray) : Prop :=
  ∀ (i : Z) (fr : ndarray), (0 ≤ i)%Z → frame_at frames i = Ok fr →
    ∃ f, interp2d x y (transpose fr) = Ok f.

(** The value on the grid [(xnew, ynew)] of the interpolant of each frame
    (line 219) is an image of [len(ynew)] rows and [len(xnew)] columns. *)
Definition interp_shapes `{SciLibs} (x y xnew ynew : list float) (frames : ndarray)
  : Prop :=
  ∀ (i : Z) (fr : ndarray) (f : interpolant), (0 ≤ i)%Z →
    frame_at frames i = Ok fr → interp2d x y (transpose fr) = Ok f →
    shape (interp_call f xnew ynew)
    = [Z.of_nat (length ynew); Z.of_nat (length xnew)].

(** The solver returns on the calls of line 255: on (next, current) for
    the consecutive pairs of the first three resampled images. *)
Definition optimize_returns `{SciLibs} (ultra_interp : list ndarray) : Prop :=
  Forall (λ pair, ∃ m, optimize sdr pair.2 pair.1 = Ok m)
         (consecutive_pairs (take 3 ultra_interp)).

(** The family of a similarity metric. *)
Inductive metric_family : Type :=
| sum_of_squared_differences
| cross_correlation
| expectation_maximization.

Definition family `{Float64} (m : metric) : metric_family :=
  match m with
  | SSDMetric _ => sum_of_squared_differences
  | CCMetric _ _ _ => cross_correlation
  | EMMetric _ => expectation_maximization
  end.


(** How a descriptor records one companion: its path together with the
    flag [True] when the file is there, the flag [False] and no path when
    it is not. *)
Definition companion_recorded `{Datetime} (item : gmap string pyobj)
    (key_file key_exists path : string) (present : bool) : Prop :=
  if present
  then item !! key_file = Some (PStr path) ∧ item !! key_exists = Some (PBool true)
  else item !! key_file = None ∧ item !! key_exists = Some (PBool false).

(** The order of the recording dates: [a] is not later than [b]. *)
Definition not_later `{Datetime} (a b : datetime) : Prop := dt_lt b a = false.

(** The laws of [<] on dates that sorting relies on. *)
Record date_order `{Datetime} : Prop := {
  lt_asym : ∀ a b : datetime, dt_lt a b = true → dt_lt b a = false;
  not_later_trans : ∀ a b c : datetime, not_later a b → not_later b c → not_later a c
}.


(** A metadata file as it is written: one line [key=value] per entry,
    each ended by [eol]. *)
Definition render_meta (eol : string) (kvs : list (string * string)) : string :=
  foldr (λ kv text, kv.1 +:+ "=" +:+ kv.2 +:+ eol +:+ text) EmptyString kvs.

(** A key or a value text: it holds no [=] and no end of line. *)
Definition plain (s : string) : bool :=
  negb (contains "=" s) && negb (contains LF s) && negb (contains CR s).

(** The dictionary that the assignments [meta[key] = value] build, in the
    order of the list. *)
Definition assigned {A} (kvs : list (string * A)) : gmap string A :=
  fold_left (λ meta kv, <[kv.1 := kv.2]> meta) kvs ∅.

(** A line that the Metadata Reader accepts. *)
Definition well_formed_line `{Builtins} (line : string) : Prop :=
  ∃ key value_str v, split "=" line = [key; value_str] ∧ parse_value value_str = Ok v.

(** The keys that [read_ult_meta] reads, in the order it reads them. *)
Definition required_keys : list string :=
  ["NumVectors"; "PixPerVector"; "PixelsPerMm"; "FramesPerSec"; "TimeInSecsOfFirstFrame"].

(** ** More recorded sessions *)

(** The descriptors that discovery returns for [studio 12]: session [b],
    recorded first, then session [a]. *)
Definition discovered : list (gmap string (@pyobj clock)) :=
  match @get_data_from_dir clock no_wildcards (studio 12) "rec" with
  | Ok meta => meta
  | Raise _ => []
  end.

Definition session_b : gmap string (@pyobj clock) :=
  match discovered with
  | item :: _ => item
  | [] => ∅
  end.

(** [studio 12] with one more prompt file, of a single line. *)
Definition studio_short_prompt : filesystem :=
  <["rec/c.txt" := list_byte_of_string "one line"]> (studio 12).

(** The entries of the metadata file of session [a]. *)
Definition a_meta_entries : list (string * string) :=
  [("NumVectors", "2"); ("PixPerVector", "2"); ("PixelsPerMm", "0.1");
   ("FramesPerSec", "60"); ("TimeInSecsOfFirstFrame", "0.1")].

(** [studio 12] with the metadata of session [a] in [CR LF] lines. *)
Definition studio_crlf : filesystem :=
  <["rec/aUS.txt" := list_byte_of_string (render_meta (String CR nl) a_meta_entries)]>
  (studio 12).

(** [studio 12] with a blank line in the metadata of session [a]. *)
Definition studio_blank_line : filesystem :=
  <["rec/aUS.txt" :=
      list_byte_of_string ("NumVectors=2" +:+ nl +:+ nl +:+ "PixPerVector=2" +:+ nl)]>
  (studio 12).

(** A directory [lab] with one complete session [s] of 64 vectors by 4
    pixels, whose frames resample to images of 128 rows by 128 columns.
    [lab frames] holds that many frames in [s.ult]; sample [j] of frame [f]
    is [(j + 16 f) mod 256]. *)
Definition lab_samples (frames : nat) : list Z :=
  map (λ i, Z.of_nat ((i + 16 * (i / 256)) mod 256)) (seq 0 (256 * frames)).

Definition s_meta_entries (fps : string) : list (string * string) :=
  [("NumVectors", "64"); ("PixPerVector", "4"); ("PixelsPerMm", "0.1");
   ("FramesPerSec", fps); ("TimeInSecsOfFirstFrame", "0.1")].

Definition lab_at (fps : string) (frames : nat) : filesystem :=
  <["lab/s.txt" := list_byte_of_string a_prompt]>
  (<["lab/sUS.txt" := list_byte_of_string (render_meta nl (s_meta_entries fps))]>
  (<["lab/s.wav" := wav_file 8000 [1; 2; 3; 4]%Z]>
  (<["lab/s.ult" := bytes_of (lab_samples frames)]> ∅))).


(** [lab 3] with a frame rate of zero in the metadata. *)
Definition lab_still : filesystem := lab_at "0" 3.

(** The descriptor of session [s] as discovery yields it. *)
Definition session_s (fs : filesystem) : gmap string (@pyobj clock) :=
  match @get_data_from_dir clock no_wildcards fs "lab" with
  | Ok [item] => item
  | _ => ∅
  end.

(** The session that [compute] loads from [lab_at fps frames]. *)
Definition loaded_lab (fl : Float64) (fps : Z) (frames : nat) : @session fl (toy_libs fl) :=
  {| ult_wav_frames := [1; 2; 3; 4]%Z : list (@wav_frame fl (toy_libs fl));
     ult_wav_fs := 8000;
     ult_NumVectors := PyInt 64;
     ult_PixPerVector := PyInt 4;
     ult_PixelsPerMm := PyFloat (of_Q (1 # 10));
     ult_fps := PyInt fps;
     ult_TimeInSecOfFirstFrame := PyFloat (of_Q (1 # 10));
     ultra := {| shape := [Z.of_nat frames; 64; 4]%Z;
                 buf := map (λ b, of_int (Z.of_N (Byte.to_N b)))
                            (bytes_of (lab_samples frames)) |};
     ult_no_frames := Z.of_nat frames |}.

(** Three images of 128 rows by 128 columns. *)
Definition ramp (fl : Float64) (k : nat) : @ndarray fl :=
  {| shape := [128; 128]%Z;
     buf := map (λ i, of_int (Z.of_nat ((i + k) mod 256))) (seq 0 (128 * 128)) |}.

(** A text that lies on one line: it holds no carriage return and none of
    the characters at which [str.splitlines] splits. *)
Definition one_line (s : string) : bool :=
  forallb (λ c, negb (is_line_boundary c) && negb (Ascii.eqb c CR))
          (list_ascii_of_string s).

(** [studio 12] with a prompt file in [CR LF] lines. *)
Definition studio_crlf_prompt : filesystem :=
  <["rec/a.txt" :=
      list_byte_of_string
        ("tongue twister" +:+ String CR nl +:+ "01/02/2020 10:11:12 AM" +:+ String CR nl
         +:+ "P1,session" +:+ String CR nl +:+ EmptyString)]>
  (studio 12).

(** * Properties *)

(** ** Results and loops *)

Lemma bind_Ok {A B} (m : res A) (f : A → res B) (b : B) :
  m ≫= f = Ok b ↔ ∃ a, m = Ok a ∧ f a = Ok b.
Proof.
  destruct m as [a|e]; simpl; split.
  - intros Hf. exists a. auto.
  - intros (a' & Ha & Hf). congruence.
  - discriminate.
  - intros (a' & Ha & _). discriminate.
Qed.

Lemma mapM_cons {A B} (f : A → res B) (x : A) (l : list A) :
  mapM f (x :: l) = y ← f x; k ← mapM f l; Ok (y :: k).
Proof. reflexivity. Qed.

Lemma mapM_Ok_Forall2 {A B} (f : A → res B) (l : list A) (k : list B) :
  mapM f l = Ok k → Forall2 (λ x y, f x = Ok y) l k.
Proof.
  revert k. induction l as [|x l IH]; intros k.
  - intros [= <-]. constructor.
  - rewrite mapM_cons. intros (y & Hy & Hk)%bind_Ok.
    apply bind_Ok in Hk as (k' & Hk' & [= <-]). constructor; auto.
Qed.

(** ** Metadata Reader *)

Section MetadataReaderFacts.
Context `{Builtins}.

Lemma parse_value_int (value_str : string) (z : Z) :
  py_int value_str = Some z → parse_value value_str = Ok (PyInt z).
Proof. unfold parse_value. intros ->. reflexivity. Qed.

Lemma parse_value_float (value_str : string) (f : float) :
  py_int value_str = None → py_float value_str = Some f →
  parse_value value_str = Ok (PyFloat f).
Proof. unfold parse_value. intros -> ->. reflexivity. Qed.

Lemma parse_value_total (value_str : string) :
  is_Some (py_int value_str) ∨ is_Some (py_float value_str) →
  ∃ v, parse_value value_str = Ok v.
Proof.
  unfold parse_value. intros [[z ->]|[f Hf]]; [eauto|].
  destruct (py_int value_str); [eauto|]. rewrite Hf. eauto.
Qed.

(** The loop keeps, for every key, the value of the last line that carries
    it, and leaves the other keys of the dictionary as they were. *)
Lemma parse_lines_last (lines : list string) (kvs : list (string * string))
    (meta0 : gmap string num) :
  Forall2 (λ line kv, split "=" line = [kv.1; kv.2]) lines kvs →
  Forall (λ kv, ∃ v, parse_value kv.2 = Ok v) kvs →
  ∃ meta, parse_lines lines meta0 = Ok meta ∧
    (∀ key, Forall (λ kv, kv.1 ≠ key) kvs → meta !! key = meta0 !! key) ∧
    (∀ i key value_str, kvs !! i = Some (key, value_str) →
       (∀ j kv, i < j → kvs !! j = Some kv → kv.1 ≠ key) →
       ∃ v, parse_value value_str = Ok v ∧ meta !! key = Some v).
Proof.
  intros Hsplit. revert meta0.
  induction Hsplit as [|line [k s] lines kvs Hline _ IH]; intros meta0 Hval.
  - exists meta0. split; [reflexivity|]. split; [reflexivity|].
    intros i key value_str Hi. rewrite lookup_nil in Hi. discriminate.
  - apply Forall_cons in Hval as [[v Hv] Hval]. simpl in Hline, Hv.
    destruct (IH (<[k := v]> meta0) Hval) as (meta & Hrun & Hkeep & Hlast).
    exists meta. split; [|split].
    + simpl. rewrite Hline. simpl. rewrite Hv. simpl. exact Hrun.
    + intros key Hkey. apply Forall_cons in Hkey as [Hne Hkey]. simpl in Hne.
      rewrite (Hkeep key Hkey). apply lookup_insert_ne. exact Hne.
    + intros [|i] key value_str Hi Hlater; simpl in Hi.
      * injection Hi as -> ->. exists v. split; [exact Hv|].
        rewrite Hkeep; [apply lookup_insert_eq|].
        apply Forall_lookup. intros j kv Hj.
        apply (Hlater (S j) kv); [lia|exact Hj].
      * apply (Hlast i key value_str Hi).
        intros j kv Hij Hj. apply (Hlater (S j) kv); [lia|exact Hj].
Qed.

(** C9. For a metadata file whose every line splits at its [=] into a key
    and a value text that [int] or [float] accepts, the Metadata Reader
    returns a dictionary in which each key (by its last line, which is its
    only line when no key is repeated) is bound to the integer that its
    value text parses to, and, when the text does not parse as an integer
    but parses as a float, to that float. *)
Theorem parse_ult_meta_numeric_types (fs : filesystem) (filebase : string)
    (data : list Byte.byte) (kvs : list (string * string)) :
  fs !! filebase = Some data →
  Forall2 (λ line kv, split "=" line = [kv.1; kv.2])
          (readlines (universal_newlines (string_of_list_byte data))) kvs →
  Forall (λ kv, is_Some (py_int kv.2) ∨ is_Some (py_float kv.2)) kvs →
  ∃ meta, _parse_ult_meta fs filebase = Ok meta ∧
    ∀ i key value_str, kvs !! i = Some (key, value_str) →
      (∀ j kv, i < j → kvs !! j = Some kv → kv.1 ≠ key) →
      (∀ z, py_int value_str = Some z → meta !! key = Some (PyInt z)) ∧
      (∀ f, py_int value_str = None → py_float value_str = Some f →
            meta !! key = Some (PyFloat f)).
Proof.
  intros Hfile Hsplit Hval.
  assert (Hval' : Forall (λ kv : string * string, ∃ v, parse_value kv.2 = Ok v) kvs).
  { eapply Forall_impl; [exact Hval|]. intros kv. apply parse_value_total. }
  destruct (parse_lines_last _ _ ∅ Hsplit Hval') as (meta & Hrun & _ & Hlast).
  exists meta. split.
  - unfold _parse_ult_meta, open_text. rewrite Hfile. simpl. exact Hrun.
  - intros i key value_str Hi Hlater.
    destruct (Hlast i key value_str Hi Hlater) as (v & Hv & Hkey). split.
    + intros z Hz. rewrite (parse_value_int _ _ Hz) in Hv. congruence.
    + intros f Hz Hf. rewrite (parse_value_float _ _ Hz Hf) in Hv. congruence.
Qed.
End MetadataReaderFacts.

Lemma parse_ult_meta_numeric_types_witness :
  ∃ meta, @_parse_ult_meta binary64 (decimal_builtins binary64) (studio 12) "rec/aUS.txt"
          = Ok meta
    ∧ meta !! "NumVectors" = Some (PyInt 2)
    ∧ meta !! "PixelsPerMm" = Some (PyFloat (@of_Q binary64 (1 # 10))).
Proof.
  destruct (@parse_ult_meta_numeric_types binary64 (decimal_builtins binary64)
              (studio 12) "rec/aUS.txt" (list_byte_of_string a_meta)
              [("NumVectors", "2" +:+ nl); ("PixPerVector", "2" +:+ nl);
               ("PixelsPerMm", "0.1" +:+ nl); ("FramesPerSec", "60" +:+ nl);
               ("TimeInSecsOfFirstFrame", "0.1" +:+ nl)])
    as (meta & Hrun & Htypes).
  - vm_compute. reflexivity.
  - vm_compute. repeat constructor.
  - repeat (apply Forall_cons; split);
      first [ left; vm_compute; eexists; reflexivity
            | right; vm_compute; eexists; reflexivity
            | constructor ].
  - exists meta. split; [exact Hrun|]. split.
    + apply (Htypes 0%nat "NumVectors" ("2" +:+ nl)); [reflexivity| |reflexivity].
      intros [|[|[|[|[|j]]]]] kv Hj; try lia; simpl; intros [= <-]; discriminate.
    + apply (Htypes 2%nat "PixelsPerMm" ("0.1" +:+ nl)); [reflexivity| | |]; try reflexivity.
      intros [|[|[|[|[|j]]]]] kv Hj; try lia; simpl; intros [= <-]; discriminate.
Defined.

(** ** Strings and paths *)

Lemma append_nil (b : string) : EmptyString +:+ b = b.
Proof. reflexivity. Qed.

Lemma append_cons (c : ascii) (a b : string) : String c a +:+ b = String c (a +:+ b).
Proof. reflexivity. Qed.

Lemma append_assoc (a b c : string) : (a +:+ b) +:+ c = a +:+ (b +:+ c).
Proof.
  induction a as [|x a IH]; rewrite ?append_nil, ?append_cons; congruence.
Qed.

Lemma append_inj_l (p s t : string) : p +:+ s = p +:+ t → s = t.
Proof. induction p as [|c p IH]; simpl; [auto|]. intros [= Heq]. auto. Qed.

Lemma length_append (a b : string) :
  String.length (a +:+ b) = String.length a + String.length b.
Proof.
  induction a as [|c a IH]; rewrite ?append_nil, ?append_cons; simpl; congruence.
Qed.

Lemma substring_append_l (a b : string) :
  substring 0 (String.length a) (a +:+ b) = a.
Proof.
  induction a as [|c a IH]; rewrite ?append_nil, ?append_cons; simpl.
  - destruct b; reflexivity.
  - rewrite IH. reflexivity.
Qed.

Lemma substring_append_r (a b : string) (m : nat) :
  substring (String.length a) m (a +:+ b) = substring 0 m b.
Proof.
  induction a as [|c a IH]; rewrite ?append_nil, ?append_cons; simpl;
    [reflexivity|exact IH].
Qed.

Lemma rfind_from_append (c : ascii) (a b : string) (i found : Z) :
  rfind_from c (a +:+ b) i found
  = rfind_from c b (i + Z.of_nat (String.length a)) (rfind_from c a i found).
Proof.
  revert i found.
  induction a as [|x a IH]; intros i found; rewrite ?append_nil, ?append_cons; simpl.
  - f_equal. lia.
  - rewrite IH. f_equal. lia.
Qed.

Lemma rfind_from_absent (c : ascii) (s : string) (i found : Z) :
  contains c s = false → rfind_from c s i found = found.
Proof.
  unfold contains. revert i found. induction s as [|x s IH]; intros i found; simpl.
  - reflexivity.
  - intros [Hx Hs]%orb_false_iff. rewrite IH by exact Hs.
    rewrite Ascii.eqb_sym, Hx. reflexivity.
Qed.

Lemma contains_append (c : ascii) (a b : string) :
  contains c (a +:+ b) = contains c a || contains c b.
Proof.
  unfold contains.
  induction a as [|x a IH]; rewrite ?append_nil, ?append_cons; simpl; [reflexivity|].
  rewrite IH. apply orb_assoc.
Qed.

Lemma string_of_list_ascii_app (k l : list ascii) :
  string_of_list_ascii (k ++ l) = string_of_list_ascii k +:+ string_of_list_ascii l.
Proof.
  induction k as [|c k IH]; simpl; rewrite ?append_nil, ?append_cons; congruence.
Qed.

Lemma ends_with_split (suffix s : string) :
  ends_with suffix s = true → ∃ stem, s = stem +:+ suffix.
Proof.
  unfold ends_with. intros [k Hk]%bool_decide_eq_true.
  exists (string_of_list_ascii k).
  rewrite <- (string_of_list_ascii_of_string s), Hk, string_of_list_ascii_app,
    string_of_list_ascii_of_string. reflexivity.
Qed.

Lemma strip_prefix_Some (pre s t : string) :
  strip_prefix pre s = Some t ↔ s = pre +:+ t.
Proof.
  revert s. induction pre as [|a pre IH]; intros s; simpl.
  - rewrite append_nil. split; congruence.
  - rewrite append_cons. destruct s as [|b s].
    + split; discriminate.
    + destruct (Ascii.eqb_spec a b) as [->|Hne].
      * rewrite IH. split; congruence.
      * split; [discriminate|congruence].
Qed.

(** [s.split(sep)]: the first part is the text before the first separator,
    the other parts are the split of the text after it. *)
Lemma split_cons (sep : ascii) (s w : string) (ws : list string) :
  split sep s = w :: ws
  ↔ contains sep w = false
    ∧ (s = w ∧ ws = [] ∨ ∃ t, s = w +:+ String sep t ∧ ws = split sep t).
Proof.
  unfold contains. revert w ws. induction s as [|c s IH]; intros w ws; simpl.
  - split.
    + intros [= <- <-]. split; [reflexivity|]. left. split; reflexivity.
    + intros [Hw [[<- ->]|(t & Ht & _)]]; [reflexivity|].
      destruct w; rewrite ?append_nil, ?append_cons in Ht; discriminate.
  - destruct (Ascii.eqb_spec c sep) as [->|Hne].
    + split.
      * intros [= <- <-]. split; [reflexivity|]. right. exists s. split; reflexivity.
      * intros [Hw [[<- ->]|(t & Ht & ->)]].
        -- simpl in Hw. rewrite Ascii.eqb_refl in Hw. discriminate.
        -- destruct w as [|x w]; rewrite ?append_nil, ?append_cons in Ht.
           ++ injection Ht as ->. reflexivity.
           ++ injection Ht as <- _. simpl in Hw. rewrite Ascii.eqb_refl in Hw.
              discriminate.
    + destruct (split sep s) as [|w' ws'] eqn:Hsplit.
      { exfalso. destruct s; simpl in Hsplit; [discriminate|].
        destruct (Ascii.eqb a sep); [discriminate|].
        destruct (split sep s); discriminate. }
      specialize (IH w' ws'). destruct IH as [IH _]. specialize (IH eq_refl).
      destruct IH as [Hw' Hs]. split.
      * intros [= <- <-]. split.
        -- simpl. rewrite Hw'. apply Ascii.eqb_neq in Hne.
           rewrite Ascii.eqb_sym, Hne. reflexivity.
        -- destruct Hs as [[-> ->]|(t & -> & ->)]; [left; split; reflexivity|].
           right. exists t. rewrite append_cons. split; reflexivity.
      * intros [Hw [[<- ->]|(t & Ht & ->)]].
        -- destruct Hs as [[<- ->]|(t & -> & _)]; [reflexivity|].
           exfalso. simpl in Hw. apply orb_false_iff in Hw as [_ Hw].
           clear -Hw. induction w' as [|x w' IHw]; rewrite ?append_nil, ?append_cons in Hw;
             simpl in Hw.
           ++ rewrite Ascii.eqb_refl in Hw. discriminate.
           ++ apply orb_false_iff in Hw as [_ Hw]. auto.
        -- destruct w as [|x w]; rewrite ?append_nil, ?append_cons in Ht.
           ++ injection Ht as -> _. contradiction.
           ++ injection Ht as <- ->. simpl in Hw. apply orb_false_iff in Hw as [_ Hw].
              assert (Hgoal : split sep (w +:+ String sep t) = w :: split sep t).
              { clear -Hw. induction w as [|y w IHw];
                  rewrite ?append_nil, ?append_cons; simpl.
                - rewrite Ascii.eqb_refl. reflexivity.
                - simpl in Hw. apply orb_false_iff in Hw as [Hy Hw].
                  rewrite Ascii.eqb_sym, Hy, (IHw Hw). reflexivity. }
              rewrite Hgoal in Hsplit. injection Hsplit as <- <-. reflexivity.
Qed.

Lemma split_nonempty (sep : ascii) (s : string) : ∃ w ws, split sep s = w :: ws.
Proof.
  destruct s as [|c s]; simpl; [eauto|].
  destruct (Ascii.eqb c sep); [eauto|]. destruct (split sep s); eauto.
Qed.

Lemma split_absent (sep : ascii) (s : string) :
  contains sep s = false → split sep s = [s].
Proof. intros Hs. apply split_cons. auto. Qed.

Lemma append_empty_r (a : string) : a +:+ EmptyString = a.
Proof. induction a as [|c a IH]; rewrite ?append_nil, ?append_cons; congruence. Qed.

Lemma list_ascii_of_string_app (a b : string) :
  list_ascii_of_string (a +:+ b) = list_ascii_of_string a ++ list_ascii_of_string b.
Proof.
  induction a as [|c a IH]; rewrite ?append_nil, ?append_cons; simpl; congruence.
Qed.

(** [split] at a separator that is there. *)
Lemma split_app_sep (sep : ascii) (x t : string) :
  split sep (x +:+ String sep t) = split sep x ++ split sep t.
Proof.
  induction x as [|c x IH]; rewrite ?append_nil, ?append_cons; simpl.
  - rewrite Ascii.eqb_refl. reflexivity.
  - destruct (Ascii.eqb c sep); rewrite IH; [reflexivity|].
    destruct (split_nonempty sep x) as (w & ws & ->). reflexivity.
Qed.

Lemma split_first_no_sep (sep : ascii) (s w : string) (ws : list string) :
  split sep s = w :: ws → contains sep w = false.
Proof. intros Hsplit%split_cons. apply Hsplit. Qed.

(** *** [os.path.join] and [os.path.split] *)

Lemma is_absolute_no_slash (name : string) :
  contains "/" name = false → is_absolute name = false.
Proof.
  destruct name as [|c name]; [reflexivity|]. unfold contains, is_absolute.
  cbn [list_ascii_of_string existsb]. intros [Hc _]%orb_false_iff.
  rewrite Ascii.eqb_sym. exact Hc.
Qed.

(** A name joined to a directory is the last component of the path. *)
Lemma os_path_join_name (a name : string) :
  contains "/" name = false →
  os_path_join a name = name ∨ ∃ x, os_path_join a name = x +:+ String "/" name.
Proof.
  intros Hname. unfold os_path_join. rewrite (is_absolute_no_slash _ Hname).
  destruct (String.eqb_spec a "") as [->|Ha]; cbn [orb].
  - left. apply append_nil.
  - right. destruct (ends_with "/" a) eqn:Hend.
    + apply ends_with_split in Hend as [x ->]. exists x.
      rewrite append_assoc, append_cons, append_nil. reflexivity.
    + exists a. rewrite append_cons, append_nil. reflexivity.
Qed.

Lemma last_split_join (a name : string) :
  contains "/" name = false → last (split "/" (os_path_join a name)) = Some name.
Proof.
  intros Hname. destruct (os_path_join_name a name Hname) as [->|[x ->]].
  - rewrite (split_absent _ _ Hname). reflexivity.
  - rewrite split_app_sep, (split_absent _ _ Hname). apply last_snoc.
Qed.

Lemma os_path_join_inj_name (a a' name name' : string) :
  contains "/" name = false → contains "/" name' = false →
  os_path_join a name = os_path_join a' name' → name = name'.
Proof.
  intros Hname Hname' Heq. apply (f_equal (λ p, last (split "/" p))) in Heq.
  rewrite !last_split_join in Heq by assumption. congruence.
Qed.

Lemma rfind_last_slash (d rest : string) :
  contains "/" rest = false →
  rfind "/" (d +:+ String "/" rest) = Z.of_nat (String.length d).
Proof.
  intros Hrest. unfold rfind. rewrite rfind_from_append. cbn [rfind_from].
  rewrite Ascii.eqb_refl, rfind_from_absent by exact Hrest. lia.
Qed.

(** The directory part of [d/rest], [rest] without a slash. *)
Lemma os_path_split_head (d rest : string) :
  contains "/" rest = false →
  (os_path_split (d +:+ String "/" rest)).1
  = if forallb (Ascii.eqb "/") (list_ascii_of_string (d +:+ "/")) then d +:+ "/"
    else rstrip_slashes (d +:+ "/").
Proof.
  intros Hrest. unfold os_path_split. rewrite (rfind_last_slash d rest Hrest). cbn [fst].
  replace (Z.to_nat (Z.of_nat (String.length d) + 1)) with (String.length (d +:+ "/"))
    by (rewrite length_append; simpl; lia).
  replace (d +:+ String "/" rest) with ((d +:+ "/") +:+ rest)
    by (rewrite append_assoc, append_cons, append_nil; reflexivity).
  rewrite substring_append_l. reflexivity.
Qed.

(** The two patterns of discovery have the same directory part. *)
Lemma os_path_split_pattern (d suffix : string) :
  contains "/" suffix = false →
  (os_path_split (d +:+ "/*" +:+ suffix)).1 = (os_path_split (d +:+ "/")).1.
Proof.
  intros Hsuffix.
  replace (d +:+ "/*" +:+ suffix) with (d +:+ String "/" (String "*" suffix))
    by (rewrite !append_cons, append_nil; reflexivity).
  rewrite os_path_split_head, (os_path_split_head d EmptyString); [reflexivity..|].
  unfold contains in *. cbn [list_ascii_of_string existsb]. rewrite Hsuffix. reflexivity.
Qed.

Lemma ends_with_slash_false (d : string) :
  ends_with "/" d = false →
  d = EmptyString ∨ ∃ l c, list_ascii_of_string d = l ++ [c] ∧ Ascii.eqb c "/" = false.
Proof.
  unfold ends_with. intros Hend%bool_decide_eq_false.
  destruct (list_ascii_of_string d) as [|c0 l0] eqn:Hd using rev_ind.
  - left. rewrite <- (string_of_list_ascii_of_string d), Hd. reflexivity.
  - right. exists l0, c0. split; [reflexivity|].
    destruct (Ascii.eqb_spec c0 "/") as [->|]; [|reflexivity].
    exfalso. apply Hend. exists l0. reflexivity.
Qed.

(** For a directory named without final slash, the directory part of the
    patterns is the directory, the root [/] when it is empty. *)
Lemma os_path_split_plain (d : string) :
  ends_with "/" d = false →
  (os_path_split (d +:+ "/")).1 = if String.eqb d "" then "/" else d.
Proof.
  intros Hend. rewrite (os_path_split_head d EmptyString) by reflexivity.
  destruct (ends_with_slash_false d Hend) as [->|(l & c & Hd & Hc)]; [reflexivity|].
  assert (Hne : String.eqb d "" = false).
  { apply String.eqb_neq. intros ->. destruct l; discriminate Hd. }
  rewrite Hne. unfold rstrip_slashes.
  rewrite list_ascii_of_string_app, Hd, forallb_app, forallb_app.
  cbn [forallb list_ascii_of_string]. rewrite (Ascii.eqb_sym "/" c), Hc, !andb_false_r.
  rewrite !rev_app_distr. cbn [rev app lstrip_slashes andb].
  rewrite Ascii.eqb_refl, Hc. cbn [rev]. rewrite rev_involutive.
  rewrite <- Hd. apply string_of_list_ascii_of_string.
Qed.

Lemma os_path_join_plain (d name : string) :
  ends_with "/" d = false → contains "/" name = false →
  os_path_join (if String.eqb d "" then "/" else d) name = d +:+ "/" +:+ name.
Proof.
  intros Hend Hname. unfold os_path_join. rewrite (is_absolute_no_slash _ Hname).
  destruct (String.eqb_spec d "") as [->|Hd].
  - reflexivity.
  - rewrite (proj2 (String.eqb_neq d "") Hd), Hend. reflexivity.
Qed.

(** *** The listing of a directory *)

Lemma entry_name_no_slash (directory path name : string) :
  entry_name directory path = Some name →
  name ≠ EmptyString ∧ contains "/" name = false.
Proof.
  unfold entry_name. destruct (strip_prefix _ path) as [rest|]; [|discriminate]. simpl.
  destruct (split "/" rest) as [|w ws] eqn:Hsplit; [discriminate|].
  destruct (String.eqb_spec w "") as [|Hw]; [discriminate|]. intros [= <-].
  split; [exact Hw|]. eapply split_first_no_sep, Hsplit.
Qed.

Lemma listdir_no_slash (fs : filesystem) (directory name : string) :
  name ∈ listdir fs directory → name ≠ EmptyString ∧ contains "/" name = false.
Proof.
  unfold listdir. rewrite elem_of_remove_dups.
  intros (path & _ & Hname)%list_elem_of_omap. eapply entry_name_no_slash, Hname.
Qed.

(** A regular file [directory/name] is an entry of the directory. *)
Lemma listdir_file (fs : filesystem) (directory name : string) :
  isfile fs (os_path_join directory "" +:+ name) = true →
  name ≠ EmptyString → contains "/" name = false →
  name ∈ listdir fs directory.
Proof.
  unfold isfile. intros Hfile%bool_decide_eq_true Hname Hslash.
  unfold listdir. rewrite elem_of_remove_dups. apply list_elem_of_omap.
  exists (os_path_join directory "" +:+ name). split.
  - apply elem_of_elements, elem_of_dom, Hfile.
  - unfold entry_name. rewrite (proj2 (strip_prefix_Some _ _ name) eq_refl). simpl.
    rewrite (split_absent _ _ Hslash). rewrite (proj2 (String.eqb_neq name "") Hname).
    reflexivity.
Qed.

(** ** Session Discoverer *)

Lemma insort_Permutation {A} (lt : A → A → bool) (x : A) (l : list A) :
  insort lt x l ≡ₚ x :: l.
Proof.
  induction l as [|y l IH]; simpl; [reflexivity|].
  destruct (lt x y); [reflexivity|].
  rewrite IH. apply Permutation_swap.
Qed.

Lemma sorted_Permutation {A} (lt : A → A → bool) (l : list A) :
  sorted lt l ≡ₚ l.
Proof.
  unfold sorted.
  assert (Hacc : ∀ acc, fold_left (λ acc x, insort lt x acc) l acc ≡ₚ l ++ acc).
  { induction l as [|x l IH]; intros acc; simpl; [reflexivity|].
    rewrite IH, insort_Permutation. symmetry. apply Permutation_middle. }
  rewrite Hacc, app_nil_r. reflexivity.
Qed.

(** [sorted] puts its elements in order: no element is followed by one
    that is smaller. *)
Lemma insort_StronglySorted {A} (lt : A → A → bool) (x : A) (l : list A) :
  (∀ a b, lt a b = true → lt b a = false) →
  Transitive (λ a b, lt b a = false) →
  StronglySorted (λ a b, lt b a = false) l →
  StronglySorted (λ a b, lt b a = false) (insort lt x l).
Proof.
  intros Hasym Htrans. induction 1 as [|y l Hl IH Hy]; simpl.
  - repeat constructor.
  - destruct (lt x y) eqn:Hxy.
    + constructor; [constructor; assumption|].
      constructor; [apply Hasym, Hxy|].
      eapply Forall_impl; [exact Hy|]. intros z Hz. simpl in *.
      apply (Htrans x y z); [apply Hasym, Hxy|exact Hz].
    + constructor; [exact IH|].
      rewrite insort_Permutation. constructor; assumption.
Qed.

Lemma sorted_StronglySorted {A} (lt : A → A → bool) (l : list A) :
  (∀ a b, lt a b = true → lt b a = false) →
  Transitive (λ a b, lt b a = false) →
  StronglySorted (λ a b, lt b a = false) (sorted lt l).
Proof.
  intros Hasym Htrans. unfold sorted.
  assert (Hacc : ∀ acc, StronglySorted (λ a b, lt b a = false) acc →
            StronglySorted (λ a b, lt b a = false)
              (fold_left (λ acc x, insort lt x acc) l acc)).
  { induction l as [|x l IH]; intros acc Hacc; simpl; [exact Hacc|].
    apply IH, insort_StronglySorted; assumption. }
  apply Hacc. constructor.
Qed.

Lemma filter_length_Permutation {A} (f : A → bool) (l k : list A) :
  l ≡ₚ k → length (List.filter f l) = length (List.filter f k).
Proof.
  induction 1 as [|x l k _ IH|x y l|l k m _ IH1 _ IH2]; simpl.
  - reflexivity.
  - destruct (f x); simpl; congruence.
  - destruct (f x), (f y); reflexivity.
  - congruence.
Qed.

Lemma filter_length_Forall2 {A B} (f : A → bool) (g : B → bool)
    (l : list A) (k : list B) :
  Forall2 (λ x y, f x = g y) l k →
  length (List.filter f l) = length (List.filter g k).
Proof.
  induction 1 as [|x y l k Hxy _ IH]; simpl; [reflexivity|].
  rewrite Hxy. destruct (g y); simpl; congruence.
Qed.

Lemma filter_filter_ext {A} (f g h : A → bool) (l : list A) :
  (∀ x, x ∈ l → f x = true → g x = h x) →
  List.filter g (List.filter f l) = List.filter (λ x, f x && h x) l.
Proof.
  induction l as [|x l IH]; intros Hgh; simpl; [reflexivity|].
  assert (Hl : ∀ y, y ∈ l → f y = true → g y = h y).
  { intros y Hy. apply Hgh. right. exact Hy. }
  destruct (f x) eqn:Hfx; simpl.
  - rewrite (Hgh x); [|left|exact Hfx]. destruct (h x); rewrite (IH Hl); reflexivity.
  - apply IH, Hl.
Qed.

Lemma filter_map_comm {A B} (f : A → B) (g : B → bool) (l : list A) :
  List.filter g (map f l) = map f (List.filter (λ x, g (f x)) l).
Proof.
  induction l as [|x l IH]; simpl; [reflexivity|].
  destruct (g (f x)); simpl; congruence.
Qed.

(** The file base of a prompt file [<directory>/<stem>.txt] is
    [<directory>/<stem>]. *)
Lemma splitext_prompt_file (directory name : string) :
  contains "/" name = false → is_prompt_name name = true →
  ∃ stem, name = stem +:+ ".txt"
    ∧ splitext (directory +:+ "/" +:+ name) = (directory +:+ "/" +:+ stem, ".txt").
Proof.
  intros Hslash Hname. unfold is_prompt_name in Hname.
  apply andb_true_iff in Hname as [Hname _].
  apply andb_true_iff in Hname as [Hhidden Htxt].
  destruct (ends_with_split _ _ Htxt) as [stem ->]. exists stem. split; [reflexivity|].
  rewrite contains_append in Hslash. apply orb_false_iff in Hslash as [Hstem _].
  assert (Hdots : forallb (Ascii.eqb ".") (list_ascii_of_string stem) = false).
  { destruct stem as [|c stem]; [discriminate Hhidden|].
    rewrite append_cons in Hhidden. unfold is_hidden in Hhidden.
    cbn [forallb list_ascii_of_string].
    rewrite Ascii.eqb_sym. apply negb_true_iff in Hhidden. rewrite Hhidden. reflexivity. }
  set (base := directory +:+ "/" +:+ stem).
  assert (Hp : directory +:+ "/" +:+ stem +:+ ".txt" = base +:+ ".txt").
  { unfold base. rewrite !append_assoc. reflexivity. }
  rewrite Hp. clear Hp.
  assert (Hsep : rfind "/" (base +:+ ".txt") = Z.of_nat (String.length directory)).
  { unfold rfind, base. rewrite !rfind_from_append.
    rewrite (rfind_from_absent "/" ".txt") by reflexivity.
    change ("/" +:+ stem) with (String "/" stem). cbn [rfind_from].
    rewrite Ascii.eqb_refl. rewrite rfind_from_absent by exact Hstem. lia. }
  assert (Hdot : rfind "." (base +:+ ".txt") = Z.of_nat (String.length base)).
  { unfold rfind. rewrite rfind_from_append. cbn [rfind_from].
    rewrite Ascii.eqb_refl. reflexivity. }
  assert (Hlen : String.length base = String.length directory + 1 + String.length stem).
  { unfold base. rewrite !length_append. simpl. lia. }
  unfold splitext. rewrite Hsep, Hdot.
  rewrite (proj2 (Z.ltb_lt _ _)) by lia.
  rewrite Nat2Z.id.
  replace (Z.to_nat (Z.of_nat (String.length directory) + 1))
    with (String.length (directory +:+ "/")) by (rewrite length_append; simpl; lia).
  replace (String.length base - String.length (directory +:+ "/"))
    with (String.length stem) by (rewrite length_append; simpl; lia).
  replace (base +:+ ".txt") with ((directory +:+ "/") +:+ (stem +:+ ".txt")) at 1
    by (unfold base; rewrite !append_assoc; reflexivity).
  rewrite substring_append_r, substring_append_l, Hdots.
  rewrite substring_append_l.
  rewrite length_append, Nat.add_comm, Nat.add_sub.
  rewrite substring_append_r. reflexivity.
Qed.

(** *** What [glob] lists *)

Lemma glob_dirs_suffix `{Glob} (fs : filesystem) (directory : string) :
  glob_dirs fs directory "US.txt" = glob_dirs fs directory ".txt".
Proof. unfold glob_dirs. rewrite !os_path_split_pattern by reflexivity. reflexivity. Qed.

(** The prompt files that the two [glob] calls and the exclusion of the
    metadata files leave are the prompt files of the directory. *)
Lemma glob_prompt_files `{Glob} (fs : filesystem) (directory : string) :
  List.filter
    (λ prompt_file,
       negb (bool_decide (prompt_file ∈ sorted String.ltb (glob_star fs directory "US.txt"))))
    (glob_star fs directory ".txt")
  = prompt_files fs directory.
Proof.
  unfold glob_star, prompt_files. rewrite glob_dirs_suffix.
  set (dirs := glob_dirs fs directory ".txt").
  set (us := flat_map _ dirs).
  assert (Hus : ∀ d name, d ∈ dirs → name ∈ listdir fs d → is_hidden name = false →
            (os_path_join d name ∈ sorted String.ltb us ↔ ends_with "US.txt" name = true)).
  { intros d name Hd Hname Hhid. rewrite sorted_Permutation. unfold us.
    rewrite list_elem_of_In, in_flat_map. split.
    - intros (d' & Hd' & Hin). apply in_map_iff in Hin as (name' & Heq & Hin').
      apply filter_In in Hin' as [Hin' Hq]. apply andb_true_iff in Hq as [_ Hus'].
      apply list_elem_of_In, listdir_no_slash in Hin' as [_ Hslash'].
      apply listdir_no_slash in Hname as [_ Hslash].
      rewrite (os_path_join_inj_name d d' name name' Hslash Hslash' (eq_sym Heq)).
      exact Hus'.
    - intros Husn. exists d. split; [apply list_elem_of_In, Hd|].
      apply in_map, filter_In. split; [apply list_elem_of_In, Hname|].
      rewrite Hhid, Husn. reflexivity. }
  clearbody us.
  assert (Hsub : ∀ ds, (∀ d, d ∈ ds → d ∈ dirs) →
            List.filter (λ pf, negb (bool_decide (pf ∈ sorted String.ltb us)))
              (flat_map
                 (λ d, map (os_path_join d)
                           (List.filter (λ name, negb (is_hidden name) && ends_with ".txt" name)
                                        (listdir fs d)))
                 ds)
            = flat_map
                (λ d, map (os_path_join d) (List.filter is_prompt_name (listdir fs d))) ds).
  { induction ds as [|d ds IH]; intros Hds; [reflexivity|].
    cbn [flat_map]. rewrite List.filter_app. f_equal.
    - rewrite filter_map_comm. f_equal.
      rewrite filter_filter_ext with (h := λ name, negb (ends_with "US.txt" name)).
      + apply filter_ext. intros name. unfold is_prompt_name. reflexivity.
      + intros name Hin Hname. f_equal.
        apply andb_true_iff in Hname as [Hhid%negb_true_iff _].
        specialize (Hus d name (Hds d (list_elem_of_here _ _)) Hin Hhid).
        destruct (ends_with "US.txt" name).
        * apply bool_decide_eq_true, Hus. reflexivity.
        * apply bool_decide_eq_false. intros Hin'. apply Hus in Hin'. discriminate.
    - apply IH. intros d' Hd'. apply Hds. right. exact Hd'. }
  apply Hsub. auto.
Qed.

(** In a directory named plainly the prompt files are the paths
    [directory/name]. *)
Lemma glob_dirs_plain `{Glob} (fs : filesystem) (directory suffix : string) :
  plain_directory directory = true → contains "/" suffix = false →
  glob_dirs fs directory suffix = [if String.eqb directory "" then "/" else directory].
Proof.
  unfold plain_directory. intros [Hmagic%negb_true_iff Hend%negb_true_iff]%andb_true_iff Hs.
  unfold glob_dirs. rewrite (os_path_split_pattern _ _ Hs), (os_path_split_plain _ Hend).
  destruct (String.eqb directory ""); [reflexivity|]. rewrite Hmagic. reflexivity.
Qed.

Lemma prompt_files_plain `{Glob} (fs : filesystem) (directory : string) :
  plain_directory directory = true →
  prompt_files fs directory
  = map (λ name, directory +:+ "/" +:+ name)
        (List.filter is_prompt_name
           (listdir fs (if String.eqb directory "" then "/" else directory))).
Proof.
  intros Hplain. unfold prompt_files. rewrite (glob_dirs_plain _ _ _ Hplain) by reflexivity.
  cbn [flat_map]. rewrite app_nil_r. apply map_ext_in. intros name Hname.
  apply filter_In in Hname as [Hname _].
  apply list_elem_of_In, listdir_no_slash in Hname as [_ Hslash].
  apply os_path_join_plain; [|exact Hslash].
  unfold plain_directory in Hplain.
  apply andb_true_iff in Hplain as [_ Hend%negb_true_iff]. exact Hend.
Qed.

(** A prompt file of a directory named plainly is [directory/stem.txt],
    and its file base is [directory/stem]. *)
Lemma prompt_file_plain `{Glob} (fs : filesystem) (directory pf : string) :
  plain_directory directory = true → pf ∈ prompt_files fs directory →
  ∃ stem, pf = directory +:+ "/" +:+ stem +:+ ".txt"
    ∧ (splitext pf).1 = directory +:+ "/" +:+ stem
    ∧ contains "/" stem = false
    ∧ is_hidden (stem +:+ ".txt") = false
    ∧ ends_with "US.txt" (stem +:+ ".txt") = false.
Proof.
  intros Hplain. rewrite (prompt_files_plain _ _ Hplain).
  intros (name & -> & Hname)%list_elem_of_fmap.
  apply list_elem_of_In, filter_In in Hname as [Hin Hprompt].
  apply list_elem_of_In, listdir_no_slash in Hin as [_ Hslash].
  destruct (splitext_prompt_file directory name Hslash Hprompt) as (stem & -> & ->).
  exists stem. unfold is_prompt_name in Hprompt.
  apply andb_true_iff in Hprompt as [Hprompt Hus%negb_true_iff].
  apply andb_true_iff in Hprompt as [Hhid%negb_true_iff _].
  rewrite contains_append in Hslash. apply orb_false_iff in Hslash as [Hslash _].
  auto 10.
Qed.

(** A regular file [directory/stem.txt] with a prompt file's name is a
    prompt file of the directory. *)
Lemma prompt_file_listed `{Glob} (fs : filesystem) (directory stem : string) :
  plain_directory directory = true →
  isfile fs (directory +:+ "/" +:+ stem +:+ ".txt") = true →
  contains "/" stem = false → is_hidden (stem +:+ ".txt") = false →
  ends_with "US.txt" (stem +:+ ".txt") = false →
  directory +:+ "/" +:+ stem +:+ ".txt" ∈ prompt_files fs directory.
Proof.
  intros Hplain Hfile Hslash Hhid Hus. rewrite (prompt_files_plain _ _ Hplain).
  apply list_elem_of_fmap. exists (stem +:+ ".txt"). split; [reflexivity|].
  apply list_elem_of_In, filter_In. split.
  - apply list_elem_of_In, listdir_file.
    + unfold plain_directory in Hplain.
      apply andb_true_iff in Hplain as [_ Hend%negb_true_iff].
      rewrite (os_path_join_plain _ EmptyString Hend eq_refl), append_empty_r.
      rewrite append_assoc. exact Hfile.
    + destruct stem; discriminate.
    + rewrite contains_append, Hslash. reflexivity.
  - unfold is_prompt_name. rewrite Hhid, Hus.
    assert (Htxt : ends_with ".txt" (stem +:+ ".txt") = true).
    { unfold ends_with. apply bool_decide_eq_true.
      exists (list_ascii_of_string stem). apply list_ascii_of_string_app. }
    rewrite Htxt. reflexivity.
Qed.

(** For a directory named plainly the expansion of directory patterns
    plays no part: discovery is the same whatever [iglob_dirs] is. *)
Lemma get_data_from_dir_plain `{Datetime} (G1 G2 : Glob) (fs : filesystem)
    (directory : string) :
  plain_directory directory = true →
  @get_data_from_dir _ G1 fs directory = @get_data_from_dir _ G2 fs directory.
Proof.
  intros Hplain. unfold get_data_from_dir, glob_star.
  rewrite !(@glob_dirs_plain G1 fs directory _ Hplain) by reflexivity.
  rewrite !(@glob_dirs_plain G2 fs directory _ Hplain) by reflexivity.
  reflexivity.
Qed.

Section SessionDiscovererFacts.
Context `{Datetime} `{Glob}.

(** What the loop body stores for one prompt file. *)
Lemma describe_item (fs : filesystem) (pf prompt participant : string) (date : datetime) :
  read_prompt fs pf = Ok (prompt, date, participant) →
  ∃ item, describe fs (splitext pf).1 pf = Ok item
    ∧ item !! "date" = Some (PDate date)
    ∧ item !! "ult_prompt_file" = Some (PStr pf)
    ∧ marked_excluded item = negb (has_all_companions fs pf)
    ∧ (has_all_companions fs pf = true → item !! "excluded" = None).
Proof.
  intros Hread. unfold describe. rewrite Hread. simpl.
  eexists. split; [reflexivity|].
  unfold has_all_companions, marked_excluded.
  destruct (isfile fs ((splitext pf).1 +:+ "US.txt")),
           (isfile fs ((splitext pf).1 +:+ ".wav")),
           (isfile fs ((splitext pf).1 +:+ ".ult"));
    simpl; repeat split; try discriminate; reflexivity.
Qed.

Lemma with_keys_items (items : list (gmap string pyobj)) :
  Forall (λ item, ∃ d, item !! "date" = Some (PDate d)) items →
  ∃ keyed, with_keys items = Ok keyed ∧ map snd keyed = items.
Proof.
  unfold with_keys. induction 1 as [|item items [d Hd] _ (keyed & Hkeyed & Hsnd)].
  - exists []. split; reflexivity.
  - exists ((d, item) :: keyed). rewrite mapM_cons, Hkeyed.
    unfold date_of, dict_item. rewrite Hd. simpl. rewrite Hsnd. split; reflexivity.
Qed.

(** What one descriptor holds. *)
Lemma describe_keys (fs : filesystem) (fb pf : string) (item : gmap string pyobj) :
  describe fs fb pf = Ok item →
  ∃ prompt date participant,
    read_prompt fs pf = Ok (prompt, date, participant)
    ∧ item !! "filebase" = Some (PStr fb)
    ∧ item !! "ult_prompt_file" = Some (PStr pf)
    ∧ item !! "prompt" = Some (PStr prompt)
    ∧ item !! "date" = Some (PDate date)
    ∧ item !! "participant" = Some (PStr participant)
    ∧ companion_recorded item "ult_meta_file" "ult_meta_exists" (fb +:+ "US.txt")
                         (isfile fs (fb +:+ "US.txt"))
    ∧ companion_recorded item "ult_wav_file" "ult_wav_exists" (fb +:+ ".wav")
                         (isfile fs (fb +:+ ".wav"))
    ∧ companion_recorded item "ult_file" "ult_exists" (fb +:+ ".ult")
                         (isfile fs (fb +:+ ".ult"))
    ∧ item !! "excluded"
      = if isfile fs (fb +:+ "US.txt") && isfile fs (fb +:+ ".wav")
           && isfile fs (fb +:+ ".ult")
        then None else Some (PBool true).
Proof.
  unfold describe. intros Hitem.
  destruct (read_prompt fs pf) as [[[prompt date] participant]|e]; [|discriminate].
  simpl in Hitem. injection Hitem as <-.
  exists prompt, date, participant. split; [reflexivity|].
  unfold companion_recorded.
  destruct (isfile fs (fb +:+ "US.txt")), (isfile fs (fb +:+ ".wav")),
           (isfile fs (fb +:+ ".ult"));
    simpl; repeat split; reflexivity.
Qed.

Lemma with_keys_Ok (items : list (gmap string pyobj))
    (keyed : list (datetime * gmap string pyobj)) :
  with_keys items = Ok keyed →
  map snd keyed = items
  ∧ Forall (λ kd, kd.2 !! "date" = Some (PDate kd.1)) keyed.
Proof.
  unfold with_keys. intros Hall%mapM_Ok_Forall2.
  induction Hall as [|item kd items keyed Hkd _ [IH1 IH2]]; [split; constructor|].
  apply bind_Ok in Hkd as (d & Hd & [= <-]).
  unfold date_of, dict_item in Hd.
  destruct (item !! "date") as [[| |d']|] eqn:Hdate; try discriminate.
  injection Hd as ->. simpl. split; [congruence|]. constructor; assumption.
Qed.

(** How the list that discovery returns is made: one descriptor per prompt
    file, then the sort by date. *)
Lemma get_data_from_dir_Ok (fs : filesystem) (directory : string)
    (meta : list (gmap string pyobj)) :
  get_data_from_dir fs directory = Ok meta →
  ∃ (items : list (gmap string pyobj)) (keyed : list (datetime * gmap string pyobj)),
    Forall2 (λ pf item, describe fs (splitext pf).1 pf = Ok item)
            (sorted String.ltb (prompt_files fs directory)) items
    ∧ map snd keyed = items
    ∧ Forall (λ kd, kd.2 !! "date" = Some (PDate kd.1)) keyed
    ∧ meta = map snd (sorted (λ a b, dt_lt a.1 b.1) keyed).
Proof.
  unfold get_data_from_dir. rewrite glob_prompt_files.
  intros (items & Hitems & Hrest)%bind_Ok.
  apply bind_Ok in Hrest as (keyed & Hkeyed & [= <-]).
  apply mapM_Ok_Forall2 in Hitems. apply with_keys_Ok in Hkeyed as [Hsnd Hdates].
  exists items, keyed. auto.
Qed.

(** A descriptor that discovery returns is that of a prompt file. *)
Lemma get_data_from_dir_item (fs : filesystem) (directory : string)
    (meta : list (gmap string pyobj)) (item : gmap string pyobj) :
  get_data_from_dir fs directory = Ok meta → item ∈ meta →
  ∃ pf, pf ∈ prompt_files fs directory ∧ describe fs (splitext pf).1 pf = Ok item.
Proof.
  intros (items & keyed & Hitems & Hsnd & _ & ->)%get_data_from_dir_Ok Hitem.
  rewrite sorted_Permutation, Hsnd in Hitem.
  apply list_elem_of_lookup in Hitem as [i Hi].
  destruct (Forall2_lookup_r _ _ _ _ _ Hitems Hi) as (pf & Hpf & Hdesc).
  apply list_elem_of_lookup_2 in Hpf. rewrite sorted_Permutation in Hpf. eauto.
Qed.

(** Every prompt file has its descriptor in what discovery returns. *)
Lemma get_data_from_dir_file (fs : filesystem) (directory pf : string)
    (meta : list (gmap string pyobj)) :
  get_data_from_dir fs directory = Ok meta → pf ∈ prompt_files fs directory →
  ∃ item, item ∈ meta ∧ describe fs (splitext pf).1 pf = Ok item.
Proof.
  intros (items & keyed & Hitems & Hsnd & _ & ->)%get_data_from_dir_Ok Hpf.
  rewrite <- (sorted_Permutation String.ltb) in Hpf.
  apply list_elem_of_lookup in Hpf as [i Hi].
  destruct (Forall2_lookup_l _ _ _ _ _ Hitems Hi) as (item & Hitem & Hdesc).
  exists item. split; [|exact Hdesc].
  rewrite sorted_Permutation, Hsnd. apply list_elem_of_lookup. eauto.
Qed.

(** C2, as the code has it. In a directory whose prompt files all read as
    prompts (three lines, the second a timestamp), session discovery
    returns one descriptor per prompt file; the descriptors not marked
    excluded are as many as the prompt files that have their metadata,
    audio and raw ultrasound companions; and a prompt file with none of the
    three still has its descriptor, marked excluded. *)
Theorem get_data_from_dir_counts (fs : filesystem) (directory : string) :
  Forall (λ pf, ∃ r, read_prompt fs pf = Ok r) (prompt_files fs directory) →
  ∃ meta, get_data_from_dir fs directory = Ok meta
    ∧ length meta = length (prompt_files fs directory)
    ∧ length (List.filter (λ item, negb (marked_excluded item)) meta)
      = length (List.filter (has_all_companions fs) (prompt_files fs directory))
    ∧ ∀ pf, pf ∈ prompt_files fs directory → has_no_companion fs pf = true →
        ∃ item, item ∈ meta ∧ item !! "ult_prompt_file" = Some (PStr pf)
                ∧ marked_excluded item = true.
Proof.
  intros Hread. unfold get_data_from_dir. rewrite glob_prompt_files.
  set (pfs := sorted String.ltb (prompt_files fs directory)).
  assert (Hperm : pfs ≡ₚ prompt_files fs directory) by apply sorted_Permutation.
  rewrite <- Hperm in Hread.
  assert (Hdesc : ∃ items, describe_all fs pfs = Ok items
            ∧ Forall2 (λ pf item, (∃ d, item !! "date" = Some (PDate d))
                         ∧ item !! "ult_prompt_file" = Some (PStr pf)
                         ∧ marked_excluded item = negb (has_all_companions fs pf))
                      pfs items).
  { unfold describe_all. clearbody pfs. clear Hperm.
    induction Hread as [|pf pfs [[[prompt date] participant] Hpf] _ (items & Hitems & Hall)].
    - exists []. split; [reflexivity|constructor].
    - destruct (describe_item _ _ _ _ _ Hpf) as (item & Hitem & Hdate & Hfile & Hexcl & _).
      exists (item :: items). rewrite mapM_cons, Hitem, Hitems.
      split; [reflexivity|]. constructor; [|exact Hall]. eauto. }
  destruct Hdesc as (items & Hitems & Hall). rewrite Hitems. simpl.
  destruct (with_keys_items items) as (keyed & Hkeyed & Hsnd).
  { eapply Forall2_Forall_r; [exact Hall|]. apply Forall_forall. intros pf _ item Hitem0.
    apply Hitem0. }
  rewrite Hkeyed. simpl. eexists. split; [reflexivity|].
  assert (Hmeta : map snd (sorted (λ a b, dt_lt a.1 b.1) keyed) ≡ₚ items).
  { rewrite sorted_Permutation, Hsnd. reflexivity. }
  split; [|split].
  - rewrite Hmeta, <- Hperm. symmetry. eapply Forall2_length, Hall.
  - rewrite (filter_length_Permutation _ _ _ Hmeta).
    rewrite <- (filter_length_Permutation _ _ _ Hperm).
    symmetry. apply filter_length_Forall2.
    eapply Forall2_impl; [exact Hall|]. intros pf item (_ & _ & ->).
    rewrite negb_involutive. reflexivity.
  - intros pf Hpf Hnone. rewrite <- Hperm in Hpf.
    apply list_elem_of_lookup in Hpf as [i Hi].
    destruct (Forall2_lookup_l _ _ _ _ _ Hall Hi) as (item & Hitem & _ & Hfile & Hexcl).
    exists item. split; [|split].
    + rewrite Hmeta. apply list_elem_of_lookup. eauto.
    + exact Hfile.
    + rewrite Hexcl. unfold has_no_companion in Hnone. unfold has_all_companions.
      destruct (isfile fs ((splitext pf).1 +:+ "US.txt")); [discriminate|reflexivity].
Qed.

(** The companions that discovery looks for beside the prompt file
    [<directory>/<stem>.txt] of a descriptor, in a directory named plainly,
    are [<directory>/<stem>US.txt], [<directory>/<stem>.wav] and
    [<directory>/<stem>.ult]: those are the paths it tests and stores. *)
Theorem prompt_file_companions (fs : filesystem) (directory : string)
    (meta : list (gmap string pyobj)) :
  plain_directory directory = true →
  get_data_from_dir fs directory = Ok meta →
  ∀ item, item ∈ meta →
    ∃ stem,
      item !! "ult_prompt_file" = Some (PStr (directory +:+ "/" +:+ stem +:+ ".txt"))
      ∧ companion_recorded item "ult_meta_file" "ult_meta_exists"
          (directory +:+ "/" +:+ stem +:+ "US.txt")
          (isfile fs (directory +:+ "/" +:+ stem +:+ "US.txt"))
      ∧ companion_recorded item "ult_wav_file" "ult_wav_exists"
          (directory +:+ "/" +:+ stem +:+ ".wav")
          (isfile fs (directory +:+ "/" +:+ stem +:+ ".wav"))
      ∧ companion_recorded item "ult_file" "ult_exists"
          (directory +:+ "/" +:+ stem +:+ ".ult")
          (isfile fs (directory +:+ "/" +:+ stem +:+ ".ult")).
Proof.
  intros Hplain Hrun item Hitem.
  destruct (get_data_from_dir_item _ _ _ _ Hrun Hitem) as (pf & Hpf & Hdesc).
  destruct (prompt_file_plain _ _ _ Hplain Hpf) as (stem & -> & Hbase & _).
  apply describe_keys in Hdesc
    as (? & ? & ? & _ & _ & Hfile & _ & _ & _ & Hmeta & Hwav & Hult & _).
  rewrite Hbase in Hmeta, Hwav, Hult. rewrite !append_assoc in Hmeta, Hwav, Hult.
  exists stem. auto.
Qed.

(** Discovery, in a directory named plainly, makes a descriptor for
    exactly the prompt files of the directory: every descriptor is that of
    a regular file directly in the directory whose name has no leading
    dot, ends in [.txt] and does not end in [US.txt], with the path less
    its [.txt] as file base; every such file has its descriptor; and no
    two descriptors are of the same file.  Files in subdirectories, hidden
    files and the files named [*US.txt] never become sessions. *)
Theorem get_data_from_dir_sessions (fs : filesystem) (directory : string)
    (meta : list (gmap string pyobj)) :
  plain_directory directory = true →
  get_data_from_dir fs directory = Ok meta →
  (∀ item, item ∈ meta →
     ∃ stem, item !! "ult_prompt_file" = Some (PStr (directory +:+ "/" +:+ stem +:+ ".txt"))
       ∧ item !! "filebase" = Some (PStr (directory +:+ "/" +:+ stem))
       ∧ isfile fs (directory +:+ "/" +:+ stem +:+ ".txt") = true
       ∧ contains "/" stem = false
       ∧ is_hidden (stem +:+ ".txt") = false
       ∧ ends_with "US.txt" (stem +:+ ".txt") = false)
  ∧ (∀ stem, isfile fs (directory +:+ "/" +:+ stem +:+ ".txt") = true →
       contains "/" stem = false → is_hidden (stem +:+ ".txt") = false →
       ends_with "US.txt" (stem +:+ ".txt") = false →
       ∃ item, item ∈ meta
         ∧ item !! "ult_prompt_file" = Some (PStr (directory +:+ "/" +:+ stem +:+ ".txt")))
  ∧ NoDup (map (λ item, item !! "ult_prompt_file") meta).
Proof.
  intros Hplain Hrun. split; [|split].
  - intros item Hitem.
    destruct (get_data_from_dir_item _ _ _ _ Hrun Hitem) as (pf & Hpf & Hdesc).
    destruct (prompt_file_plain _ _ _ Hplain Hpf) as (stem & -> & Hbase & Hslash & Hhid & Hus).
    apply describe_keys in Hdesc as (? & ? & ? & Hread & Hfb & Hfile & _).
    rewrite Hbase in Hfb. exists stem.
    assert (Hisfile : isfile fs (directory +:+ "/" +:+ stem +:+ ".txt") = true).
    { unfold read_prompt, open_text in Hread. unfold isfile.
      destruct (fs !! _) as [data|]; [|discriminate Hread].
      apply bool_decide_eq_true. eauto. }
    auto 10.
  - intros stem Hfile Hslash Hhid Hus.
    destruct (get_data_from_dir_file _ _ _ _ Hrun
                (prompt_file_listed _ _ _ Hplain Hfile Hslash Hhid Hus))
      as (item & Hitem & Hdesc).
    apply describe_keys in Hdesc as (? & ? & ? & _ & _ & Hpf & _). eauto.
  - apply get_data_from_dir_Ok in Hrun as (items & keyed & Hitems & Hsnd & _ & ->).
    rewrite sorted_Permutation, Hsnd.
    assert (Hfiles : map (λ item, item !! "ult_prompt_file") items
                     = map (λ pf, Some (PStr pf))
                           (sorted String.ltb (prompt_files fs directory))).
    { clear Hsnd. induction Hitems as [|pf item pfs items Hdesc _ IH]; [reflexivity|].
      apply describe_keys in Hdesc as (? & ? & ? & _ & _ & Hpf & _).
      cbn [map]. rewrite Hpf, IH. reflexivity. }
    rewrite Hfiles. apply NoDup_fmap_2; [intros a b [= ->]; reflexivity|].
    rewrite sorted_Permutation, (prompt_files_plain _ _ Hplain).
    apply NoDup_fmap_2; [intros a b Hab; do 2 apply append_inj_l in Hab; exact Hab|].
    apply NoDup_ListNoDup, List.NoDup_filter, NoDup_ListNoDup.
    unfold listdir. apply NoDup_remove_dups.
Qed.

(** Every descriptor that discovery returns records each companion of its
    prompt file in the same way: the companion's path ([<base>US.txt],
    [<base>.wav], [<base>.ult]) with the flag [True] when the file exists,
    the flag [False] and no path when it does not; and it carries
    [excluded = True] when a companion is missing and no key [excluded]
    when all three exist. *)
Theorem get_data_from_dir_companions (fs : filesystem) (directory : string)
    (meta : list (gmap string pyobj)) :
  get_data_from_dir fs directory = Ok meta →
  ∀ item, item ∈ meta →
    ∃ fb, item !! "filebase" = Some (PStr fb)
      ∧ companion_recorded item "ult_meta_file" "ult_meta_exists" (fb +:+ "US.txt")
                           (isfile fs (fb +:+ "US.txt"))
      ∧ companion_recorded item "ult_wav_file" "ult_wav_exists" (fb +:+ ".wav")
                           (isfile fs (fb +:+ ".wav"))
      ∧ companion_recorded item "ult_file" "ult_exists" (fb +:+ ".ult")
                           (isfile fs (fb +:+ ".ult"))
      ∧ item !! "excluded"
        = if isfile fs (fb +:+ "US.txt") && isfile fs (fb +:+ ".wav")
             && isfile fs (fb +:+ ".ult")
          then None else Some (PBool true).
Proof.
  intros (items & keyed & Hitems & Hsnd & _ & ->)%get_data_from_dir_Ok item Hitem.
  rewrite sorted_Permutation, Hsnd in Hitem.
  apply list_elem_of_lookup in Hitem as [i Hi].
  destruct (Forall2_lookup_r _ _ _ _ _ Hitems Hi) as (pf & _ & Hdesc).
  apply describe_keys in Hdesc
    as (? & ? & ? & _ & Hbase & _ & _ & _ & _ & Hmeta & Hwav & Hult & Hexcl).
  eauto 10.
Qed.

(** One prompt file that does not read as a prompt makes discovery fail
    for the whole directory: no descriptor is returned, also not for the
    sessions that are in order. *)
Theorem get_data_from_dir_bad_prompt (fs : filesystem) (directory pf : string)
    (e : exn) :
  pf ∈ prompt_files fs directory → read_prompt fs pf = Raise e →
  ∃ e', get_data_from_dir fs directory = Raise e'.
Proof.
  intros Hpf Hbad.
  destruct (get_data_from_dir fs directory) as [meta|e'] eqn:Hrun; [|eauto].
  apply get_data_from_dir_Ok in Hrun as (items & _ & Hitems & _).
  rewrite <- (sorted_Permutation String.ltb) in Hpf.
  apply list_elem_of_lookup in Hpf as [i Hi].
  destruct (Forall2_lookup_l _ _ _ _ _ Hitems Hi) as (item & _ & Hdesc).
  apply describe_keys in Hdesc as (? & ? & ? & Hread & _). congruence.
Qed.
End SessionDiscovererFacts.

Lemma get_data_from_dir_counts_witness :
  ∃ meta, @get_data_from_dir clock no_wildcards (studio 12) "rec" = Ok meta
    ∧ length meta = 2%nat
    ∧ length (List.filter (λ item, negb (marked_excluded item)) meta) = 1%nat.
Proof.
  destruct (@get_data_from_dir_counts clock no_wildcards (studio 12) "rec")
    as (meta & Hrun & Hlen & Hcount & _).
  - assert (Hpfs : @prompt_files no_wildcards (studio 12) "rec" = ["rec/a.txt"; "rec/b.txt"])
      by (vm_compute; reflexivity).
    rewrite Hpfs. repeat constructor; eexists; vm_compute; reflexivity.
  - exists meta. split; [exact Hrun|]. split.
    + rewrite Hlen. vm_compute. reflexivity.
    + rewrite Hcount. vm_compute. reflexivity.
Defined.

(** A directory of three prompt files, one of them of a single line, and
    one complete session: discovery does not yield three descriptors; it
    raises at the prompt file that does not read and yields none. *)
Lemma get_data_from_dir_counts_counterexample :
  length (@prompt_files no_wildcards studio_short_prompt "rec") = 3
  ∧ length (List.filter (has_all_companions studio_short_prompt)
              (@prompt_files no_wildcards studio_short_prompt "rec")) = 1
  ∧ @get_data_from_dir clock no_wildcards studio_short_prompt "rec"
    = Raise (IndexError list_index_out_of_range).
Proof. repeat split; vm_compute; reflexivity. Qed.

(** ** Frame Decoder *)

Section FrameDecoderFacts.
Context `{Float64}.

Lemma truediv_ints (a b : Z) :
  b ≠ 0%Z → py_truediv (PyInt a) (PyInt b) = Ok (of_Q (inject_Z a / inject_Z b)).
Proof.
  intros Hb. unfold py_truediv. simpl.
  destruct (Z.eqb_spec b 0); [contradiction|reflexivity].
Qed.

(** The frame count that line 185 computes. *)
Lemma frame_count (n V P : Z) :
  trunc_quotient_law → (0 ≤ n < 2 ^ 53)%Z → (0 < V)%Z → (0 < P)%Z →
  py_truediv (PyInt n) (py_mul (PyInt V) (PyInt P)) ≫= ftrunc = Ok (n / (V * P))%Z.
Proof.
  intros Hlaw Hn HV HP. simpl py_mul. rewrite truediv_ints by lia. simpl.
  apply Hlaw; lia.
Qed.

(** [reshape] to three dimensions that are not negative. *)
Lemma reshape_3d (a : ndarray) (n V P : Z) :
  (0 ≤ n)%Z → (0 ≤ V)%Z → (0 ≤ P)%Z →
  reshape a [PyInt n; PyInt V; PyInt P]
  = if (n * V * P =? Z.of_nat (length (buf a)))%Z
    then Ok {| shape := [n; V; P]; buf := buf a |}
    else Raise (ValueError (cannot_reshape (Z.of_nat (length (buf a))) [n; V; P])).
Proof.
  intros Hn HV HP. unfold reshape. cbn -[Z.eqb Z.ltb Z.mul Z.of_nat].
  rewrite (proj2 (Z.ltb_ge n (-1))), (proj2 (Z.ltb_ge V (-1))),
    (proj2 (Z.ltb_ge P (-1))) by lia.
  rewrite (proj2 (Z.eqb_neq (-1) n)), (proj2 (Z.eqb_neq (-1) V)),
    (proj2 (Z.eqb_neq (-1) P)) by lia.
  cbn -[Z.eqb Z.ltb Z.mul Z.of_nat].
  replace (n * (V * (P * 1)))%Z with (n * V * P)%Z by lia.
  reflexivity.
Qed.

(** C6. A raw buffer of exactly [frames * vectors * pixels_per_vector]
    bytes (a positive frame geometry, a size below [2^53]) decodes to the
    volume of shape [(frames, vectors, pixels_per_vector)] that holds the
    bytes, in their order, cast to floating point. *)
Theorem frame_decoder_exact_buffer (ult_data : list Byte.byte) (frames V P : Z) :
  trunc_quotient_law →
  (0 ≤ frames)%Z → (0 < V)%Z → (0 < P)%Z →
  Z.of_nat (length ult_data) = (frames * V * P)%Z →
  (Z.of_nat (length ult_data) < 2 ^ 53)%Z →
  frame_decoder ult_data (PyInt V) (PyInt P)
  = Ok ({| shape := [frames; V; P]; buf := samples ult_data |}, frames).
Proof.
  intros Hlaw Hframes HV HP Hsize Hbound. unfold frame_decoder. cbn [buf].
  rewrite length_map.
  pose proof (frame_count (Z.of_nat (length ult_data)) V P Hlaw) as Hcount.
  simpl in Hcount. simpl.
  destruct (py_truediv _ _) as [q|e]; simpl in *;
    [|discriminate Hcount; lia].
  rewrite Hcount by lia.
  replace (Z.of_nat (length ult_data) / (V * P))%Z with frames
    by (rewrite Hsize, <- Z.mul_assoc, Z.div_mul; lia).
  simpl. rewrite reshape_3d by lia. cbn [buf]. rewrite length_map.
  rewrite (proj2 (Z.eqb_eq _ _)) by lia. reflexivity.
Qed.

(** C3, as the code has it. A raw buffer whose byte count is not a
    multiple of [vectors * pixels_per_vector] is not truncated: the frame
    count is the floor quotient, and the reshape to that many frames raises
    [ValueError], since the sizes differ; no volume is produced. *)
Theorem frame_decoder_partial_frame (ult_data : list Byte.byte) (V P : Z) :
  trunc_quotient_law →
  (0 < V)%Z → (0 < P)%Z →
  (Z.of_nat (length ult_data) < 2 ^ 53)%Z →
  (Z.of_nat (length ult_data) mod (V * P) ≠ 0)%Z →
  frame_decoder ult_data (PyInt V) (PyInt P)
  = Raise (ValueError (cannot_reshape (Z.of_nat (length ult_data))
                         [(Z.of_nat (length ult_data) / (V * P))%Z; V; P])).
Proof.
  intros Hlaw HV HP Hbound Hrem. unfold frame_decoder. cbn [buf].
  rewrite length_map.
  pose proof (frame_count (Z.of_nat (length ult_data)) V P Hlaw) as Hcount.
  simpl in Hcount. simpl.
  destruct (py_truediv _ _) as [q|e]; simpl in *;
    [|discriminate Hcount; lia].
  rewrite Hcount by lia. simpl.
  assert (0 ≤ Z.of_nat (length ult_data) / (V * P))%Z by (apply Z.div_pos; lia).
  rewrite reshape_3d by lia. cbn [buf]. rewrite length_map.
  rewrite (proj2 (Z.eqb_neq _ _)); [reflexivity|].
  intros Heq. apply Hrem. rewrite <- Heq, <- Z.mul_assoc. apply Z.mod_mul. lia.
Qed.
End FrameDecoderFacts.

(** Exact rational arithmetic satisfies the law of the truncated
    quotient. *)
Lemma rationals_trunc_quotient : @trunc_quotient_law rationals.
Proof.
  intros a b Ha Hb. simpl. f_equal.
  set (q := (inject_Z a / inject_Z b)%Q).
  assert (Hq : (q == a # Z.to_pos b)%Q).
  { unfold q. destruct b as [|p|p]; try lia. unfold Qeq. simpl. lia. }
  assert (Hred : (Qred q == a # Z.to_pos b)%Q) by (rewrite Qred_correct; exact Hq).
  assert (Hpos : (0 <= Qred q)%Q).
  { rewrite Hred. unfold Qle. simpl. lia. }
  apply Qle_bool_iff in Hpos. rewrite Hpos.
  rewrite Hred. unfold Qfloor. rewrite Z2Pos.id by lia. reflexivity.
Qed.

Lemma frame_decoder_exact_buffer_witness :
  @frame_decoder rationals (bytes_of [1; 2; 3; 4; 5; 6; 7; 8; 9; 10; 11; 12]%Z)
                 (PyInt 2) (PyInt 2)
  = Ok ({| shape := [3; 2; 2]%Z;
           buf := samples (bytes_of [1; 2; 3; 4; 5; 6; 7; 8; 9; 10; 11; 12]%Z) |}, 3%Z).
Proof.
  apply (@frame_decoder_exact_buffer rationals); try lia.
  - exact rationals_trunc_quotient.
  - reflexivity.
  - vm_compute. reflexivity.
Defined.

Lemma frame_decoder_partial_frame_witness :
  @frame_decoder rationals (bytes_of [1; 2; 3; 4; 5]%Z) (PyInt 2) (PyInt 2)
  = Raise (ValueError (cannot_reshape 5 [(5 / (2 * 2))%Z; 2%Z; 2%Z])).
Proof.
  apply (@frame_decoder_partial_frame rationals (bytes_of [1; 2; 3; 4; 5]%Z) 2 2);
    try lia.
  - exact rationals_trunc_quotient.
  - vm_compute. reflexivity.
  - vm_compute. discriminate.
Defined.

(** A buffer of five bytes for frames of two vectors by two pixels, in
    binary64: one whole frame and one byte more.  Decoding does not
    complete with a truncated volume; it raises. *)
Lemma frame_decoder_truncation_counterexample :
  (5 mod (2 * 2) ≠ 0)%Z
  ∧ @frame_decoder binary64 (bytes_of [1; 2; 3; 4; 5]%Z) (PyInt 2) (PyInt 2)
    = Raise (ValueError (cannot_reshape 5 [1; 2; 2]%Z)).
Proof. split; [discriminate|]. reflexivity. Qed.

(** ** Isometric Resampler *)

Lemma mapM_Forall {A B} (f : A → res B) (R : B → Prop) (l : list A) :
  Forall (λ x, ∃ y, f x = Ok y ∧ R y) l →
  ∃ k, mapM f l = Ok k ∧ length k = length l ∧ Forall R k.
Proof.
  induction 1 as [|x l (y & Hy & HR) _ (k & Hk & Hlen & HRk)].
  - exists []. repeat split. constructor.
  - exists (y :: k). rewrite mapM_cons, Hy, Hk. simpl.
    repeat split; [congruence|]. constructor; assumption.
Qed.

Section ResamplerFacts.
Context `{Builtins} `{!SciLibs} `{Datetime}.

Lemma set_last_length {A} (l : list A) (x : A) : length (set_last l x) = length l.
Proof.
  destruct l as [|y l]; [reflexivity|]. unfold set_last.
  rewrite length_app, length_take. simpl. lia.
Qed.

(** [np.linspace] returns [num] samples. *)
Lemma linspace_Ok (start stop : float) (num : Z) (endpoint : bool) :
  (0 ≤ num)%Z →
  ∃ l, linspace start stop num endpoint = Ok l ∧ length l = Z.to_nat num.
Proof.
  intros Hnum. unfold linspace.
  rewrite (proj2 (Z.ltb_ge num 0)) by lia.
  eexists. split; [reflexivity|].
  destruct (endpoint && (1 <? num)%Z); rewrite ?set_last_length, length_map;
    destruct (0 <? _)%Z; try destruct (fis_zero _);
    rewrite length_map, length_map, length_seq; reflexivity.
Qed.

Lemma frame_at_Ok (frames : ndarray) (n V P i : Z) :
  shape frames = [n; V; P] → (i < n)%Z → ∃ fr, frame_at frames i = Ok fr.
Proof.
  intros Hshape Hi. unfold frame_at. rewrite Hshape.
  rewrite (proj2 (Z.ltb_lt i n)) by lia. eauto.
Qed.


Lemma interpolate_frame_Ok (x y : list float) (frames : ndarray) (n V P i : Z) :
  interp2d_returns x y frames → shape frames = [n; V; P] → (0 ≤ i < n)%Z →
  ∃ fr f, frame_at frames i = Ok fr ∧ interp2d x y (transpose fr) = Ok f
    ∧ interpolate_frame x y frames i = Ok f.
Proof.
  intros Hcalls Hshape [Hi0 Hi]. unfold interpolate_frame.
  destruct (frame_at_Ok _ _ _ _ _ Hshape Hi) as [fr Hfr].
  destruct (Hcalls i fr Hi0 Hfr) as [f Hf].
  exists fr, f. rewrite Hfr. simpl. auto.
Qed.

(** The loop of lines 217-219 yields one image per frame, each the value
    on the new grid of the interpolant of a frame. *)
Lemma resample_frames_Ok (x y xnew ynew : list float) (frames : ndarray) (n V P : Z) :
  interp2d_returns x y frames → shape frames = [n; V; P] →
  ∃ ultra_interp, resample_frames x y xnew ynew frames n = Ok ultra_interp
    ∧ length ultra_interp = Z.to_nat n
    ∧ Forall (λ im, ∃ i fr f, (0 ≤ i)%Z ∧ frame_at frames i = Ok fr
                      ∧ interp2d x y (transpose fr) = Ok f
                      ∧ im = interp_call f xnew ynew)
             ultra_interp.
Proof.
  intros Hcalls Hshape. unfold resample_frames.
  edestruct (mapM_Forall
               (λ fIdx, f ← interpolate_frame x y frames (Z.of_nat fIdx);
                        Ok (interp_call f xnew ynew))
               (λ im, ∃ i fr f, (0 ≤ i)%Z ∧ frame_at frames i = Ok fr
                        ∧ interp2d x y (transpose fr) = Ok f
                        ∧ im = interp_call f xnew ynew)
               (seq 0 (Z.to_nat n))) as (k & Hk & Hlen & Hall).
  - apply Forall_forall. intros fIdx Hin%elem_of_seq.
    destruct (interpolate_frame_Ok x y frames n V P (Z.of_nat fIdx) Hcalls Hshape)
      as (fr & f & Hfr & Hf & Hrun); [lia|].
    rewrite Hrun. simpl. eexists. split; [reflexivity|].
    exists (Z.of_nat fIdx), fr, f. split; [lia|]. auto.
  - exists k. rewrite length_seq in Hlen. auto.
Qed.

(** The grids of lines 199-207 when the probe depth and the count of rows
    are computed: [xnew] has [V * 2] points and [ynew] has [rows * 2]. *)
Lemma isometric_grids_Ok (V P rows : Z) (PixelsPerMm : num) (depth : float) :
  (0 ≤ V)%Z → (0 ≤ P)%Z →
  py_truediv (PyInt P) PixelsPerMm = Ok depth →
  fceil (fmul (of_int V) (fdiv depth (of_int probe_array_length_mm))) = Ok rows →
  (0 ≤ rows)%Z →
  ∃ x y xnew ynew,
    isometric_grids (PyInt V) (PyInt P) PixelsPerMm = Ok (x, y, xnew, ynew)
    ∧ length xnew = Z.to_nat (V * 2) ∧ length ynew = Z.to_nat (rows * 2).
Proof.
  intros HV0 HP0 Hdepth Hrows Hrows0. unfold isometric_grids. rewrite Hdepth.
  cbn -[linspace Z.mul].
  destruct (linspace_Ok (of_int 1) (of_int V) V true HV0) as (x & -> & _).
  cbn -[linspace Z.mul].
  destruct (linspace_Ok (of_int 1) (of_int P) P true HP0) as (y & -> & _).
  cbn -[linspace Z.mul].
  destruct (linspace_Ok (of_int 1) (of_int V) (V * 2) true) as (xnew & -> & Hxnew);
    [lia|].
  cbn -[linspace Z.mul]. rewrite Hrows.
  cbn -[linspace Z.mul].
  destruct (linspace_Ok (of_int 1) (of_int P) (rows * 2) true) as (ynew & -> & Hynew);
    [lia|].
  cbn -[linspace Z.mul]. exists x, y, xnew, ynew. auto.
Qed.

(** For a volume of at least two frames of [V] vectors by [P] pixels, with
    [V] and [P] not negative: when the probe depth [P / d] is computed (the
    pixel density [d] is not zero), the count of rows [ceil(V * ratio)] is
    computed and not negative, [ratio] being the depth over the probe
    length of 40 mm, and [interp2d] returns for each frame of the volume
    an interpolant whose value on the new grid has the shape of the grid,
    the Isometric Resampler yields one image per frame, each of
    [rows * 2] rows and [V * 2] columns. *)
Theorem isometric_resampler_shapes (s : session) (V P rows : Z) (depth : float)
    (x y xnew ynew : list float) :
  ult_NumVectors s = PyInt V → ult_PixPerVector s = PyInt P →
  (0 ≤ V)%Z → (0 ≤ P)%Z →
  py_truediv (PyInt P) (ult_PixelsPerMm s) = Ok depth →
  fceil (fmul (of_int V) (fdiv depth (of_int probe_array_length_mm))) = Ok rows →
  (0 ≤ rows)%Z →
  shape (ultra s) = [ult_no_frames s; V; P] → (2 ≤ ult_no_frames s)%Z →
  isometric_grids (ult_NumVectors s) (ult_PixPerVector s) (ult_PixelsPerMm s)
  = Ok (x, y, xnew, ynew) →
  interp2d_returns x y (ultra s) →
  interp_shapes x y xnew ynew (ultra s) →
  ∃ ultra_interp, isometric_resampler s = Ok ultra_interp
    ∧ length ultra_interp = Z.to_nat (ult_no_frames s)
    ∧ Forall (λ im, shape im = [(rows * 2)%Z; (V * 2)%Z]) ultra_interp.
Proof.
  intros HV HP HV0 HP0 Hdepth Hrows Hrows0 Hshape Hframes Hgrids Hcalls Hshapes.
  destruct (isometric_grids_Ok V P rows _ depth HV0 HP0 Hdepth Hrows Hrows0)
    as (x' & y' & xnew' & ynew' & Hgrids' & Hxnew & Hynew).
  rewrite HV, HP, Hgrids' in Hgrids. injection Hgrids as -> -> -> ->.
  unfold isometric_resampler. rewrite HV, HP, Hgrids'. simpl.
  destruct (interpolate_frame_Ok x y (ultra s) _ V P 1 Hcalls Hshape)
    as (_ & f & _ & _ & ->); [lia|].
  simpl.
  destruct (resample_frames_Ok x y xnew ynew (ultra s) _ V P Hcalls Hshape)
    as (ultra_interp & -> & Hlen & Hall).
  exists ultra_interp. split; [reflexivity|]. split; [exact Hlen|].
  eapply Forall_impl; [exact Hall|]. intros im (i & fr & g & Hi & Hfr & Hg & ->).
  rewrite (Hshapes i fr g Hi Hfr Hg), Hxnew, Hynew, !Z2Nat.id by lia. reflexivity.
Qed.
End ResamplerFacts.

(** C7, on a session of one frame.  The session loads, its volume has the
    shape (1, 2, 2), and the Isometric Resampler raises at line 208, where
    the interpolant for the disabled debug plot indexes frame 1: no image is
    produced for the frame. *)
Lemma isometric_resampler_single_frame :
  ∃ s, @load_session binary64 (decimal_builtins binary64) (toy_libs binary64) clock
         (studio 4) (session_a 4) = Ok s
    ∧ ult_no_frames s = 1%Z
    ∧ shape (ultra s) = [1; 2; 2]%Z
    ∧ isometric_resampler s = Raise (IndexError (axis_out_of_bounds 1 0 1)).
Proof. eexists. split; [reflexivity|]. repeat split; reflexivity. Qed.

(** The stand-ins of the libraries return on every call. *)
Lemma toy_interp2d_returns (fl : Float64) (x y : list (@float fl)) (frames : @ndarray fl) :
  @interp2d_returns fl (toy_libs fl) x y frames.
Proof. intros i fr _ _. exists (transpose fr). reflexivity. Qed.

Lemma toy_optimize_returns (fl : Float64) (ultra_interp : list (@ndarray fl)) :
  @optimize_returns fl (toy_libs fl) ultra_interp.
Proof. apply Forall_forall. intros pair _. eexists. reflexivity. Qed.

Lemma toy_interp_shapes (fl : Float64) (x y xnew ynew : list (@float fl))
    (frames : @ndarray fl) :
  length ynew ≠ 1 → @interp_shapes fl (toy_libs fl) x y xnew ynew frames.
Proof.
  intros Hrows i fr f _ _ _. simpl. unfold toy_interp_call. simpl.
  destruct (Nat.eqb_spec (length ynew) 1); [contradiction|reflexivity].
Qed.

Lemma isometric_resampler_shapes_witness :
  ∃ ultra_interp,
    @isometric_resampler binary64 (toy_libs binary64) (loaded_lab binary64 60 3)
    = Ok ultra_interp
    ∧ length ultra_interp = 3%nat
    ∧ Forall (λ im, shape im = [128; 128]%Z) ultra_interp.
Proof.
  eapply (@isometric_resampler_shapes binary64 (toy_libs binary64)
            (loaded_lab binary64 60 3) 64 4 64
            (@fdiv binary64 (of_int 4) (of_Q (1 # 10)))).
  - reflexivity.
  - reflexivity.
  - lia.
  - lia.
  - reflexivity.
  - reflexivity.
  - lia.
  - reflexivity.
  - simpl. lia.
  - reflexivity.
  - apply toy_interp2d_returns.
  - apply toy_interp_shapes. discriminate.
Defined.

(** ** Registration Engine *)

Section RegistrationFacts.
Context `{Builtins} `{!SciLibs} `{Datetime}.

(** C4. Whatever the resampled frame sequence, the Registration Engine
    calls the solver on the consecutive pairs of its first three frames
    only, with the next frame as first and the current frame as second
    argument, and keeps the mappings in that order; with three frames or
    more the loop ends with exactly two entries, with fewer it stops at the
    missing frame with an index error.  All that is asked of the solver is
    that it returns on those calls. *)
Theorem registration_engine_pairs (ultra_interp : list ndarray) :
  Forall (λ pair, ∃ m, optimize sdr pair.2 pair.1 = Ok m)
         (consecutive_pairs (take 3 ultra_interp)) →
  ∃ ofdisp outcome, registration_engine ultra_interp = (ofdisp, outcome)
    ∧ Forall2 (λ m pair, optimize sdr pair.2 pair.1 = Ok m)
              ofdisp (consecutive_pairs (take 3 ultra_interp))
    ∧ (3 ≤ length ultra_interp → outcome = Ok tt ∧ length ofdisp = 2)
    ∧ (length ultra_interp < 3 → outcome = Raise (IndexError list_index_out_of_range)).
Proof.
  intros Hcalls. unfold registration_engine.
  destruct ultra_interp as [|f0 [|f1 [|f2 rest]]]; simpl.
  - eexists _, _. split; [reflexivity|]. repeat split; [constructor|lia..].
  - eexists _, _. split; [reflexivity|]. repeat split; [constructor|lia..].
  - apply Forall_cons in Hcalls as [[m1 Hm1] _]. simpl in Hm1. rewrite Hm1. simpl.
    eexists _, _. split; [reflexivity|].
    repeat split; [repeat constructor; exact Hm1|lia..].
  - apply Forall_cons in Hcalls as [[m1 Hm1] Hcalls].
    apply Forall_cons in Hcalls as [[m2 Hm2] _]. simpl in Hm1, Hm2.
    rewrite Hm1. simpl. rewrite Hm2. simpl.
    eexists _, _. split; [reflexivity|].
    repeat split; [repeat constructor; assumption|lia].
Qed.

(** C5, as the code has it. The solver is the symmetric diffeomorphic
    registration with the four pyramid levels of 200, 100, 50 and 25
    iterations and 100 inverse iterations; its metric is the
    cross-correlation metric in two dimensions with smoothing 3.0 and
    radius 2, not a sum of squared differences. *)
Theorem registration_configuration :
  sdr_level_iters sdr = [200; 100; 50; 25]%Z
  ∧ length (sdr_level_iters sdr) = 4
  ∧ sdr_metric sdr = CCMetric 2 (of_Q 3) 2
  ∧ family (sdr_metric sdr) = cross_correlation
  ∧ sdr_inv_iter sdr = 100%Z.
Proof. repeat split. Qed.
End RegistrationFacts.

Lemma registration_engine_pairs_witness :
  ∃ ofdisp, @registration_engine binary64 (toy_libs binary64)
              [ramp binary64 0; ramp binary64 1; ramp binary64 2]
            = (ofdisp, Ok tt)
    ∧ length ofdisp = 2%nat.
Proof.
  destruct (@registration_engine_pairs binary64 (toy_libs binary64)
              [ramp binary64 0; ramp binary64 1; ramp binary64 2])
    as (ofdisp & outcome & Hrun & _ & Hthree & _).
  - repeat constructor; eexists; reflexivity.
  - destruct Hthree as [-> Hlen]; [simpl; lia|].
    exists ofdisp. split; [exact Hrun|exact Hlen].
Defined.

(** The metric that [compute] builds is of the cross-correlation family,
    which is not the family of sums of squared differences. *)
Lemma registration_metric_counterexample :
  family (sdr_metric (@sdr binary64)) = cross_correlation
  ∧ cross_correlation ≠ sum_of_squared_differences.
Proof. split; [reflexivity|discriminate]. Qed.

(** ** Time Alignment *)

Section TimeAlignmentFacts.
Context `{Float64}.



End TimeAlignmentFacts.







(** The example of the specification in binary64: a frame rate of 60, a
    first frame at 0.1 and three frames. *)
Lemma time_alignment_example :
  @ultra_time_of binary64 3 (PyInt 60) (PyFloat (of_Q (1 # 10)))
  = Ok [ fadd (of_Q (1 # 10)) (fdiv (of_Q (1 # 2)) (of_int 60));
         fadd (fadd (of_Q (1 # 10)) (fdiv (of_int 1) (of_int 60)))
              (fdiv (of_Q (1 # 2)) (of_int 60));
         fadd (fadd (of_Q (1 # 10)) (fdiv (of_int 2) (of_int 60)))
              (fdiv (of_Q (1 # 2)) (of_int 60)) ].
Proof. reflexivity. Qed.


(** ** The function *)

(** C1, on a complete session of three frames.  [compute] builds the
    dictionary with the displacement fields, the frame volume and the two
    time vectors, and its caller receives [None]. *)
Lemma compute_returns_None :
  ∃ data, run_data 12 = Ok data
    ∧ is_Some (data !! "of") ∧ is_Some (data !! "frames")
    ∧ is_Some (data !! "ult_time") ∧ is_Some (data !! "wav_time")
    ∧ run 12 = Ok None.
Proof. eexists. split; [reflexivity|]. repeat split; eexists; reflexivity. Qed.

Section ComputeFacts.
Context `{Builtins} `{!SciLibs} `{Datetime}.

(** Whatever the session, the caller of [compute] never receives the
    dictionary: the call raises or returns [None]. *)
Lemma compute_no_bundle (fs : filesystem) (item : gmap string pyobj) :
  compute fs item = Ok None ∨ ∃ e, compute fs item = Raise e.
Proof.
  unfold compute. destruct (compute_data fs item) as [data|e]; simpl; eauto.
Qed.
End ComputeFacts.

(** ** Sessions of fewer than three frames *)

Section ShortSessions.
Context `{Builtins} `{!SciLibs} `{Datetime}.

(** A reshape to [(n, V, P)] with [n] not negative keeps [n] as the
    first dimension (one of the other two may be the inferred [-1]). *)
Lemma reshape_first_dim (a : ndarray) (n : Z) (V P : num) (u : ndarray) :
  reshape a [PyInt n; V; P] = Ok u → (0 ≤ n)%Z → ∃ v p, shape u = [n; v; p].
Proof.
  unfold reshape. intros Hu Hn.
  destruct V as [v|?], P as [p|?];
    cbn -[Z.eqb Z.ltb Z.mul Z.of_nat Z.div Z.modulo existsb List.filter product] in Hu;
    try discriminate.
  destruct (existsb _ _); [discriminate|].
  cbn [List.filter] in Hu.
  rewrite (proj2 (Z.eqb_neq (-1) n)) in Hu by lia.
  destruct (Z.eqb_spec (-1) v), (Z.eqb_spec (-1) p);
    cbn -[Z.eqb Z.ltb Z.mul Z.of_nat Z.div Z.modulo product] in Hu;
    try discriminate.
  all: match type of Hu with (if ?c then _ else _) = _ => destruct c; [discriminate|] | (if ?c then _ else _) = _ => destruct c; [|discriminate] end.
  all: injection Hu as <-; cbn [shape]; rewrite ?(proj2 (Z.eqb_neq n (-1))) by lia; eauto.
Qed.

Lemma frame_decoder_shape (ult_data : list Byte.byte) (V P : num) (frames : ndarray) (n : Z) :
  frame_decoder ult_data V P = Ok (frames, n) → (0 ≤ n)%Z →
  ∃ v p, shape frames = [n; v; p].
Proof.
  unfold frame_decoder. intros Hrun Hn.
  apply bind_Ok in Hrun as (q & _ & Hrun).
  apply bind_Ok in Hrun as (n' & _ & Hrun).
  apply bind_Ok in Hrun as (u & Hu & Hrun).
  injection Hrun as <- <-. eapply reshape_first_dim; eassumption.
Qed.

Lemma load_session_shape (fs : filesystem) (item : gmap string pyobj) (s : session) :
  load_session fs item = Ok s → (0 ≤ ult_no_frames s)%Z →
  ∃ v p, shape (ultra s) = [ult_no_frames s; v; p].
Proof.
  unfold load_session. intros Hload Hn.
  repeat (apply bind_Ok in Hload as (? & ? & Hload); cbn beta in Hload;
          repeat match type of Hload with
                 | context [let '(_, _) := ?p in _] => destruct p
                 end).
  injection Hload as <-. cbn [ultra ult_no_frames] in *.
  eapply frame_decoder_shape; eassumption.
Qed.

End ShortSessions.




(** * Further properties of the code *)

(** ** Discovery and [compute] together *)

Section ExcludedSessions.
Context `{Builtins} `{!SciLibs} `{Datetime} `{Glob}.

Lemma item_str_Some (item : gmap string pyobj) (key s : string) :
  item !! key = Some (PStr s) → item_str item key = Ok s.
Proof. unfold item_str, dict_item. intros ->. reflexivity. Qed.

Lemma item_str_None (item : gmap string pyobj) (key : string) :
  item !! key = None → item_str item key = Raise (KeyError key).
Proof. unfold item_str, dict_item. intros ->. reflexivity. Qed.

(** The flag [excluded] is advisory: [compute] does not read it.  Given a
    descriptor that discovery has marked excluded, [compute] never returns;
    it runs until it needs the path of a missing companion, and when the
    audio file is the missing one it raises [KeyError] on [ult_wav_file]
    at once. *)
Theorem compute_excluded_session (fs : filesystem) (directory : string)
    (meta : list (gmap string pyobj)) (item : gmap string pyobj) :
  get_data_from_dir fs directory = Ok meta →
  item ∈ meta → marked_excluded item = true →
  (∀ fs', ∃ e, compute fs' item = Raise e)
  ∧ (item !! "ult_wav_exists" = Some (PBool false) →
     ∀ fs', compute fs' item = Raise (KeyError "ult_wav_file")).
Proof.
  intros (items & keyed & Hitems & Hsnd & _ & ->)%get_data_from_dir_Ok Hitem Hexcluded.
  rewrite sorted_Permutation, Hsnd in Hitem.
  apply list_elem_of_lookup in Hitem as [i Hi].
  destruct (Forall2_lookup_r _ _ _ _ _ Hitems Hi) as (pf & _ & Hdesc).
  apply describe_keys in Hdesc
    as (prompt & ? & ? & _ & Hbase & _ & Hprompt & _ & _ & Hmeta & Hwav & Hult & Hexcl).
  unfold marked_excluded in Hexcluded. rewrite Hexcl in Hexcluded.
  unfold companion_recorded in *.
  assert (Hstart : ∀ fs', compute fs' item
            = _ ← (wav_file ← item_str item "ult_wav_file";
                   '(wav_frames, wav_fs) ← read_wav fs' wav_file;
                   meta_file ← item_str item "ult_meta_file";
                   '(NumVectors, PixPerVector, PixelsPerMm, fps, TimeInSecOfFirstFrame) ←
                     read_ult_meta fs' meta_file;
                   ult_file ← item_str item "ult_file";
                   ult_data ← open_binary fs' ult_file;
                   '(frames, no_frames) ← frame_decoder ult_data NumVectors PixPerVector;
                   s ← Ok {| ult_wav_frames := wav_frames; ult_wav_fs := wav_fs;
                             ult_NumVectors := NumVectors; ult_PixPerVector := PixPerVector;
                             ult_PixelsPerMm := PixelsPerMm; ult_fps := fps;
                             ult_TimeInSecOfFirstFrame := TimeInSecOfFirstFrame;
                             ultra := frames; ult_no_frames := no_frames |};
                   ultra_interp ← isometric_resampler s;
                   register_and_align s ultra_interp);
              Ok None).
  { intros fs'. unfold compute, compute_data, load_session.
    rewrite (item_str_Some _ _ _ Hbase), (item_str_Some _ _ _ Hprompt). simpl.
    destruct (item_str item "ult_wav_file") as [wav_file|]; [|reflexivity]. simpl.
    destruct (read_wav fs' wav_file) as [[wav_frames wav_fs]|]; [|reflexivity]. simpl.
    destruct (item_str item "ult_meta_file") as [meta_file|]; [|reflexivity]. simpl.
    destruct (read_ult_meta fs' meta_file) as [[[[[a b] c] d] f]|]; [|reflexivity]. simpl.
    destruct (item_str item "ult_file") as [ult_file|]; [|reflexivity]. simpl.
    destruct (open_binary fs' ult_file) as [ult_data|]; [|reflexivity]. simpl.
    destruct (frame_decoder ult_data a b) as [[frames no_frames]|]; reflexivity. }
  split.
  - intros fs'. rewrite Hstart.
    destruct (isfile fs (_ +:+ ".wav")); destruct Hwav as [Hwav _].
    + rewrite (item_str_Some _ _ _ Hwav). simpl.
      destruct (read_wav fs' _) as [[wav_frames wav_fs]|]; [|eauto]. simpl.
      destruct (isfile fs (_ +:+ "US.txt")); destruct Hmeta as [Hmeta _].
      * rewrite (item_str_Some _ _ _ Hmeta). simpl.
        destruct (read_ult_meta fs' _) as [[[[[a b] c] d] f]|]; [|eauto]. simpl.
        destruct (isfile fs (_ +:+ ".ult")); [discriminate Hexcluded|].
        destruct Hult as [Hult _]. rewrite (item_str_None _ _ Hult). eauto.
      * rewrite (item_str_None _ _ Hmeta). eauto.
    + rewrite (item_str_None _ _ Hwav). eauto.
  - intros Hflag fs'. rewrite Hstart.
    destruct (isfile fs (_ +:+ ".wav")); destruct Hwav as [Hwav Hflag'];
      [congruence|].
    rewrite (item_str_None _ _ Hwav). reflexivity.
Qed.
End ExcludedSessions.

(** ** Prompts *)

Section PromptFacts.
Context `{Datetime}.

(** [read_prompt] returns exactly on the files of at least three lines
    whose second line is a timestamp: it gives the first line, the parsed
    timestamp, and the text of the third line before its first comma (the
    whole line when it has none). *)
Theorem read_prompt_Ok_iff (fs : filesystem) (filebase prompt participant : string)
    (date : datetime) :
  read_prompt fs filebase = Ok (prompt, date, participant)
  ↔ ∃ data line1 line2 rest,
      fs !! filebase = Some data
      ∧ splitlines (universal_newlines (string_of_list_byte data))
        = prompt :: line1 :: line2 :: rest
      ∧ strptime line1 = Some date
      ∧ contains "," participant = false
      ∧ (line2 = participant ∨ ∃ more, line2 = participant +:+ "," +:+ more).
Proof.
  unfold read_prompt, open_text, list_item. split.
  - destruct (fs !! filebase) as [data|]; [|discriminate]. simpl.
    destruct (splitlines _) as [|l0 [|l1 [|l2 rest]]] eqn:Hlines; simpl;
      try discriminate.
    + destruct (strptime l1); discriminate.
    + destruct (strptime l1) as [d|] eqn:Hdate; [|discriminate]. simpl.
      destruct (split_nonempty "," l2) as (w & ws & Hsplit). rewrite Hsplit. simpl.
      intros [= <- <- <-]. exists data, l1, l2, rest.
      apply split_cons in Hsplit as [Hw Hl2].
      repeat split; try assumption.
      destruct Hl2 as [[-> _]|(t & -> & _)]; [left; reflexivity|right; eauto].
  - intros (data & line1 & line2 & rest & -> & Hlines & Hdate & Hcomma & Hline2).
    simpl. rewrite Hlines. simpl. rewrite Hdate. simpl.
    assert (Hsplit : ∃ ws, split "," line2 = participant :: ws).
    { destruct Hline2 as [->|[more ->]].
      - exists []. apply split_cons. auto.
      - eexists. apply split_cons. split; [exact Hcomma|]. right. eauto. }
    destruct Hsplit as [ws ->]. reflexivity.
Qed.

(** A prompt file of fewer than three lines is refused: [read_prompt]
    raises [IndexError], or [ValueError] when its second line is no
    timestamp. *)
Theorem read_prompt_short_file (fs : filesystem) (filebase : string)
    (data : list Byte.byte) :
  fs !! filebase = Some data →
  length (splitlines (universal_newlines (string_of_list_byte data))) < 3 →
  read_prompt fs filebase = Raise (IndexError list_index_out_of_range)
  ∨ ∃ line1, read_prompt fs filebase = Raise (ValueError (time_data_mismatch line1)).
Proof.
  intros Hfile Hshort. unfold read_prompt, open_text, list_item. rewrite Hfile. simpl.
  destruct (splitlines _) as [|l0 [|l1 [|l2 rest]]]; simpl in *; try lia; auto.
  destruct (strptime l1); simpl; eauto.
Qed.
End PromptFacts.

(** ** Metadata files *)

Lemma universal_newlines_line (line eol rest : string) :
  contains CR line = false → eol = nl ∨ eol = String CR nl →
  universal_newlines (line +:+ eol +:+ rest) = line +:+ nl +:+ universal_newlines rest.
Proof.
  unfold contains. intros Hline Heol.
  induction line as [|c line IH]; rewrite ?append_nil, ?append_cons.
  - destruct Heol as [-> | ->]; reflexivity.
  - cbn [existsb list_ascii_of_string] in Hline.
    apply orb_false_iff in Hline as [Hc Hline].
    cbn [universal_newlines]. rewrite Ascii.eqb_sym, Hc, (IH Hline). reflexivity.
Qed.

Lemma readlines_line (line rest : string) :
  contains LF line = false →
  readlines (line +:+ nl +:+ rest) = (line +:+ nl) :: readlines rest.
Proof.
  unfold contains. intros Hline.
  induction line as [|c line IH]; rewrite ?append_nil, ?append_cons.
  - reflexivity.
  - cbn [existsb list_ascii_of_string] in Hline.
    apply orb_false_iff in Hline as [Hc Hline].
    cbn [readlines]. rewrite Ascii.eqb_sym, Hc, (IH Hline). reflexivity.
Qed.

Lemma split_key_value (key value_str : string) :
  contains "=" key = false → contains "=" value_str = false →
  split "=" (key +:+ "=" +:+ value_str) = [key; value_str].
Proof.
  intros Hkey Hvalue. apply split_cons. split; [exact Hkey|].
  right. exists value_str. split; [reflexivity|].
  symmetry. apply split_absent, Hvalue.
Qed.

Lemma plain_spec (s : string) :
  plain s = true
  ↔ contains "=" s = false ∧ contains LF s = false ∧ contains CR s = false.
Proof.
  unfold plain. rewrite !andb_true_iff, !negb_true_iff. tauto.
Qed.

(** The lines that the loop of the reader sees in a metadata file of [LF]
    or [CR LF] lines: each entry followed by one line feed. *)
Lemma readlines_render_meta (eol : string) (kvs : list (string * string)) :
  eol = nl ∨ eol = String CR nl →
  Forall (λ kv, plain kv.1 = true ∧ plain kv.2 = true) kvs →
  readlines (universal_newlines (render_meta eol kvs))
  = map (λ kv, kv.1 +:+ "=" +:+ kv.2 +:+ nl) kvs.
Proof.
  intros Heol. induction 1 as [|[k t] kvs [Hk Ht] _ IH]; [reflexivity|].
  apply plain_spec in Hk as (_ & Hk_lf & Hk_cr).
  apply plain_spec in Ht as (_ & Ht_lf & Ht_cr). simpl in *.
  replace (k +:+ "=" +:+ t +:+ eol +:+ render_meta eol kvs)
    with ((k +:+ "=" +:+ t) +:+ eol +:+ render_meta eol kvs)
    by (rewrite !append_assoc; reflexivity).
  rewrite universal_newlines_line; [|rewrite !contains_append, Hk_cr, Ht_cr; reflexivity|exact Heol].
  rewrite readlines_line by (rewrite !contains_append, Hk_lf, Ht_lf; reflexivity).
  rewrite IH, !append_assoc. reflexivity.
Qed.

Section MetadataFiles.
Context `{Builtins}.

Lemma parse_lines_app (good rest : list string) (meta0 : gmap string num) :
  parse_lines (good ++ rest) meta0 = meta ← parse_lines good meta0; parse_lines rest meta.
Proof.
  revert meta0. induction good as [|line good IH]; intros meta0; simpl; [reflexivity|].
  destruct (unpack2 (split "=" line)) as [[key value_str]|e]; simpl; [|reflexivity].
  destruct (parse_value value_str) as [v|e]; simpl; [|reflexivity]. apply IH.
Qed.

Lemma parse_lines_well_formed (good : list string) (meta0 : gmap string num) :
  Forall well_formed_line good → ∃ meta, parse_lines good meta0 = Ok meta.
Proof.
  intros Hgood. revert meta0.
  induction Hgood as [|line good (key & value_str & v & Hsplit & Hv) _ IH]; intros meta0;
    simpl; [eauto|].
  rewrite Hsplit. simpl. rewrite Hv. simpl. apply IH.
Qed.

Lemma parse_lines_rendered (kvs : list (string * string)) (vals : list num)
    (meta0 : gmap string num) :
  Forall (λ kv, plain kv.1 = true ∧ plain kv.2 = true) kvs →
  Forall2 (λ kv v, parse_value (kv.2 +:+ nl) = Ok v) kvs vals →
  parse_lines (map (λ kv, kv.1 +:+ "=" +:+ kv.2 +:+ nl) kvs) meta0
  = Ok (fold_left (λ meta kv, <[kv.1 := kv.2]> meta) (zip (map fst kvs) vals) meta0).
Proof.
  intros Hplain Hvals. revert meta0 Hplain.
  induction Hvals as [|[k t] v kvs vals Hv _ IH]; intros meta0 Hplain; [reflexivity|].
  apply Forall_cons in Hplain as [[Hk Ht] Hplain].
  apply plain_spec in Hk as (Hk & _). apply plain_spec in Ht as (Ht & _).
  simpl in *. rewrite split_key_value;
    [|exact Hk|rewrite contains_append, Ht; reflexivity].
  simpl. rewrite Hv. simpl. apply IH, Hplain.
Qed.

(** Reading back a metadata file.  For a file that holds one line
    [key=value] per entry, its lines ended by [LF] or by [CR LF], the
    reader hands every value text with its line feed to [int] and [float],
    and returns the dictionary of the assignments in file order: the file's
    line ending makes no difference, and a key written twice keeps its last
    value. *)
Theorem parse_ult_meta_rendered (fs : filesystem) (filebase eol : string)
    (data : list Byte.byte) (kvs : list (string * string)) (vals : list num) :
  fs !! filebase = Some data →
  string_of_list_byte data = render_meta eol kvs →
  eol = nl ∨ eol = String CR nl →
  Forall (λ kv, plain kv.1 = true ∧ plain kv.2 = true) kvs →
  Forall2 (λ kv v, parse_value (kv.2 +:+ nl) = Ok v) kvs vals →
  _parse_ult_meta fs filebase = Ok (assigned (zip (map fst kvs) vals)).
Proof.
  intros Hfile Hdata Heol Hplain Hvals.
  unfold _parse_ult_meta, open_text. rewrite Hfile. simpl.
  rewrite Hdata, (readlines_render_meta _ _ Heol Hplain).
  apply parse_lines_rendered; assumption.
Qed.

(** The first line that the reader does not accept ends the reading with
    [ValueError]: a line that has no [=] (a blank line is one) or more than
    one does not unpack into key and value, and a value text that neither
    [int] nor [float] accepts is an invalid literal.  No dictionary is
    returned, also not for the lines before. *)
Theorem parse_ult_meta_bad_line (fs : filesystem) (filebase : string)
    (data : list Byte.byte) (good : list string) (line : string) (rest : list string) :
  fs !! filebase = Some data →
  readlines (universal_newlines (string_of_list_byte data)) = good ++ line :: rest →
  Forall well_formed_line good →
  (length (split "=" line) ≠ 2 →
     _parse_ult_meta fs filebase
     = Raise (ValueError (unpack_mismatch (length (split "=" line)))))
  ∧ (contains "=" line = false →
       _parse_ult_meta fs filebase = Raise (ValueError (unpack_mismatch 1)))
  ∧ (∀ key value_str, split "=" line = [key; value_str] →
       py_int value_str = None → py_float value_str = None →
       _parse_ult_meta fs filebase = Raise (ValueError (invalid_literal value_str))).
Proof.
  intros Hfile Hlines Hgood.
  destruct (parse_lines_well_formed good ∅ Hgood) as [meta Hmeta].
  assert (Hrun : _parse_ult_meta fs filebase = parse_lines (line :: rest) meta).
  { unfold _parse_ult_meta, open_text. rewrite Hfile. simpl.
    rewrite Hlines, parse_lines_app, Hmeta. reflexivity. }
  rewrite Hrun. clear Hrun.
  assert (Hunpack : length (split "=" line) ≠ 2 →
            parse_lines (line :: rest) meta
            = Raise (ValueError (unpack_mismatch (length (split "=" line))))).
  { intros Hlen. simpl.
    destruct (split "=" line) as [|a [|b [|c parts]]]; simpl in *;
      try reflexivity. contradiction. }
  split; [exact Hunpack|]. split.
  - intros Habsent. rewrite Hunpack; rewrite (split_absent _ _ Habsent);
      [reflexivity|simpl; lia].
  - intros key value_str Hsplit Hint Hfloat. simpl. rewrite Hsplit. simpl.
    unfold parse_value. rewrite Hint, Hfloat. reflexivity.
Qed.

Lemma parse_lines_Raise (lines : list string) (meta0 : gmap string num) (e : exn) :
  parse_lines lines meta0 = Raise e → ∃ what, e = ValueError what.
Proof.
  revert meta0. induction lines as [|line lines IH]; intros meta0; simpl; [discriminate|].
  unfold unpack2. destruct (split "=" line) as [|a [|b [|c parts]]]; simpl;
    try (intros [= <-]; eauto).
  unfold parse_value. destruct (py_int b); simpl; [apply IH|].
  destruct (py_float b); simpl; [apply IH|]. intros [= <-]. eauto.
Qed.

Ltac missing_key :=
  split; [reflexivity|]; split; [reflexivity|];
  split; [repeat constructor; eauto|]; split; [assumption|reflexivity].

(** The ways in which [read_ult_meta] fails: the file is missing
    ([FileNotFoundError]), a line is not accepted ([ValueError]), or the
    file is read and lacks one of the five keys, and then the error is the
    [KeyError] of the first of them, in the order [NumVectors],
    [PixPerVector], [PixelsPerMm], [FramesPerSec],
    [TimeInSecsOfFirstFrame], that the file lacks.  Other keys of the file
    are read and ignored. *)
Theorem read_ult_meta_errors (fs : filesystem) (filebase : string) (e : exn) :
  read_ult_meta fs filebase = Raise e →
  (fs !! filebase = None ∧ e = FileNotFoundError filebase)
  ∨ (is_Some (fs !! filebase) ∧ ∃ what, e = ValueError what
       ∧ _parse_ult_meta fs filebase = Raise e)
  ∨ (∃ meta before key after,
       _parse_ult_meta fs filebase = Ok meta
       ∧ required_keys = before ++ key :: after
       ∧ Forall (λ k, is_Some (meta !! k)) before
       ∧ meta !! key = None
       ∧ e = KeyError key).
Proof.
  unfold read_ult_meta.
  destruct (_parse_ult_meta fs filebase) as [meta|e'] eqn:Hparse; simpl.
  - intros Hrun. right. right. exists meta. unfold dict_item in Hrun.
    destruct (meta !! "NumVectors") eqn:Hk1; simpl in Hrun;
      [|injection Hrun as <-; exists [], "NumVectors"; eexists; missing_key].
    destruct (meta !! "PixPerVector") eqn:Hk2; simpl in Hrun;
      [|injection Hrun as <-; exists ["NumVectors"], "PixPerVector"; eexists;
        missing_key].
    destruct (meta !! "PixelsPerMm") eqn:Hk3; simpl in Hrun;
      [|injection Hrun as <-; exists ["NumVectors"; "PixPerVector"], "PixelsPerMm";
        eexists; missing_key].
    destruct (meta !! "FramesPerSec") eqn:Hk4; simpl in Hrun;
      [|injection Hrun as <-;
        exists ["NumVectors"; "PixPerVector"; "PixelsPerMm"], "FramesPerSec";
        eexists; missing_key].
    destruct (meta !! "TimeInSecsOfFirstFrame") eqn:Hk5; simpl in Hrun;
      [discriminate|].
    injection Hrun as <-.
    exists ["NumVectors"; "PixPerVector"; "PixelsPerMm"; "FramesPerSec"],
      "TimeInSecsOfFirstFrame", []. missing_key.
  - intros [= <-]. unfold _parse_ult_meta, open_text in Hparse.
    destruct (fs !! filebase) as [data|] eqn:Hfile; simpl in Hparse.
    + right. left. split; [eauto|].
      apply parse_lines_Raise in Hparse as Hwhat. destruct Hwhat as [what ->].
      exists what. split; reflexivity.
    + left. injection Hparse as <-. auto.
Qed.
End MetadataFiles.

(** ** The decoder never drops a byte *)

Section DecoderFacts.
Context `{Float64}.

Lemma mapM_as_index_3 (a b c : num) (dims : list Z) :
  mapM as_index [a; b; c] = Ok dims →
  ∃ x y z, a = PyInt x ∧ b = PyInt y ∧ c = PyInt z ∧ dims = [x; y; z].
Proof.
  destruct a as [x|], b as [y|], c as [z|]; try discriminate.
  intros [= <-]. eauto 10.
Qed.

(** A reshape that succeeds keeps the buffer and gives it a shape whose
    product is the buffer's size, also when one dimension is inferred. *)
Lemma reshape_3_Ok (a u : ndarray) (x y z : Z) :
  reshape a [PyInt x; PyInt y; PyInt z] = Ok u →
  buf u = buf a ∧ length (shape u) = 3
  ∧ product (shape u) = Z.of_nat (length (buf a)).
Proof.
  unfold reshape.
  cbn -[Z.eqb Z.ltb Z.mul Z.of_nat Z.div Z.modulo existsb List.filter product].
  destruct (existsb _ _); [discriminate|].
  cbn [List.filter].
  set (size := Z.of_nat (length (buf a))).
  destruct (Z.eqb_spec (-1) x) as [Hx|Hx], (Z.eqb_spec (-1) y) as [Hy|Hy],
           (Z.eqb_spec (-1) z) as [Hz|Hz];
    cbn -[Z.eqb Z.ltb Z.mul Z.of_nat Z.div Z.modulo product];
    try discriminate; intros Hu; subst;
    rewrite ?(proj2 (Z.eqb_neq x (-1))), ?(proj2 (Z.eqb_neq y (-1))),
      ?(proj2 (Z.eqb_neq z (-1))) in Hu by lia;
    change (-1 =? -1)%Z with true in Hu;
    cbn -[Z.eqb Z.ltb Z.mul Z.of_nat Z.div Z.modulo] in Hu.
  all: match type of Hu with
       | (if ?c || _ then _ else _) = _ =>
           destruct c eqn:Hknown; [discriminate|]; cbn [orb] in Hu;
           apply Z.eqb_neq in Hknown
       | _ => idtac
       end.
  all: match type of Hu with
       | (if negb ?c then _ else _) = _ =>
           destruct c eqn:Hmod; [|discriminate]; cbn [negb] in Hu;
           apply Z.eqb_eq, Z.div_exact in Hmod; [|exact Hknown]
       | (if ?c then _ else _) = _ =>
           destruct c eqn:Hsize; [|discriminate]; apply Z.eqb_eq in Hsize
       end.
  all: injection Hu as <-; cbn -[Z.mul Z.div Z.of_nat]; split; [reflexivity|];
       split; [reflexivity|]; fold size; lia.
Qed.
(** Whenever the Frame Decoder returns, the frame geometry consists of two
    integers whose product is not zero, and the volume it returns holds
    every sample of the raw buffer, in order: three dimensions whose
    product is the byte count.  No byte of the file is dropped. *)
Theorem frame_decoder_keeps_every_byte (ult_data : list Byte.byte) (V P : num)
    (u : ndarray) (n : Z) :
  frame_decoder ult_data V P = Ok (u, n) →
  ∃ v p, V = PyInt v ∧ P = PyInt p ∧ (v * p ≠ 0)%Z
    ∧ buf u = samples ult_data
    ∧ length (shape u) = 3
    ∧ product (shape u) = Z.of_nat (length ult_data).
Proof.
  unfold frame_decoder. intros Hrun.
  apply bind_Ok in Hrun as (q & Hq & Hrun).
  apply bind_Ok in Hrun as (n' & _ & Hrun).
  apply bind_Ok in Hrun as (u' & Hu & [= <- <-]).
  assert (Hdims : ∃ dims, mapM as_index [PyInt n'; V; P] = Ok dims).
  { unfold reshape in Hu. destruct (mapM as_index _); [eauto|discriminate]. }
  destruct Hdims as [dims Hdims].
  apply mapM_as_index_3 in Hdims as (x & v & p & _ & -> & -> & _).
  exists v, p. split; [reflexivity|]. split; [reflexivity|].
  split.
  - unfold py_truediv in Hq. cbn [py_mul num_is_zero] in Hq.
    destruct (Z.eqb_spec (v * p) 0); [discriminate|assumption].
  - apply reshape_3_Ok in Hu as (Hbuf & Hshape & Hsize). cbn [buf] in *.
    rewrite length_map in Hsize. auto.
Qed.
End DecoderFacts.

(** ** What [compute] reads *)

Section ComputeReads.
Context `{Builtins} `{!SciLibs} `{Datetime}.

Lemma read_wav_ext (fs fs' : filesystem) (path : string) :
  fs !! path = fs' !! path → read_wav fs path = read_wav fs' path.
Proof. unfold read_wav, open_binary. intros ->. reflexivity. Qed.

Lemma read_ult_meta_ext (fs fs' : filesystem) (path : string) :
  fs !! path = fs' !! path → read_ult_meta fs path = read_ult_meta fs' path.
Proof.
  unfold read_ult_meta, _parse_ult_meta, open_text. intros ->. reflexivity.
Qed.

(** [compute] reads five keys of the descriptor and the three files they
    name, and nothing else: two descriptors that agree on [filebase],
    [prompt], [ult_wav_file], [ult_meta_file] and [ult_file], in two file
    systems that agree on the three files, are processed alike.  The
    flags [excluded], [ult_exists], [ult_wav_exists] and [ult_meta_exists],
    the date, the participant and the prompt file play no part. *)
Theorem compute_reads_only (fs fs' : filesystem) (item item' : gmap string pyobj) :
  (∀ key, key ∈ ["filebase"; "prompt"; "ult_wav_file"; "ult_meta_file"; "ult_file"] →
     item !! key = item' !! key) →
  (∀ key path, key ∈ ["ult_wav_file"; "ult_meta_file"; "ult_file"] →
     item !! key = Some (PStr path) → fs !! path = fs' !! path) →
  compute_data fs item = compute_data fs' item'
  ∧ compute fs item = compute fs' item'.
Proof.
  intros Hitem Hfs.
  assert (Hdata : compute_data fs item = compute_data fs' item').
  { unfold compute_data, load_session, item_str, dict_item.
    rewrite <- !Hitem by repeat constructor.
    destruct (item !! "filebase") as [[?| |]|]; try reflexivity. simpl.
    destruct (item !! "prompt") as [[?| |]|]; try reflexivity. simpl.
    destruct (item !! "ult_wav_file") as [[wav_file| |]|] eqn:Hwav; try reflexivity.
    simpl.
    rewrite (read_wav_ext fs fs' wav_file)
      by (apply (Hfs "ult_wav_file"); [repeat constructor|exact Hwav]).
    destruct (read_wav fs' wav_file) as [[wav_frames wav_fs]|]; try reflexivity.
    simpl.
    destruct (item !! "ult_meta_file") as [[meta_file| |]|] eqn:Hmeta; try reflexivity.
    simpl.
    rewrite (read_ult_meta_ext fs fs' meta_file)
      by (apply (Hfs "ult_meta_file"); [repeat constructor|exact Hmeta]).
    destruct (read_ult_meta fs' meta_file)
      as [[[[[NumVectors PixPerVector] PixelsPerMm] fps] t0]|]; try reflexivity.
    simpl.
    destruct (item !! "ult_file") as [[ult_file| |]|] eqn:Hult; try reflexivity.
    simpl. unfold open_binary.
    rewrite (Hfs "ult_file" ult_file) by (repeat constructor || exact Hult).
    reflexivity. }
  split; [exact Hdata|]. unfold compute. rewrite Hdata. reflexivity.
Qed.
End ComputeReads.

(** ** Complete sessions *)

Section CompleteSessions.
Context `{Builtins} `{!SciLibs} `{Datetime}.

(** A session of three frames or more, up to the time vectors: the
    resampled sequence has one image per frame, and the registration keeps
    the two mappings of its first three images. *)
Lemma compute_data_registered (fs : filesystem) (item : gmap string pyobj)
    (s : session) (x y xnew ynew : list float) :
  load_session fs item = Ok s →
  (3 ≤ ult_no_frames s)%Z →
  isometric_grids (ult_NumVectors s) (ult_PixPerVector s) (ult_PixelsPerMm s)
  = Ok (x, y, xnew, ynew) →
  interp2d_returns x y (ultra s) →
  (∀ ultra_interp, isometric_resampler s = Ok ultra_interp →
     optimize_returns ultra_interp) →
  ∃ ultra_interp f0 f1 f2 m1 m2,
    isometric_resampler s = Ok ultra_interp
    ∧ length ultra_interp = Z.to_nat (ult_no_frames s)
    ∧ take 3 ultra_interp = [f0; f1; f2]
    ∧ optimize sdr f1 f0 = Ok m1 ∧ optimize sdr f2 f1 = Ok m2
    ∧ compute_data fs item
      = (ultra_time ← ultra_time_of 3 (ult_fps s) (ult_TimeInSecOfFirstFrame s);
         ult_wav_time ←
           ult_wav_time_of (Z.of_nat (length (ult_wav_frames s))) (ult_wav_fs s);
         Ok (<["wav_time" := VVector ult_wav_time]>
             (<["ult_time" := VVector ultra_time]>
             (<["frames" := VArray (ultra s)]>
             (<["of" := VMappings [m1; m2]]> ∅))))).
Proof.
  intros Hload Hn Hgrids Hinterp Hsolver.
  destruct (load_session_shape _ _ _ Hload) as (v & p & Hshape); [lia|].
  destruct (interpolate_frame_Ok x y (ultra s) _ v p 1 Hinterp Hshape)
    as (_ & f & _ & _ & Hf); [lia|].
  destruct (resample_frames_Ok x y xnew ynew (ultra s) _ v p Hinterp Hshape)
    as (ultra_interp & Hres & Hlen & _).
  assert (Hresampled : isometric_resampler s = Ok ultra_interp).
  { unfold isometric_resampler. rewrite Hgrids. simpl. rewrite Hf. simpl. exact Hres. }
  specialize (Hsolver ultra_interp Hresampled).
  destruct ultra_interp as [|f0 [|f1 [|f2 rest]]]; simpl in Hlen; try lia.
  apply Forall_cons in Hsolver as [[m1 Hm1] Hsolver].
  apply Forall_cons in Hsolver as [[m2 Hm2] _]. simpl in Hm1, Hm2.
  exists (f0 :: f1 :: f2 :: rest), f0, f1, f2, m1, m2.
  split; [exact Hresampled|]. split; [exact Hlen|]. split; [reflexivity|].
  split; [exact Hm1|]. split; [exact Hm2|].
  unfold compute_data. rewrite Hload. simpl. rewrite Hresampled. simpl.
  unfold register_and_align, registration_engine. simpl.
  rewrite Hm1. simpl. rewrite Hm2. reflexivity.
Qed.


(** A frame rate of zero in the metadata is found late.  For a session
    that loads and decodes to three frames or more and whose grids are
    computed, when [interp2d] returns for each frame of the volume and the
    solver for the two pairs of the first three resampled images, the
    session is resampled and registered in full, the NumPy division of
    line 274 does not raise, and [compute] fails with [ZeroDivisionError]
    at the half frame period of line 275. *)
Theorem compute_zero_frame_rate (fs : filesystem) (item : gmap string pyobj)
    (s : session) (x y xnew ynew : list float) :
  load_session fs item = Ok s →
  (3 ≤ ult_no_frames s)%Z →
  isometric_grids (ult_NumVectors s) (ult_PixPerVector s) (ult_PixelsPerMm s)
  = Ok (x, y, xnew, ynew) →
  interp2d_returns x y (ultra s) →
  (∀ ultra_interp, isometric_resampler s = Ok ultra_interp →
     optimize_returns ultra_interp) →
  num_is_zero (ult_fps s) = true →
  (∃ ultra_interp ofdisp,
     isometric_resampler s = Ok ultra_interp
     ∧ registration_engine ultra_interp = (ofdisp, Ok tt) ∧ length ofdisp = 2)
  ∧ compute fs item = Raise ZeroDivisionError.
Proof.
  intros Hload Hn Hgrids Hinterp Hsolver Hfps.
  destruct (compute_data_registered fs item s x y xnew ynew Hload Hn Hgrids Hinterp Hsolver)
    as (ultra_interp & f0 & f1 & f2 & m1 & m2 & Hres & Hlen & Htake & Hm1 & Hm2 & Hdata).
  split.
  - exists ultra_interp, [m1; m2]. split; [exact Hres|]. split; [|reflexivity].
    destruct ultra_interp as [|g0 [|g1 [|g2 rest]]]; try discriminate Htake.
    injection Htake as -> -> ->. unfold registration_engine. simpl.
    rewrite Hm1. simpl. rewrite Hm2. reflexivity.
  - destruct (linspace_Ok (of_int 0) (of_int 3) 3 false) as (t & Ht & _); [lia|].
    unfold compute. rewrite Hdata. unfold ultra_time_of. rewrite Ht. simpl.
    unfold py_truediv. rewrite Hfps. reflexivity.
Qed.
End CompleteSessions.

(** ** Frame by frame *)

Section PerFrame.
Context `{Builtins} `{!SciLibs} `{Datetime}.

Lemma frame_at_shape (frames fr : ndarray) (n V P i : Z) :
  shape frames = [n; V; P] → frame_at frames i = Ok fr →
  (i < n)%Z ∧ shape fr = [V; P]
  ∧ buf fr = take (Z.to_nat (V * P)) (drop (Z.to_nat (i * (V * P))) (buf frames)).
Proof.
  unfold frame_at. intros ->. destruct (Z.ltb_spec i n); [|discriminate].
  intros [= <-]. auto.
Qed.

Lemma isometric_grids_lengths (V P : Z) (PixelsPerMm : num)
    (x y xnew ynew : list float) :
  (0 ≤ V)%Z → (0 ≤ P)%Z →
  isometric_grids (PyInt V) (PyInt P) PixelsPerMm = Ok (x, y, xnew, ynew) →
  length x = Z.to_nat V ∧ length y = Z.to_nat P ∧ length xnew = Z.to_nat (V * 2).
Proof.
  intros HV HP. unfold isometric_grids.
  intros (depth & _ & Hrun)%bind_Ok.
  apply bind_Ok in Hrun as (ratio & _ & Hrun). cbn [as_index] in Hrun.
  apply bind_Ok in Hrun as (n & [= <-] & Hrun).
  apply bind_Ok in Hrun as (x' & Hx & Hrun).
  apply bind_Ok in Hrun as (p & [= <-] & Hrun).
  apply bind_Ok in Hrun as (y' & Hy & Hrun).
  apply bind_Ok in Hrun as (xnew' & Hxnew & Hrun).
  apply bind_Ok in Hrun as (rows & _ & Hrun).
  apply bind_Ok in Hrun as (ynew' & _ & [= <- <- <- <-]).
  destruct (linspace_Ok (of_int 1) (to_float (PyInt V)) V true HV) as (l1 & Hl1 & Hlen1).
  destruct (linspace_Ok (of_int 1) (to_float (PyInt P)) P true HP) as (l2 & Hl2 & Hlen2).
  destruct (linspace_Ok (of_int 1) (to_float (PyInt V)) (V * 2) true) as (l3 & Hl3 & Hlen3);
    [lia|].
  rewrite Hl1 in Hx. rewrite Hl2 in Hy. rewrite Hl3 in Hxnew.
  injection Hx as <-. injection Hy as <-. injection Hxnew as <-. auto.
Qed.

(** Every resampled image is made from its own frame alone, on the one
    grid of the session.  For a volume of [n] frames of [V] vectors by [P]
    pixels, image [i] of the resampled sequence is the value at
    [(xnew, ynew)] of the interpolant built from frame [i], that is from
    the samples [i * V * P .. (i + 1) * V * P - 1] of the raw buffer,
    transposed to [P] rows by [V] columns; and the axes given to the
    interpolant have the sizes of that array, [V] points in [x] and [P]
    points in [y]. *)
Theorem isometric_resampler_per_frame (s : session) (V P : Z)
    (x y xnew ynew : list float) (ultra_interp : list ndarray) :
  ult_NumVectors s = PyInt V → ult_PixPerVector s = PyInt P →
  (0 ≤ V)%Z → (0 ≤ P)%Z →
  shape (ultra s) = [ult_no_frames s; V; P] →
  isometric_grids (ult_NumVectors s) (ult_PixPerVector s) (ult_PixelsPerMm s)
  = Ok (x, y, xnew, ynew) →
  isometric_resampler s = Ok ultra_interp →
  length x = Z.to_nat V ∧ length y = Z.to_nat P
  ∧ Forall2
      (λ fIdx im, ∃ fr f,
         buf fr = take (Z.to_nat (V * P))
                       (drop (Z.to_nat (Z.of_nat fIdx * (V * P))) (buf (ultra s)))
         ∧ shape (transpose fr) = [P; V]
         ∧ interp2d x y (transpose fr) = Ok f
         ∧ im = interp_call f xnew ynew)
      (seq 0 (Z.to_nat (ult_no_frames s))) ultra_interp.
Proof.
  intros HV HP HV0 HP0 Hshape Hgrids Hrun.
  assert (Hlens := Hgrids). rewrite HV, HP in Hlens.
  apply isometric_grids_lengths in Hlens as (Hx & Hy & _); [|assumption..].
  split; [exact Hx|]. split; [exact Hy|].
  unfold isometric_resampler in Hrun. rewrite Hgrids in Hrun. simpl in Hrun.
  apply bind_Ok in Hrun as (_ & _ & Hrun). unfold resample_frames in Hrun.
  apply mapM_Ok_Forall2 in Hrun.
  eapply Forall2_impl; [exact Hrun|]. intros fIdx im Him. simpl in Him.
  apply bind_Ok in Him as (f & Hf & [= <-]). unfold interpolate_frame in Hf.
  apply bind_Ok in Hf as (fr & Hfr & Hf).
  destruct (frame_at_shape _ _ _ _ _ _ Hshape Hfr) as (_ & Hfrshape & Hbuf).
  exists fr, f. split; [exact Hbuf|]. split; [|auto].
  unfold transpose. rewrite Hfrshape. reflexivity.
Qed.
End PerFrame.

(** ** Sessions that discovery passes on *)

Section DiscoveredSessions.
Context `{Builtins} `{!SciLibs} `{Datetime} `{Glob}.

Lemma isfile_Some (fs : filesystem) (path : string) :
  isfile fs path = true → ∃ data, fs !! path = Some data.
Proof. unfold isfile. intros [data Hdata]%bool_decide_eq_true. eauto. Qed.

(** For a descriptor that discovery did not mark excluded, [compute] on
    the same files finds every key and every file it asks for: it reads
    the audio from [<base>.wav], the metadata from [<base>US.txt] and the
    raw frames from [<base>.ult], the companions of the session's prompt
    file, and what is left to fail is the content of the three files. *)
Theorem load_session_discovered (fs : filesystem) (directory : string)
    (meta : list (gmap string pyobj)) (item : gmap string pyobj) :
  get_data_from_dir fs directory = Ok meta →
  item ∈ meta → marked_excluded item = false →
  ∃ fb wav_data ult_data,
    item !! "filebase" = Some (PStr fb)
    ∧ fs !! (fb +:+ ".wav") = Some wav_data
    ∧ isfile fs (fb +:+ "US.txt") = true
    ∧ fs !! (fb +:+ ".ult") = Some ult_data
    ∧ load_session fs item
      = ('(samplerate, wav_frames) ← wavfile_read wav_data;
         '(NumVectors, PixPerVector, PixelsPerMm, fps, TimeInSecOfFirstFrame) ←
           read_ult_meta fs (fb +:+ "US.txt");
         '(frames, no_frames) ← frame_decoder ult_data NumVectors PixPerVector;
         Ok {| ult_wav_frames := wav_frames; ult_wav_fs := samplerate;
               ult_NumVectors := NumVectors; ult_PixPerVector := PixPerVector;
               ult_PixelsPerMm := PixelsPerMm; ult_fps := fps;
               ult_TimeInSecOfFirstFrame := TimeInSecOfFirstFrame;
               ultra := frames; ult_no_frames := no_frames |}).
Proof.
  intros (items & keyed & Hitems & Hsnd & _ & ->)%get_data_from_dir_Ok Hitem Hexcluded.
  rewrite sorted_Permutation, Hsnd in Hitem.
  apply list_elem_of_lookup in Hitem as [i Hi].
  destruct (Forall2_lookup_r _ _ _ _ _ Hitems Hi) as (pf & _ & Hdesc).
  apply describe_keys in Hdesc
    as (prompt & ? & ? & _ & Hbase & _ & Hprompt & _ & _ & Hmeta & Hwav & Hult & Hexcl).
  unfold marked_excluded in Hexcluded. rewrite Hexcl in Hexcluded.
  unfold companion_recorded in *.
  destruct (isfile fs (_ +:+ "US.txt")) eqn:Hmeta_file; [|discriminate Hexcluded].
  destruct (isfile fs (_ +:+ ".wav")) eqn:Hwav_file; [|discriminate Hexcluded].
  destruct (isfile fs (_ +:+ ".ult")) eqn:Hult_file; [|discriminate Hexcluded].
  destruct Hmeta as [Hmeta _], Hwav as [Hwav _], Hult as [Hult _].
  destruct (isfile_Some _ _ Hwav_file) as [wav_data Hwav_data].
  destruct (isfile_Some _ _ Hult_file) as [ult_data Hult_data].
  eexists _, wav_data, ult_data.
  split; [exact Hbase|]. split; [exact Hwav_data|]. split; [exact Hmeta_file|].
  split; [exact Hult_data|].
  unfold load_session.
  rewrite (item_str_Some _ _ _ Hbase), (item_str_Some _ _ _ Hprompt),
    (item_str_Some _ _ _ Hwav), (item_str_Some _ _ _ Hmeta), (item_str_Some _ _ _ Hult).
  simpl. unfold read_wav, open_binary. rewrite Hwav_data. simpl.
  destruct (wavfile_read wav_data) as [[samplerate wav_frames]|]; [|reflexivity].
  simpl.
  destruct (read_ult_meta fs _) as [[[[[NumVectors PixPerVector] PixelsPerMm] fps] t0]|];
    [|reflexivity].
  simpl. rewrite Hult_data. reflexivity.
Qed.
End DiscoveredSessions.

(** ** The order of the descriptors *)

(** The order of strings that [sorted] uses on the prompt files. *)
Lemma string_ltb_asym (a b : string) : String.ltb a b = true → String.ltb b a = false.
Proof.
  unfold String.ltb. rewrite (String.compare_antisym b a).
  destruct (String.compare a b); simpl; [discriminate|reflexivity|discriminate].
Qed.

Lemma string_ltb_lt (a b : string) :
  String.ltb a b = true ↔ OrderedTypeEx.String_as_OT.lt a b.
Proof.
  rewrite <- OrderedTypeEx.String_as_OT.cmp_lt.
  unfold String.ltb, OrderedTypeEx.String_as_OT.cmp.
  destruct (String.compare a b); split; congruence.
Qed.

Lemma string_le_trans (a b c : string) :
  String.ltb b a = false → String.ltb c b = false → String.ltb c a = false.
Proof.
  intros Hab Hbc. destruct (String.ltb c a) eqn:Hca; [|reflexivity]. exfalso.
  apply string_ltb_lt in Hca.
  destruct (String.compare b c) eqn:Hcmp.
  - apply String.compare_eq_iff in Hcmp as ->.
    apply string_ltb_lt in Hca. congruence.
  - apply OrderedTypeEx.String_as_OT.cmp_lt in Hcmp.
    assert (Hba : String.ltb b a = true)
      by (apply string_ltb_lt; eapply OrderedTypeEx.String_as_OT.lt_trans; eassumption).
    congruence.
  - apply OrderedTypeEx.String_as_OT.compare_helper_gt, string_ltb_lt in Hcmp.
    congruence.
Qed.

(** [sorted] is stable: elements that [lt] does not tell apart keep the
    order [R] in which they came. *)
Lemma insort_lexicographic {A} (lt : A → A → bool) (R : A → A → Prop)
    (x : A) (l : list A) :
  (∀ a b, lt a b = true → lt b a = false) →
  Transitive (λ a b, lt b a = false) →
  StronglySorted (λ a b, lt b a = false ∧ (lt a b = false → R a b)) l →
  Forall (λ a, R a x) l →
  StronglySorted (λ a b, lt b a = false ∧ (lt a b = false → R a b)) (insort lt x l).
Proof.
  intros Hasym Htrans. induction 1 as [|y l Hl IH Hy]; intros HR; simpl.
  - repeat constructor.
  - apply Forall_cons in HR as [HRy HR]. destruct (lt x y) eqn:Hxy.
    + constructor; [constructor; assumption|].
      constructor; [split; [apply Hasym, Hxy|congruence]|].
      eapply Forall_impl; [exact Hy|]. intros z [Hyz _]. simpl in *.
      assert (Hxz : lt z x = false) by (apply (Htrans x y z); [apply Hasym, Hxy|exact Hyz]).
      split; [exact Hxz|]. intros Hzx.
      assert (Hyx : lt x y = false) by (apply (Htrans y z x); assumption).
      congruence.
    + constructor; [apply IH, HR|].
      rewrite insort_Permutation. constructor; [|exact Hy]. auto.
Qed.

Lemma sorted_lexicographic {A} (lt : A → A → bool) (R : A → A → Prop) (l : list A) :
  (∀ a b, lt a b = true → lt b a = false) →
  Transitive (λ a b, lt b a = false) →
  StronglySorted R l →
  StronglySorted (λ a b, lt b a = false ∧ (lt a b = false → R a b)) (sorted lt l).
Proof.
  intros Hasym Htrans Hl. unfold sorted.
  assert (Hacc : ∀ acc,
            StronglySorted (λ a b, lt b a = false ∧ (lt a b = false → R a b)) acc →
            Forall (λ a, Forall (R a) l) acc →
            StronglySorted (λ a b, lt b a = false ∧ (lt a b = false → R a b))
              (fold_left (λ acc x, insort lt x acc) l acc)).
  { induction Hl as [|x l Hl IH Hx]; intros acc Hacc HR; simpl; [exact Hacc|].
    apply IH.
    - apply insort_lexicographic; try assumption.
      eapply Forall_impl; [exact HR|]. intros a Ha.
      apply Forall_cons in Ha as [Ha _]. exact Ha.
    - rewrite insort_Permutation. constructor; [exact Hx|].
      eapply Forall_impl; [exact HR|]. intros a Ha.
      apply Forall_cons in Ha as [_ Ha]. exact Ha. }
  apply Hacc; constructor.
Qed.

Lemma StronglySorted_Forall2 {A B} (P : A → A → Prop) (Q : A → B → Prop)
    (R : B → B → Prop) (l : list A) (k : list B) :
  (∀ a b x y, P a b → Q a x → Q b y → R x y) →
  StronglySorted P l → Forall2 Q l k → StronglySorted R k.
Proof.
  intros HPQR Hl Hlk. revert Hl.
  induction Hlk as [|a x l k Hax Hlk IH]; intros Hl; [constructor|].
  apply StronglySorted_inv in Hl as [Hl Ha].
  constructor; [apply IH, Hl|].
  clear IH Hl. induction Hlk as [|b y l k Hby _ IH]; [constructor|].
  apply Forall_cons in Ha as [Hab Ha]. constructor; [eauto|apply IH, Ha].
Qed.

Lemma Forall_exists_Forall2 {A B} (Q : A → B → Prop) (l : list A) :
  Forall (λ a, ∃ b, Q a b) l → ∃ k, Forall2 Q l k.
Proof.
  induction 1 as [|a l [b Hab] _ [k Hk]]; [exists []; constructor|].
  exists (b :: k). constructor; assumption.
Qed.

Section DiscoveryOrder.
Context `{Datetime} `{Glob}.

(** The order in which discovery returns the descriptors: by recording
    date, none followed by one of an earlier
    date, and, among descriptors that the dates do not tell apart, by the
    path of the prompt file. *)
Theorem get_data_from_dir_order (fs : filesystem) (directory : string)
    (meta : list (gmap string pyobj)) :
  date_order →
  get_data_from_dir fs directory = Ok meta →
  ∃ rows : list (datetime * string),
    Forall2 (λ item row, item !! "date" = Some (PDate row.1)
                         ∧ item !! "ult_prompt_file" = Some (PStr row.2))
            meta rows
    ∧ StronglySorted
        (λ row1 row2, not_later row1.1 row2.1
                      ∧ (not_later row2.1 row1.1 → String.ltb row2.2 row1.2 = false))
        rows.
Proof.
  intros Horder (items & keyed & Hitems & Hsnd & Hdates & ->)%get_data_from_dir_Ok.
  set (lt := λ a b : datetime * gmap string pyobj, dt_lt a.1 b.1).
  set (pfs := sorted String.ltb (prompt_files fs directory)) in *.
  (* the prompt file of every descriptor, in the order of the loop *)
  assert (Hfiles : Forall2 (λ pf kd, kd.2 !! "ult_prompt_file" = Some (PStr pf)) pfs keyed).
  { subst items. clear Hdates. revert Hitems. generalize pfs. clear pfs.
    induction keyed as [|kd keyed IH]; intros pfs Hitems; simpl in Hitems.
    - apply Forall2_nil_inv_r in Hitems as ->. constructor.
    - apply Forall2_cons_inv_r in Hitems as (pf & pfs' & Hdesc & Hitems & ->).
      constructor; [|apply IH, Hitems].
      apply describe_keys in Hdesc as (? & ? & ? & _ & _ & Hfile & _). exact Hfile. }
  set (R := λ a b : datetime * gmap string pyobj,
              ∀ pf1 pf2, a.2 !! "ult_prompt_file" = Some (PStr pf1) →
                         b.2 !! "ult_prompt_file" = Some (PStr pf2) →
                         String.ltb pf2 pf1 = false).
  assert (Hnames : StronglySorted R keyed).
  { eapply (StronglySorted_Forall2 (λ a b, String.ltb b a = false)); [| |exact Hfiles].
    - intros a b x y Hab Hax Hby pf1 pf2 Hpf1 Hpf2. congruence.
    - apply sorted_StronglySorted; [exact string_ltb_asym|].
      intros a b c. apply string_le_trans. }
  assert (Hsorted : StronglySorted (λ a b, lt b a = false ∧ (lt a b = false → R a b))
                      (sorted lt keyed)).
  { apply sorted_lexicographic; [| |exact Hnames].
    - intros a b. apply (lt_asym Horder).
    - intros a b c. apply (not_later_trans Horder). }
  assert (Hkeys : Forall (λ kd, ∃ row : datetime * string,
                            row.1 = kd.1 ∧ kd.2 !! "date" = Some (PDate kd.1)
                            ∧ kd.2 !! "ult_prompt_file" = Some (PStr row.2))
                         (sorted lt keyed)).
  { rewrite sorted_Permutation. apply Forall_forall. intros kd Hkd.
    apply list_elem_of_lookup in Hkd as [i Hi].
    destruct (Forall2_lookup_r _ _ _ _ _ Hfiles Hi) as (pf & _ & Hpf).
    exists (kd.1, pf). split; [reflexivity|]. split; [|exact Hpf].
    eapply Forall_lookup_1 in Hdates; eassumption. }
  apply Forall_exists_Forall2 in Hkeys as [rows Hrows].
  exists rows. split.
  - apply Forall2_fmap_l. eapply Forall2_impl; [exact Hrows|].
    intros kd row (Hrow & Hdate & Hfile). simpl. rewrite Hrow. auto.
  - eapply StronglySorted_Forall2; [|exact Hsorted|exact Hrows].
    intros a b x y [Hle Htie] (Hx & _ & Hfx) (Hy & _ & Hfy).
    unfold not_later. rewrite Hx, Hy. split; [exact Hle|].
    intros Hge. apply (Htie Hge); assumption.
Qed.
End DiscoveryOrder.

(** ** The properties on the recorded sessions *)

Lemma discovered_Ok : @get_data_from_dir clock no_wildcards (studio 12) "rec" = Ok discovered.
Proof. reflexivity. Qed.

Lemma session_a_discovered : session_a 12 ∈ discovered.
Proof.
  change discovered with [session_b; session_a 12]. apply list_elem_of_further.
  apply list_elem_of_here.
Qed.

Lemma session_b_discovered : session_b ∈ discovered.
Proof.
  change discovered with (session_b :: tail discovered). apply list_elem_of_here.
Qed.

Lemma clock_date_order : @date_order clock.
Proof.
  split; unfold not_later; simpl.
  - intros a b Hab%Z.ltb_lt. apply Z.ltb_ge. lia.
  - intros a b c Hab%Z.ltb_ge Hbc%Z.ltb_ge. apply Z.ltb_ge. lia.
Qed.

Lemma prompt_file_companions_witness :
  ∃ stem,
    session_a 12 !! "ult_prompt_file" = Some (PStr ("rec" +:+ "/" +:+ stem +:+ ".txt"))
    ∧ companion_recorded (session_a 12) "ult_meta_file" "ult_meta_exists"
        ("rec" +:+ "/" +:+ stem +:+ "US.txt")
        (isfile (studio 12) ("rec" +:+ "/" +:+ stem +:+ "US.txt"))
    ∧ companion_recorded (session_a 12) "ult_wav_file" "ult_wav_exists"
        ("rec" +:+ "/" +:+ stem +:+ ".wav")
        (isfile (studio 12) ("rec" +:+ "/" +:+ stem +:+ ".wav"))
    ∧ companion_recorded (session_a 12) "ult_file" "ult_exists"
        ("rec" +:+ "/" +:+ stem +:+ ".ult")
        (isfile (studio 12) ("rec" +:+ "/" +:+ stem +:+ ".ult")).
Proof.
  apply (@prompt_file_companions clock no_wildcards (studio 12) "rec" discovered).
  - reflexivity.
  - exact discovered_Ok.
  - exact session_a_discovered.
Defined.

Lemma get_data_from_dir_sessions_witness :
  (∃ item, item ∈ discovered ∧ item !! "ult_prompt_file" = Some (PStr "rec/a.txt"))
  ∧ NoDup (map (λ item : gmap string (@pyobj clock), item !! "ult_prompt_file") discovered).
Proof.
  destruct (@get_data_from_dir_sessions clock no_wildcards (studio 12) "rec" discovered)
    as (_ & Hfiles & Hnodup).
  - reflexivity.
  - exact discovered_Ok.
  - split; [|exact Hnodup]. apply (Hfiles "a"); reflexivity.
Defined.

Lemma get_data_from_dir_companions_witness :
  ∃ fb, session_b !! "filebase" = Some (PStr fb)
    ∧ companion_recorded session_b "ult_meta_file" "ult_meta_exists" (fb +:+ "US.txt")
                         (isfile (studio 12) (fb +:+ "US.txt"))
    ∧ companion_recorded session_b "ult_wav_file" "ult_wav_exists" (fb +:+ ".wav")
                         (isfile (studio 12) (fb +:+ ".wav"))
    ∧ companion_recorded session_b "ult_file" "ult_exists" (fb +:+ ".ult")
                         (isfile (studio 12) (fb +:+ ".ult"))
    ∧ session_b !! "excluded"
      = if isfile (studio 12) (fb +:+ "US.txt") && isfile (studio 12) (fb +:+ ".wav")
           && isfile (studio 12) (fb +:+ ".ult")
        then None else Some (PBool true).
Proof.
  apply (@get_data_from_dir_companions clock no_wildcards (studio 12) "rec" discovered).
  - exact discovered_Ok.
  - exact session_b_discovered.
Defined.

Lemma get_data_from_dir_order_witness :
  ∃ rows : list (Z * string),
    Forall2 (λ item row, item !! "date" = Some (@PDate clock row.1)
                         ∧ item !! "ult_prompt_file" = Some (PStr row.2))
            discovered rows
    ∧ StronglySorted
        (λ row1 row2, @not_later clock row1.1 row2.1
                      ∧ (@not_later clock row2.1 row1.1
                         → String.ltb row2.2 row1.2 = false))
        rows.
Proof.
  apply (@get_data_from_dir_order clock no_wildcards (studio 12) "rec" discovered).
  - exact clock_date_order.
  - exact discovered_Ok.
Defined.

Lemma get_data_from_dir_bad_prompt_witness :
  ∃ e', @get_data_from_dir clock no_wildcards studio_short_prompt "rec" = Raise e'.
Proof.
  apply (@get_data_from_dir_bad_prompt clock no_wildcards studio_short_prompt "rec" "rec/c.txt"
           (IndexError list_index_out_of_range)).
  - apply (bool_decide_unpack _). vm_compute. exact I.
  - vm_compute. reflexivity.
Defined.

Lemma compute_excluded_session_witness :
  @compute binary64 (decimal_builtins binary64) (toy_libs binary64) clock
           (studio 12) session_b
  = Raise (KeyError "ult_wav_file").
Proof.
  destruct (@compute_excluded_session binary64 (decimal_builtins binary64)
              (toy_libs binary64) clock no_wildcards (studio 12) "rec" discovered session_b)
    as [_ Hwav].
  - exact discovered_Ok.
  - exact session_b_discovered.
  - reflexivity.
  - apply Hwav. reflexivity.
Defined.

Lemma read_prompt_short_file_witness :
  @read_prompt clock studio_short_prompt "rec/c.txt"
  = Raise (IndexError list_index_out_of_range)
  ∨ ∃ line1, @read_prompt clock studio_short_prompt "rec/c.txt"
             = Raise (ValueError (time_data_mismatch line1)).
Proof.
  apply (@read_prompt_short_file clock studio_short_prompt "rec/c.txt"
           (list_byte_of_string "one line")).
  - vm_compute. reflexivity.
  - vm_compute. lia.
Defined.

Lemma parse_ult_meta_rendered_witness :
  @_parse_ult_meta binary64 (decimal_builtins binary64) studio_crlf "rec/aUS.txt"
  = Ok (assigned
          (zip (map fst a_meta_entries)
               [PyInt 2; PyInt 2; PyFloat (of_Q (1 # 10)); PyInt 60;
                PyFloat (of_Q (1 # 10))])).
Proof.
  apply (@parse_ult_meta_rendered binary64 (decimal_builtins binary64) studio_crlf
           "rec/aUS.txt" (String CR nl)
           (list_byte_of_string (render_meta (String CR nl) a_meta_entries))).
  - vm_compute. reflexivity.
  - apply string_of_list_byte_of_string.
  - right. reflexivity.
  - repeat (apply Forall_cons; split); first [split; reflexivity | constructor].
  - repeat (apply Forall2_cons; split); first [reflexivity | constructor].
Defined.

Lemma parse_ult_meta_bad_line_witness :
  @_parse_ult_meta binary64 (decimal_builtins binary64) studio_blank_line "rec/aUS.txt"
  = Raise (ValueError (unpack_mismatch 1)).
Proof.
  destruct (@parse_ult_meta_bad_line binary64 (decimal_builtins binary64)
              studio_blank_line "rec/aUS.txt"
              (list_byte_of_string ("NumVectors=2" +:+ nl +:+ nl +:+ "PixPerVector=2" +:+ nl))
              ["NumVectors=2" +:+ nl] nl ["PixPerVector=2" +:+ nl])
    as (_ & Hblank & _).
  - vm_compute. reflexivity.
  - vm_compute. reflexivity.
  - repeat constructor. exists "NumVectors", ("2" +:+ nl), (PyInt 2).
    split; reflexivity.
  - apply Hblank. reflexivity.
Defined.

Lemma read_ult_meta_errors_witness :
  (studio_blank_line !! "rec/aUS.txt" = None
   ∧ ValueError (unpack_mismatch 1) = FileNotFoundError "rec/aUS.txt")
  ∨ (is_Some (studio_blank_line !! "rec/aUS.txt")
     ∧ ∃ what, ValueError (unpack_mismatch 1) = ValueError what
         ∧ @_parse_ult_meta binary64 (decimal_builtins binary64) studio_blank_line
             "rec/aUS.txt"
           = Raise (ValueError (unpack_mismatch 1)))
  ∨ (∃ meta before key after,
       @_parse_ult_meta binary64 (decimal_builtins binary64) studio_blank_line
         "rec/aUS.txt" = Ok meta
       ∧ required_keys = before ++ key :: after
       ∧ Forall (λ k, is_Some (meta !! k)) before
       ∧ meta !! key = None
       ∧ ValueError (unpack_mismatch 1) = KeyError key).
Proof.
  apply (@read_ult_meta_errors binary64 (decimal_builtins binary64) studio_blank_line
           "rec/aUS.txt" (ValueError (unpack_mismatch 1))).
  reflexivity.
Defined.

Lemma frame_decoder_keeps_every_byte_witness :
  ∃ v p, @PyInt binary64 2 = PyInt v ∧ @PyInt binary64 2 = PyInt p ∧ (v * p ≠ 0)%Z
    ∧ buf (ultra (loaded binary64 3))
      = samples (bytes_of (map Z.of_nat (seq 1 12)))
    ∧ length (shape (ultra (loaded binary64 3))) = 3
    ∧ product (shape (ultra (loaded binary64 3)))
      = Z.of_nat (length (bytes_of (map Z.of_nat (seq 1 12)))).
Proof.
  apply (@frame_decoder_keeps_every_byte binary64 (bytes_of (map Z.of_nat (seq 1 12)))
           (PyInt 2) (PyInt 2) (ultra (loaded binary64 3)) 3).
  reflexivity.
Defined.

Lemma compute_reads_only_witness :
  @compute binary64 (decimal_builtins binary64) (toy_libs binary64) clock
           (studio 12) (session_a 12)
  = @compute binary64 (decimal_builtins binary64) (toy_libs binary64) clock
             (delete "rec/b.txt" (studio 12))
             (<["excluded" := PBool true]> (session_a 12)).
Proof.
  apply (@compute_reads_only binary64 (decimal_builtins binary64) (toy_libs binary64)
           clock).
  - intros key Hkey. symmetry. apply lookup_insert_ne.
    repeat (apply elem_of_cons in Hkey as [->|Hkey]; [discriminate|]).
    inversion Hkey.
  - intros key path Hkey Hpath.
    apply elem_of_cons in Hkey as [->|Hkey].
    { change (session_a 12 !! "ult_wav_file") with (Some (@PStr clock "rec/a.wav")) in Hpath.
      injection Hpath as <-. reflexivity. }
    apply elem_of_cons in Hkey as [->|Hkey].
    { change (session_a 12 !! "ult_meta_file") with (Some (@PStr clock "rec/aUS.txt"))
        in Hpath.
      injection Hpath as <-. reflexivity. }
    apply elem_of_cons in Hkey as [->|Hkey].
    { change (session_a 12 !! "ult_file") with (Some (@PStr clock "rec/a.ult")) in Hpath.
      injection Hpath as <-. reflexivity. }
    inversion Hkey.
Defined.


Lemma compute_zero_frame_rate_witness :
  @compute binary64 (decimal_builtins binary64) (toy_libs binary64) clock
           lab_still (session_s lab_still)
  = Raise ZeroDivisionError.
Proof.
  edestruct (@compute_zero_frame_rate binary64 (decimal_builtins binary64)
               (toy_libs binary64) clock lab_still (session_s lab_still)
               (loaded_lab binary64 0 3))
    as [_ Hrun].
  - reflexivity.
  - simpl. lia.
  - reflexivity.
  - apply toy_interp2d_returns.
  - intros ultra_interp _. apply toy_optimize_returns.
  - reflexivity.
  - exact Hrun.
Defined.

Lemma load_session_discovered_witness :
  ∃ fb wav_data ult_data,
    session_a 12 !! "filebase" = Some (PStr fb)
    ∧ studio 12 !! (fb +:+ ".wav") = Some wav_data
    ∧ isfile (studio 12) (fb +:+ "US.txt") = true
    ∧ studio 12 !! (fb +:+ ".ult") = Some ult_data
    ∧ @load_session binary64 (decimal_builtins binary64) (toy_libs binary64) clock
        (studio 12) (session_a 12)
      = ('(samplerate, wav_frames) ← @wavfile_read binary64 (toy_libs binary64) wav_data;
         '(NumVectors, PixPerVector, PixelsPerMm, fps, TimeInSecOfFirstFrame) ←
           @read_ult_meta binary64 (decimal_builtins binary64) (studio 12)
             (fb +:+ "US.txt");
         '(frames, no_frames) ← frame_decoder ult_data NumVectors PixPerVector;
         Ok {| ult_wav_frames := wav_frames; ult_wav_fs := samplerate;
               ult_NumVectors := NumVectors; ult_PixPerVector := PixPerVector;
               ult_PixelsPerMm := PixelsPerMm; ult_fps := fps;
               ult_TimeInSecOfFirstFrame := TimeInSecOfFirstFrame;
               ultra := frames; ult_no_frames := no_frames |}).
Proof.
  apply (@load_session_discovered binary64 (decimal_builtins binary64)
           (toy_libs binary64) clock no_wildcards (studio 12) "rec" discovered (session_a 12)).
  - exact discovered_Ok.
  - exact session_a_discovered.
  - reflexivity.
Defined.

Lemma isometric_resampler_per_frame_witness :
  ∃ (x y xnew ynew : list (@float binary64)) (ultra_interp : list (@ndarray binary64)),
    @isometric_resampler binary64 (toy_libs binary64) (loaded binary64 3) = Ok ultra_interp
    ∧ length x = Z.to_nat 2 ∧ length y = Z.to_nat 2
    ∧ Forall2
        (λ fIdx im, ∃ (fr : @ndarray binary64) (f : @interpolant binary64 (toy_libs binary64)),
           buf fr = take (Z.to_nat (2 * 2))
                         (drop (Z.to_nat (Z.of_nat fIdx * (2 * 2)))
                               (buf (ultra (loaded binary64 3))))
           ∧ shape (transpose fr) = [2; 2]%Z
           ∧ @interp2d binary64 (toy_libs binary64) x y (transpose fr) = Ok f
           ∧ im = @interp_call binary64 (toy_libs binary64) f xnew ynew)
        (seq 0 (Z.to_nat (ult_no_frames (loaded binary64 3)))) ultra_interp.
Proof.
  eexists _, _, _, _, _. split; [reflexivity|].
  eapply (@isometric_resampler_per_frame binary64 (toy_libs binary64)
            (loaded binary64 3) 2 2).
  - reflexivity.
  - reflexivity.
  - lia.
  - lia.
  - reflexivity.
  - reflexivity.
  - reflexivity.
Defined.

(** ** Prompt files as they are written *)

Lemma one_line_spec (s : string) :
  one_line s = true →
  contains CR s = false
  ∧ forallb (λ c, negb (is_line_boundary c)) (list_ascii_of_string s) = true.
Proof.
  unfold one_line, contains. induction s as [|c s IH]; [auto|].
  cbn [list_ascii_of_string forallb existsb].
  intros [[Hb Hc%negb_true_iff]%andb_true_iff Hs]%andb_true_iff.
  destruct (IH Hs) as [Hcr Hbs]. rewrite Hb, Hbs, Hcr, Ascii.eqb_sym, Hc. auto.
Qed.

Lemma splitlines_line (line rest : string) :
  forallb (λ c, negb (is_line_boundary c)) (list_ascii_of_string line) = true →
  splitlines (line +:+ nl +:+ rest) = line :: splitlines rest.
Proof.
  induction line as [|c line IH]; rewrite ?append_nil, ?append_cons.
  - reflexivity.
  - cbn [list_ascii_of_string forallb].
    intros [Hc%negb_true_iff Hline]%andb_true_iff.
    cbn [splitlines]. rewrite Hc, (IH Hline). reflexivity.
Qed.

Section PromptFiles.
Context `{Datetime}.

(** Reading back a written prompt file.  For a file whose first three
    lines, ended by [LF] or by [CR LF], are the prompt, a timestamp and the
    comma-separated fields, [read_prompt] returns the prompt, the parsed
    timestamp and the first field; the line ending makes no difference,
    and what follows the third line is not read. *)
Theorem read_prompt_rendered (fs : filesystem) (filebase eol : string)
    (data : list Byte.byte) (prompt stamp third rest participant : string)
    (fields : list string) (date : datetime) :
  fs !! filebase = Some data →
  string_of_list_byte data
  = prompt +:+ eol +:+ stamp +:+ eol +:+ third +:+ eol +:+ rest →
  eol = nl ∨ eol = String CR nl →
  one_line prompt = true → one_line stamp = true → one_line third = true →
  strptime stamp = Some date →
  split "," third = participant :: fields →
  read_prompt fs filebase = Ok (prompt, date, participant).
Proof.
  intros Hfile Hdata Heol [Hp_cr Hp]%one_line_spec [Hs_cr Hs]%one_line_spec
    [Ht_cr Ht]%one_line_spec Hdate Hsplit.
  unfold read_prompt, open_text. rewrite Hfile. simpl. rewrite Hdata.
  rewrite (universal_newlines_line prompt eol _ Hp_cr Heol),
    (universal_newlines_line stamp eol _ Hs_cr Heol),
    (universal_newlines_line third eol _ Ht_cr Heol).
  rewrite (splitlines_line prompt _ Hp), (splitlines_line stamp _ Hs),
    (splitlines_line third _ Ht).
  simpl. rewrite Hdate. simpl. rewrite Hsplit. reflexivity.
Qed.
End PromptFiles.

Lemma read_prompt_rendered_witness :
  @read_prompt clock studio_crlf_prompt "rec/a.txt"
  = Ok ("tongue twister", 20200201101112%Z, "P1").
Proof.
  apply (@read_prompt_rendered clock studio_crlf_prompt "rec/a.txt" (String CR nl)
           (list_byte_of_string
              ("tongue twister" +:+ String CR nl +:+ "01/02/2020 10:11:12 AM"
               +:+ String CR nl +:+ "P1,session" +:+ String CR nl +:+ EmptyString))
           "tongue twister" "01/02/2020 10:11:12 AM" "P1,session" EmptyString "P1"
           ["session"]).
  - reflexivity.
  - apply string_of_list_byte_of_string.
  - right. reflexivity.
  - reflexivity.
  - reflexivity.
  - reflexivity.
  - reflexivity.
  - reflexivity.
Defined.

